(** * codix-backend: authorization, token lifecycle and transactions

    A shallow embedding of the controllers and middlewares of the backend
    (Express handlers over Mongoose models) together with the properties
    of its authorization and token-lifecycle core.

    Handlers are written in a small state-and-exception monad over a
    [World] that holds the committed database, the driver sessions that
    were opened, and a trace of the observable side effects (log lines,
    password hashes, object-store and mail calls).  The third-party
    collaborators (jsonwebtoken, bcrypt, validator, the Mongo driver, the
    object store, the mail transport) are described by their contracts. *)

From Stdlib Require Import ZArith NArith List Bool Ascii String Lia.
From stdpp Require Import base option strings gmap list.

Local Open Scope string_scope.
Local Open Scope nat_scope.

(* ===================================================================== *)
(** ** JavaScript values that the handlers distinguish *)
(* ===================================================================== *)

(** A document path that may be absent ([undefined]), explicitly [null],
    or hold a value.  [$unset] and assigning [undefined] before [save]
    both leave the path absent. *)
Inductive jsfield (A : Type) : Type :=
  | JUndefined
  | JNull
  | JVal (a : A).
Arguments JUndefined {A}.
Arguments JNull {A}.
Arguments JVal {A} a.

(** [x === null] *)
Definition is_null {A} (x : jsfield A) : bool :=
  match x with JNull => true | _ => false end.

(** Errors thrown by the code.  [ApiErr] is an instance of the
    repository's [ApiError] (status code and message); [JsErr] is any other
    exception, with the [name], [message] and [code] properties that the
    catch blocks inspect. *)
Inductive Error : Type :=
  | ApiErr (statusCode : nat) (message : string)
  | JsErr (name : string) (message : string) (code : option N).

Definition err_message (e : Error) : string :=
  match e with ApiErr _ m => m | JsErr _ m _ => m end.

Definition err_name (e : Error) : string :=
  match e with ApiErr _ _ => "Error" | JsErr n _ _ => n end.

Definition err_code (e : Error) : option N :=
  match e with ApiErr _ _ => None | JsErr _ _ c => c end.

(** [error instanceof ApiError] *)
Definition instanceof_ApiError (e : Error) : bool :=
  match e with ApiErr _ _ => true | JsErr _ _ _ => false end.

(** [error.statusCode], undefined for foreign exceptions. *)
Definition err_statusCode (e : Error) : option nat :=
  match e with ApiErr s _ => Some s | JsErr _ _ _ => None end.

(** Status of the HTTP answer when an exception reaches the framework:
    the error's own status code, 500 when it has none. *)
Definition http_status (e : Error) : nat :=
  match e with ApiErr s _ => s | JsErr _ _ _ => 500 end.

(** [s || dflt] on strings: the empty string is falsy. *)
Definition or_default (s dflt : string) : string :=
  if String.eqb s "" then dflt else s.

(* ===================================================================== *)
(** ** utils/validator.utils.js *)
(* ===================================================================== *)

Module Validator.

(** [/[A-Z]/] *)
Definition is_upper (c : ascii) : bool :=
  let n := nat_of_ascii c in (65 <=? n) && (n <=? 90).

(** [/[a-z]/] *)
Definition is_lower (c : ascii) : bool :=
  let n := nat_of_ascii c in (97 <=? n) && (n <=? 122).

(** [/\d/] *)
Definition is_digit (c : ascii) : bool :=
  let n := nat_of_ascii c in (48 <=? n) && (n <=? 57).

(** The character class of the fourth test, by character code:
    ! @ # $ % ^ & * ( ) _ + - = [ ] { } ; ' : (double quote) \ | , . < > / ? *)
Definition special_codes : list nat :=
  [33; 64; 35; 36; 37; 94; 38; 42; 40; 41; 95; 43; 45; 61; 91; 93;
   123; 125; 59; 39; 58; 34; 92; 124; 44; 46; 60; 62; 47; 63].

Definition is_special (c : ascii) : bool :=
  existsb (Nat.eqb (nat_of_ascii c)) special_codes.

(** [re.test(s)] for a one-character class: some character matches. *)
Fixpoint test (cls : ascii -> bool) (s : string) : bool :=
  match s with
  | EmptyString => false
  | String c rest => cls c || test cls rest
  end.

Definition isPasswordStrong (password : string) : bool :=
  test is_upper password &&
  test is_lower password &&
  test is_digit password &&
  test is_special password &&
  (6 <=? String.length password).

Definition is_space (c : ascii) : bool :=
  let n := nat_of_ascii c in
  (n =? 32) || ((9 <=? n) && (n <=? 13)).

(** [str.trim() === ""] : only white space. *)
Fixpoint all_space (s : string) : bool :=
  match s with
  | EmptyString => true
  | String c rest => is_space c && all_space rest
  end.

(** [!str || str.trim() === ""]; an absent body field is [None]. *)
Definition isStringEmpty (str : option string) : bool :=
  match str with
  | None => true
  | Some s => String.eqb s "" || all_space s
  end.

Definition areRequiredFieldsProvided (fields : list (option string)) : bool :=
  forallb (fun field => negb (isStringEmpty field)) fields.

End Validator.


(* ===================================================================== *)
(** ** jsonwebtoken *)
(* ===================================================================== *)

(** A signed token is determined by the key it was signed with, its
    payload and the two time stamps the library adds to the payload:
    [iat], the clock in whole seconds at signing, and [exp = iat +
    expiresIn].  Equal fields give the same token string and conversely,
    so [===] on token strings is equality of these records. *)
Record Token : Type := mkToken {
  tok_secret : string;
  tok_id : string;                      (* payload [_id] *)
  tok_claims : list (string * string);  (* remaining payload fields *)
  tok_iat : N;
  tok_exp : N
}.

(** What a caller may present as a token: a signed token, or a string
    that does not parse as one. *)
Inductive RawToken : Type :=
  | Jwt (t : Token)
  | Opaque (s : string).

#[global] Instance Token_eq_dec : EqDecision Token.
Proof. solve_decision. Defined.
#[global] Instance RawToken_eq_dec : EqDecision RawToken.
Proof. solve_decision. Defined.
#[global] Instance jsfield_eq_dec {A} `{EqDecision A} : EqDecision (jsfield A).
Proof. solve_decision. Defined.

(** Truthiness of a string value: only the empty string is falsy. *)
Definition truthy (r : RawToken) : bool :=
  match r with
  | Jwt _ => true
  | Opaque s => negb (String.eqb s "")
  end.

(** [a || b] on optional strings. *)
Definition js_or (a b : option RawToken) : option RawToken :=
  match a with
  | Some r => if truthy r then Some r else b
  | None => b
  end.

(** [!token] *)
Definition js_not (t : option RawToken) : bool :=
  match t with
  | Some r => negb (truthy r)
  | None => true
  end.

(** [incoming !== stored], [stored] being a document path. *)
Definition strict_neq (incoming : RawToken) (stored : jsfield RawToken) : bool :=
  negb (bool_decide (stored = JVal incoming)).

Module jwt.

Definition sign (id : string) (claims : list (string * string))
    (secret : string) (expiresIn : N) (clock : N) : RawToken :=
  Jwt {| tok_secret := secret; tok_id := id; tok_claims := claims;
         tok_iat := clock; tok_exp := (clock + expiresIn)%N |}.

(** [jwt.verify(token, secret)]: the decoded payload, or an exception
    for a malformed token, a signature made with another key, or a
    token whose [exp] has been reached. *)
Definition verify (token : RawToken) (secret : string) (clock : N)
    : Error + Token :=
  match token with
  | Opaque _ => inl (JsErr "JsonWebTokenError" "jwt malformed" None)
  | Jwt t =>
      if negb (String.eqb (tok_secret t) secret)
      then inl (JsErr "JsonWebTokenError" "invalid signature" None)
      else if (tok_exp t <=? clock)%N
      then inl (JsErr "TokenExpiredError" "jwt expired" None)
      else inr t
  end.

End jwt.

(* ===================================================================== *)
(** ** bcrypt *)
(* ===================================================================== *)

(** A password path holds either the plain text just assigned by a
    handler (the path is then "modified") or a hash produced by the
    pre-save hook. *)
Inductive Password : Type :=
  | Plain (s : string)
  | Hashed (cost : nat) (s : string).

#[global] Instance Password_eq_dec : EqDecision Password.
Proof. solve_decision. Defined.

Module bcrypt.
(** bcrypt reads the first 72 bytes of the password and ignores the rest. *)
Definition truncate (s : string) : string := String.substring 0 72 s.
Definition hash (s : string) (cost : nat) : Password := Hashed cost (truncate s).
Definition compare (s : string) (stored : Password) : bool :=
  match stored with
  | Hashed _ s' => String.eqb (truncate s) s'
  | Plain _ => false
  end.
End bcrypt.

(* ===================================================================== *)
(** ** Documents (models/*.js) *)
(* ===================================================================== *)

Record Admin : Type := mkAdmin {
  a_fullName : string;
  a_email : string;
  a_password : Password;
  a_refreshToken : jsfield RawToken;
  a_role : string;
  a_permissions : gmap string bool;
  a_lastLogin : option N;
  a_loginIP : option string;
  a_isActive : bool
}.

Record Client : Type := mkClient {
  c_fullName : string;
  c_email : string;
  c_password : Password;
  c_phone : string;
  c_role : string;
  c_status : string;
  c_isEmailVerified : bool;
  c_verificationToken : jsfield RawToken;
  c_refreshToken : jsfield RawToken
}.

Record Blog : Type := mkBlog {
  b_title : string;
  b_author : string;
  b_coverImage_url : option string
}.

Record Service : Type := mkService {
  s_title : string;
  s_description : string;
  s_price : Z;
  s_createdBy : string;
  s_thumbnail : option string;
  s_status : string
}.

Record Attachment : Type := mkAttachment {
  att_url : string;
  att_publicId : string;
  att_resourceType : option string
}.

Record ServiceRequest : Type := mkServiceRequest {
  r_title : string;
  r_createdBy : string;
  r_attachments : list Attachment;
  r_status : string
}.

(** The collections, keyed by [_id]. *)
Record DB : Type := mkDB {
  admins : gmap string Admin;
  clients : gmap string Client;
  blogs : gmap string Blog;
  services : gmap string Service;
  requests : gmap string ServiceRequest
}.

Definition set_admins (f : gmap string Admin -> gmap string Admin) (d : DB) : DB :=
  {| admins := f (admins d); clients := clients d; blogs := blogs d;
     services := services d; requests := requests d |}.
Definition set_clients (f : gmap string Client -> gmap string Client) (d : DB) : DB :=
  {| admins := admins d; clients := f (clients d); blogs := blogs d;
     services := services d; requests := requests d |}.
Definition set_blogs (f : gmap string Blog -> gmap string Blog) (d : DB) : DB :=
  {| admins := admins d; clients := clients d; blogs := f (blogs d);
     services := services d; requests := requests d |}.
Definition set_services (f : gmap string Service -> gmap string Service) (d : DB) : DB :=
  {| admins := admins d; clients := clients d; blogs := blogs d;
     services := f (services d); requests := requests d |}.
Definition set_requests
    (f : gmap string ServiceRequest -> gmap string ServiceRequest) (d : DB) : DB :=
  {| admins := admins d; clients := clients d; blogs := blogs d;
     services := services d; requests := f (requests d) |}.

Definition with_refreshToken (a : Admin) (r : jsfield RawToken) : Admin :=
  {| a_fullName := a_fullName a; a_email := a_email a; a_password := a_password a;
     a_refreshToken := r; a_role := a_role a; a_permissions := a_permissions a;
     a_lastLogin := a_lastLogin a; a_loginIP := a_loginIP a;
     a_isActive := a_isActive a |}.

Definition with_password (a : Admin) (p : Password) : Admin :=
  {| a_fullName := a_fullName a; a_email := a_email a; a_password := p;
     a_refreshToken := a_refreshToken a; a_role := a_role a;
     a_permissions := a_permissions a; a_lastLogin := a_lastLogin a;
     a_loginIP := a_loginIP a; a_isActive := a_isActive a |}.

Definition with_login (a : Admin) (t : N) (ip : string) : Admin :=
  {| a_fullName := a_fullName a; a_email := a_email a; a_password := a_password a;
     a_refreshToken := a_refreshToken a; a_role := a_role a;
     a_permissions := a_permissions a; a_lastLogin := Some t;
     a_loginIP := Some ip; a_isActive := a_isActive a |}.

Definition c_with_refreshToken (c : Client) (r : jsfield RawToken) : Client :=
  {| c_fullName := c_fullName c; c_email := c_email c; c_password := c_password c;
     c_phone := c_phone c; c_role := c_role c; c_status := c_status c;
     c_isEmailVerified := c_isEmailVerified c;
     c_verificationToken := c_verificationToken c; c_refreshToken := r |}.

Definition c_with_password (c : Client) (p : Password) : Client :=
  {| c_fullName := c_fullName c; c_email := c_email c; c_password := p;
     c_phone := c_phone c; c_role := c_role c; c_status := c_status c;
     c_isEmailVerified := c_isEmailVerified c;
     c_verificationToken := c_verificationToken c;
     c_refreshToken := c_refreshToken c |}.

Definition c_with_verificationToken (c : Client) (r : jsfield RawToken) : Client :=
  {| c_fullName := c_fullName c; c_email := c_email c; c_password := c_password c;
     c_phone := c_phone c; c_role := c_role c; c_status := c_status c;
     c_isEmailVerified := c_isEmailVerified c;
     c_verificationToken := r; c_refreshToken := c_refreshToken c |}.

Definition s_with_thumbnail (s : Service) (u : option string) : Service :=
  {| s_title := s_title s; s_description := s_description s; s_price := s_price s;
     s_createdBy := s_createdBy s; s_thumbnail := u; s_status := s_status s |}.

Definition r_with_attachments (r : ServiceRequest) (l : list Attachment) : ServiceRequest :=
  {| r_title := r_title r; r_createdBy := r_createdBy r; r_attachments := l;
     r_status := r_status r |}.

(* ===================================================================== *)
(** ** The world a handler runs in *)
(* ===================================================================== *)

(** State of the transaction of a driver session.  While a transaction is
    active the session works on its own view of the collections: the
    snapshot taken when the transaction started, with the writes issued
    through the session applied. *)
Inductive TxState : Type :=
  | TxNone
  | TxActive (view : DB)
  | TxCommitted
  | TxAborted.

Record Session : Type := mkSession {
  tx : TxState;
  ended : bool
}.

(** Side effects outside the database. *)
Inductive Event : Type :=
  | EvLog (level : string) (message : string)
  | EvHash (cost : nat)
  | EvDestroy (publicId : string) (resourceType : string)
  | EvUpload (path : string)
  | EvMail (to : string).

Record World : Type := mkWorld {
  db : DB;                   (* committed state *)
  sessions : list Session;   (* sessions opened so far, by handle *)
  trace : list Event         (* most recent event first *)
}.

(** Configuration and the answers of the external collaborators during
    one request. *)
Record Env : Type := mkEnv {
  ACCESS_TOKEN_SECRET : string;
  REFRESH_TOKEN_SECRET : string;
  ACCESS_TOKEN_EXPIRES_IN : option N;    (* seconds, when configured *)
  REFRESH_TOKEN_EXPIRES_IN : option N;
  clock : N;                             (* [Date.now()] in whole seconds *)
  new_ObjectId : string;                 (* the [_id] the driver generates *)
  isEmail : string -> bool;              (* validator.isEmail *)
  isMobilePhone : string -> bool;        (* validator.isMobilePhone *)
  ObjectId_isValid : string -> bool;     (* mongoose.Types.ObjectId.isValid *)
  (** [String(new ObjectId(id))]: the spelling under which the document
      that [id] denotes is stored; Mongoose casts the [id] given to
      [findByIdAndDelete] this way. *)
  ObjectId_cast : string -> string;
  (** What an object of the runtime inherits under a name from its
      prototype chain ([Object.prototype], Mongoose's
      [Document.prototype]): the truthiness of that property, or [None]
      when the chain has no property of that name. *)
  prototype_property : string -> option bool;
  (** express-rate-limit: does the limiter of the auth routes let a request
      from this IP through now? *)
  authRateLimiter_allows : string -> bool;
  Number : string -> option Z;           (* numeric value of a body field, [None] for NaN *)
  (** [cloudinary.uploader.destroy]: an exception, or the [result] field *)
  uploader_destroy : string -> string -> Error + string;
  (** [cloudinary.uploader.upload]: an exception, or the [secure_url] *)
  uploader_upload : string -> Error + option string;
  fs_existsSync : string -> bool;
  (** [transporter.sendMail] *)
  sendMail : string -> option Error
}.

Inductive Outcome (A : Type) : Type :=
  | Ret (a : A)
  | Throw (e : Error).
Arguments Ret {A} a.
Arguments Throw {A} e.

(** Did the computation return normally? *)
Definition succeeded {A} (o : Outcome A) : bool :=
  match o with Ret _ => true | Throw _ => false end.

(** Computations: state passing over the world, with exceptions. *)
Definition M (A : Type) : Type := World -> Outcome A * World.

Definition ret {A} (a : A) : M A := fun w => (Ret a, w).

Definition bind {A B} (m : M A) (k : A -> M B) : M B :=
  fun w =>
    match m w with
    | (Ret a, w') => k a w'
    | (Throw e, w') => (Throw e, w')
    end.

Definition throw {A} (e : Error) : M A := fun w => (Throw e, w).

(** [try { body } catch (error) { handler }] *)
Definition try_catch {A} (body : M A) (handler : Error -> M A) : M A :=
  fun w =>
    match body w with
    | (Ret a, w') => (Ret a, w')
    | (Throw e, w') => handler e w'
    end.

(** [try { body } finally { fin }]: [fin] runs on every exit; an exception
    of [fin] replaces the outcome of [body]. *)
Definition try_finally {A} (body : M A) (fin : M unit) : M A :=
  fun w =>
    match body w with
    | (o, w') =>
        match fin w' with
        | (Ret _, w'') => (o, w'')
        | (Throw e, w'') => (Throw e, w'')
        end
    end.

Declare Scope js_scope.
Delimit Scope js_scope with js.
Notation "x <- c1 ;; c2" := (bind c1 (fun x => c2))
  (at level 100, c1 at next level, right associativity) : js_scope.
Notation "c1 ;; c2" := (bind c1 (fun _ => c2))
  (at level 100, right associativity) : js_scope.
Notation "'when' b 'then' c" := (if b then c else ret tt)
  (at level 100, b at next level) : js_scope.
Local Open Scope js_scope.

Definition get_world : M World := fun w => (Ret w, w).
Definition put_world (w : World) : M unit := fun _ => (Ret tt, w).

Definition emit (e : Event) : M unit :=
  fun w => (Ret tt, {| db := db w; sessions := sessions w;
                       trace := e :: trace w |}).

Definition lift_result {A} (r : Error + A) : M A :=
  match r with inl e => throw e | inr a => ret a end.

Module logger.
Definition info (message : string) : M unit := emit (EvLog "info" message).
Definition warn (message : string) : M unit := emit (EvLog "warn" message).
Definition error (message : string) : M unit := emit (EvLog "error" message).
End logger.

(* ===================================================================== *)
(** ** Driver sessions and transactions *)
(* ===================================================================== *)

Definition set_session (sid : nat) (s : Session) (w : World) : World :=
  {| db := db w; sessions := <[sid := s]> (sessions w); trace := trace w |}.

Definition set_db (d : DB) (w : World) : World :=
  {| db := d; sessions := sessions w; trace := trace w |}.

Definition MongoError (message : string) : Error := JsErr "MongoError" message None.

(** [mongoose.startSession()]: a new handle. *)
Definition startSession : M nat :=
  fun w => (Ret (length (sessions w)),
            {| db := db w;
               sessions := sessions w ++ [ {| tx := TxNone; ended := false |} ];
               trace := trace w |}).

Definition lookup_session (sid : nat) : M Session :=
  fun w => match sessions w !! sid with
           | Some s => if ended s
                       then (Throw (MongoError "Use of expired sessions is not permitted"), w)
                       else (Ret s, w)
           | None => (Throw (MongoError "Unknown session"), w)
           end.

Definition startTransaction (sid : nat) : M unit :=
  s <- lookup_session sid ;;
  match tx s with
  | TxActive _ => throw (MongoError "Transaction already in progress")
  | _ => fun w => (Ret tt, set_session sid {| tx := TxActive (db w); ended := false |} w)
  end.

Definition commitTransaction (sid : nat) : M unit :=
  s <- lookup_session sid ;;
  match tx s with
  | TxActive view =>
      fun w => (Ret tt, set_session sid {| tx := TxCommitted; ended := false |}
                          (set_db view w))
  | TxCommitted => ret tt
  | TxAborted =>
      throw (MongoError "Cannot call commitTransaction after calling abortTransaction")
  | TxNone => throw (MongoError "No transaction started")
  end.

Definition abortTransaction (sid : nat) : M unit :=
  s <- lookup_session sid ;;
  match tx s with
  | TxActive _ =>
      fun w => (Ret tt, set_session sid {| tx := TxAborted; ended := false |} w)
  | TxCommitted =>
      throw (MongoError "Cannot call abortTransaction after calling commitTransaction")
  | TxAborted => throw (MongoError "Cannot call abortTransaction twice")
  | TxNone => throw (MongoError "No transaction started")
  end.

(** [session.endSession()]: releases the handle; a transaction still in
    progress is aborted.  Ending twice is a no-op. *)
Definition endSession (sid : nat) : M unit :=
  fun w => match sessions w !! sid with
           | Some s =>
               (Ret tt,
                set_session sid
                  {| tx := match tx s with TxActive _ => TxAborted | t => t end;
                     ended := true |} w)
           | None => (Ret tt, w)
           end.

(** The collections an operation sees: the transaction's view when it is
    issued through a session with an active transaction, the committed
    state otherwise. *)
Definition read_db (session : option nat) : M DB :=
  match session with
  | None => fun w => (Ret (db w), w)
  | Some sid =>
      s <- lookup_session sid ;;
      match tx s with
      | TxActive view => ret view
      | _ => fun w => (Ret (db w), w)
      end
  end.

Definition write_db (session : option nat) (f : DB -> DB) : M unit :=
  match session with
  | None => fun w => (Ret tt, set_db (f (db w)) w)
  | Some sid =>
      s <- lookup_session sid ;;
      match tx s with
      | TxActive view =>
          fun w => (Ret tt, set_session sid {| tx := TxActive (f view); ended := false |} w)
      | _ => fun w => (Ret tt, set_db (f (db w)) w)
      end
  end.

(* ===================================================================== *)
(** ** Mongoose models *)
(* ===================================================================== *)

(** Validation errors of Mongoose; the handlers look at their [name], and
    pass their [message] on. *)
Definition ValidationError (message : string) : Error :=
  JsErr "ValidationError" message None.

(** Duplicate key on a unique index. *)
Definition E11000 : Error :=
  JsErr "MongoServerError" "E11000 duplicate key error" (Some 11000%N).

Definition strlen_password (p : Password) : option nat :=
  match p with Plain s => Some (String.length s) | Hashed _ _ => None end.

Definition password_empty (p : Password) : bool :=
  match p with Plain s => String.eqb s "" | Hashed _ _ => false end.

(** [minlength] applies to a password path that was assigned, i.e. still
    plain; a stored hash is an unmodified path and is not validated. *)
Definition minlength_ok (n : nat) (p : Password) : bool :=
  match p with Plain s => n <=? String.length s | Hashed _ _ => true end.

Definition includes (l : list string) (s : string) : bool :=
  existsb (String.eqb s) l.

Module AdminModel.

(** The permission flags of the schema, all defaulting to [false]. *)
Definition flag_names : list string :=
  [ "manageServices"; "managePortfolio"; "manageClients"; "manageProjects";
    "manageTeam"; "manageTestimonials"; "manageBlog";
    "manageLeads"; "manageContacts"; "sendBulkEmails";
    "manageInvoices"; "managePayments"; "managePlans";
    "manageDeployments"; "accessLogs"; "manageBackups";
    "assignRoles"; "managePermissions"; "viewActivityLogs";
    "manageSecuritySettings"; "managePrivacySettings";
    "manageSiteSettings" ].

Definition default_permissions : gmap string bool :=
  list_to_map (map (fun n => (n, false)) flag_names).

(** Schema defaults under the flags given at creation; [strict] drops
    names that are not in the schema. *)
Definition cast_permissions (given : gmap string bool) : gmap string bool :=
  list_to_map
    (map (fun n => (n, default false (given !! n))) flag_names).

Definition role_enum : list string := ["superadmin"; "admin"; "moderator"; "client"].

(** Validators of the required paths; they run on every validated save. *)
Definition validate_required (a : Admin) : option Error :=
  if String.eqb (a_fullName a) "" then Some (ValidationError "Path `fullName` is required.")
  else if String.eqb (a_email a) "" then Some (ValidationError "Path `email` is required.")
  else if password_empty (a_password a) then Some (ValidationError "Path `password` is required.")
  else None.

Definition validate (is_new : bool) (a : Admin) : option Error :=
  match validate_required a with
  | Some e => Some e
  | None =>
      if negb (minlength_ok 8 (a_password a))
      then Some (ValidationError "Path `password` is shorter than the minimum allowed length (8).")
      else if is_new && negb (includes role_enum (a_role a))
      then Some (ValidationError "`role` is not a valid enum value.")
      else None
  end.

(** [pre("save")]: hash the password when it was modified. *)
Definition pre_save (a : Admin) : M Admin :=
  match a_password a with
  | Hashed _ _ => ret a
  | Plain s => emit (EvHash 12) ;; ret (with_password a (bcrypt.hash s 12))
  end.

Definition findById (id : string) (session : option nat) : M (option Admin) :=
  d <- read_db session ;; ret (admins d !! id).

(** [findOne({ email })]: the document and its [_id]. *)
Definition findOne_email (email : string) (session : option nat)
    : M (option (string * Admin)) :=
  d <- read_db session ;;
  ret (head (filter (fun kv => bool_decide (a_email kv.2 = email))
                    (map_to_list (admins d)))).

(** [doc.save(options)] on a document that is already stored. *)
Definition save (id : string) (a : Admin) (validateBeforeSave : bool)
    (session : option nat) : M Admin :=
  (when validateBeforeSave then
     match validate false a with Some e => throw e | None => ret tt end) ;;
  a' <- pre_save a ;;
  write_db session (set_admins (insert id a')) ;;
  ret a'.

(** [Admin.create([doc], { session })]: defaults, validation, the
    pre-save hook, then the insertion under the unique indexes. *)
Definition create (env : Env) (fullName email password role : string)
    (permissions : gmap string bool) (session : option nat)
    : M (string * Admin) :=
  let a := {| a_fullName := fullName; a_email := email;
              a_password := Plain password; a_refreshToken := JUndefined;
              a_role := role; a_permissions := cast_permissions permissions;
              a_lastLogin := None; a_loginIP := None; a_isActive := true |} in
  match validate true a with
  | Some e => throw e
  | None =>
      a' <- pre_save a ;;
      d <- read_db session ;;
      existing <- findOne_email email session ;;
      if bool_decide (is_Some (admins d !! new_ObjectId env)) || bool_decide (is_Some existing)
      then throw E11000
      else write_db session (set_admins (insert (new_ObjectId env) a')) ;;
           ret (new_ObjectId env, a')
  end.

(** [findByIdAndUpdate(id, { $unset: { refreshToken: 1 } })] *)
Definition unset_refreshToken (id : string) : M unit :=
  write_db None (set_admins (fun m =>
    match m !! id with
    | Some a => <[id := with_refreshToken a JUndefined]> m
    | None => m
    end)).

(** [findByIdAndDelete(id)]: the [id] is cast to an ObjectId, so the
    document is found under the spelling that the ObjectId prints as. *)
Definition findByIdAndDelete (env : Env) (id : string) (session : option nat)
    : M (option Admin) :=
  d <- read_db session ;;
  write_db session (set_admins (delete (ObjectId_cast env id))) ;;
  ret (admins d !! ObjectId_cast env id).

Definition comparePassword (a : Admin) (password : string) : bool :=
  bcrypt.compare password (a_password a).

(** Expiry of 15 minutes and 7 days unless configured. *)
Definition generateAccessToken (env : Env) (id : string) (a : Admin) : RawToken :=
  jwt.sign id [("role", a_role a); ("email", a_email a)]
    (ACCESS_TOKEN_SECRET env)
    (default 900%N (ACCESS_TOKEN_EXPIRES_IN env)) (clock env).

Definition generateRefreshToken (env : Env) (id : string) (a : Admin) : RawToken :=
  jwt.sign id [] (REFRESH_TOKEN_SECRET env)
    (default 604800%N (REFRESH_TOKEN_EXPIRES_IN env)) (clock env).

End AdminModel.

Module ClientModel.

Definition role_enum : list string := ["client"; "admin"].
Definition status_enum : list string := ["active"; "inactive"; "banned"; "pending"].

Definition validate_required (c : Client) : option Error :=
  if String.eqb (c_fullName c) "" then Some (ValidationError "Path `fullName` is required.")
  else if String.eqb (c_email c) "" then Some (ValidationError "Path `email` is required.")
  else if password_empty (c_password c) then Some (ValidationError "Path `password` is required.")
  else if String.eqb (c_phone c) "" then Some (ValidationError "Path `phone` is required.")
  else None.

Definition validate (is_new : bool) (c : Client) : option Error :=
  match validate_required c with
  | Some e => Some e
  | None =>
      if negb (minlength_ok 6 (c_password c))
      then Some (ValidationError "Path `password` is shorter than the minimum allowed length (6).")
      else if is_new && negb (includes role_enum (c_role c))
      then Some (ValidationError "`role` is not a valid enum value.")
      else None
  end.

Definition pre_save (c : Client) : M Client :=
  match c_password c with
  | Hashed _ _ => ret c
  | Plain s => emit (EvHash 10) ;; ret (c_with_password c (bcrypt.hash s 10))
  end.

Definition findById (id : string) (session : option nat) : M (option Client) :=
  d <- read_db session ;; ret (clients d !! id).

Definition findOne_email (email : string) (session : option nat)
    : M (option (string * Client)) :=
  d <- read_db session ;;
  ret (head (filter (fun kv => bool_decide (c_email kv.2 = email))
                    (map_to_list (clients d)))).

Definition findOne_phone (phone : string) (session : option nat)
    : M (option (string * Client)) :=
  d <- read_db session ;;
  ret (head (filter (fun kv => bool_decide (c_phone kv.2 = phone))
                    (map_to_list (clients d)))).

Definition save (id : string) (c : Client) (validateBeforeSave : bool)
    (session : option nat) : M Client :=
  (when validateBeforeSave then
     match validate false c with Some e => throw e | None => ret tt end) ;;
  c' <- pre_save c ;;
  write_db session (set_clients (insert id c')) ;;
  ret c'.

Definition create (env : Env) (fullName email password phone role : string)
    (session : option nat) : M (string * Client) :=
  let c := {| c_fullName := fullName; c_email := email;
              c_password := Plain password; c_phone := phone; c_role := role;
              c_status := "active"; c_isEmailVerified := false;
              c_verificationToken := JUndefined;
              c_refreshToken := JUndefined |} in
  match validate true c with
  | Some e => throw e
  | None =>
      c' <- pre_save c ;;
      d <- read_db session ;;
      by_email <- findOne_email email session ;;
      by_phone <- findOne_phone phone session ;;
      if bool_decide (is_Some (clients d !! new_ObjectId env))
         || bool_decide (is_Some by_email) || bool_decide (is_Some by_phone)
      then throw E11000
      else write_db session (set_clients (insert (new_ObjectId env) c')) ;;
           ret (new_ObjectId env, c')
  end.

Definition unset_refreshToken (id : string) : M unit :=
  write_db None (set_clients (fun m =>
    match m !! id with
    | Some c => <[id := c_with_refreshToken c JUndefined]> m
    | None => m
    end)).

Definition comparePassword (c : Client) (password : string) : bool :=
  bcrypt.compare password (c_password c).

(** Expiry of one day and 7 days unless configured. *)
Definition generateAccessToken (env : Env) (id : string) (c : Client) : RawToken :=
  jwt.sign id [("email", c_email c); ("fullName", c_fullName c); ("role", c_role c)]
    (ACCESS_TOKEN_SECRET env)
    (default 86400%N (ACCESS_TOKEN_EXPIRES_IN env)) (clock env).

Definition generateRefreshToken (env : Env) (id : string) (c : Client) : RawToken :=
  jwt.sign id [] (REFRESH_TOKEN_SECRET env)
    (default 604800%N (REFRESH_TOKEN_EXPIRES_IN env)) (clock env).

End ClientModel.

(* ===================================================================== *)
(** ** Requests and responses *)
(* ===================================================================== *)

(** The principal that the authentication middleware attaches to the
    request ([req.admin], [req.client]); the handlers read its [_id],
    [role] and [email]. *)
Record Principal : Type := mkPrincipal {
  p_id : string;
  p_role : string;
  p_email : string
}.

(** A request.  The fields of [body] and [params] are strings: the
    embedding covers the requests whose body fields are strings (absent
    fields included); a JSON body may also carry numbers, arrays and
    objects, which are outside this type. *)
Record Request : Type := mkRequest {
  cookies : gmap string RawToken;
  (** [req.header("Authorization")?.replace("Bearer ", "")] *)
  bearer : option RawToken;
  body : gmap string string;
  body_refreshToken : option RawToken;
  params : gmap string string;
  file_path : option string;
  ip : string;
  req_admin : option Principal;
  req_client : option Principal
}.

Definition attach_admin (req : Request) (p : option Principal) : Request :=
  {| cookies := cookies req; bearer := bearer req; body := body req;
     body_refreshToken := body_refreshToken req; params := params req;
     file_path := file_path req; ip := ip req;
     req_admin := p; req_client := req_client req |}.

Definition attach_client (req : Request) (p : option Principal) : Request :=
  {| cookies := cookies req; bearer := bearer req; body := body req;
     body_refreshToken := body_refreshToken req; params := params req;
     file_path := file_path req; ip := ip req;
     req_admin := req_admin req; req_client := p |}.

Inductive Data : Type :=
  | DEmpty
  | DTokens (accessToken refreshToken : RawToken)
  | DLogin (id : string) (accessToken refreshToken : RawToken)
  | DDoc (id : string)
  | DThumbnail (url : string)
  | DAttachments (l : list Attachment).

(** [res.status(s).cookie(..).clearCookie(..).json(new ApiResponse(s, data, message))] *)
Record Response : Type := mkResponse {
  res_status : nat;
  res_data : Data;
  res_message : string;
  res_cookies : list (string * RawToken);
  res_cleared : list string
}.

Definition json (status : nat) (data : Data) (message : string) : Response :=
  {| res_status := status; res_data := data; res_message := message;
     res_cookies := []; res_cleared := [] |}.

(** Status of the HTTP exchange: that of the response, or that of the
    error handed to the framework. *)
Definition status_of (o : Outcome Response) : nat :=
  match o with
  | Ret r => res_status r
  | Throw e => http_status e
  end.

(** [!field] for a body field: absent or the empty string. *)
Definition falsy (o : option string) : bool :=
  match o with None => true | Some s => String.eqb s "" end.

Definition str (o : option string) : string := default "" o.

Definition TypeError (message : string) : Error := JsErr "TypeError" message None.

(** Reading a property of [req.admin] / [req.client]. *)
Definition the_admin (req : Request) : M Principal :=
  match req_admin req with
  | Some p => ret p
  | None => throw (TypeError "Cannot read properties of undefined")
  end.

Definition the_client (req : Request) : M Principal :=
  match req_client req with
  | Some p => ret p
  | None => throw (TypeError "Cannot read properties of undefined")
  end.

Definition admin_principal (id : string) (a : Admin) : Principal :=
  {| p_id := id; p_role := a_role a; p_email := a_email a |}.

Definition client_principal (id : string) (c : Client) : Principal :=
  {| p_id := id; p_role := c_role c; p_email := c_email c |}.

(* ===================================================================== *)
(** ** middlewares: admin authentication *)
(* ===================================================================== *)

Definition verifyAdminJwt (env : Env) (req : Request) : M Request :=
  try_catch
    ((* 1. Get token from cookies or Authorization header *)
     let token := js_or (cookies req !! "adminAccessToken") (bearer req) in
     match token with
     | None => throw (ApiErr 401 "Unauthorized request - No token provided")
     | Some tk =>
       if negb (truthy tk)
       then throw (ApiErr 401 "Unauthorized request - No token provided")
       else
         (* 2. Verify token *)
         decodedToken <- lift_result (jwt.verify tk (ACCESS_TOKEN_SECRET env) (clock env)) ;;
         (* 3. Find admin (including refreshToken for verification) *)
         admin <- AdminModel.findById (tok_id decodedToken) None ;;
         match admin with
         | None => throw (ApiErr 401 "Invalid admin token or account inactive")
         | Some a =>
           if negb (a_isActive a)
           then throw (ApiErr 401 "Invalid admin token or account inactive")
           else
             (* 4. Verify token hasn't been invalidated *)
             if is_null (a_refreshToken a)
             then throw (ApiErr 401 "Token invalidated - please login again")
             else
               (* 5. Attach admin to request *)
               again <- AdminModel.findById (tok_id decodedToken) None ;;
               ret (attach_admin req
                      (admin_principal (tok_id decodedToken) <$> again))
         end
     end)
    (fun error =>
       throw (ApiErr 401 (or_default (err_message error) "Invalid admin access token"))).

Definition verifyAdminRefreshToken (env : Env) (req : Request) : M Request :=
  try_catch
    (let incomingRefreshToken :=
       js_or (cookies req !! "adminRefreshToken") (body_refreshToken req) in
     match incomingRefreshToken with
     | None => throw (ApiErr 401 "Unauthorized request - No refresh token")
     | Some tk =>
       if negb (truthy tk)
       then throw (ApiErr 401 "Unauthorized request - No refresh token")
       else
         decodedToken <- lift_result (jwt.verify tk (REFRESH_TOKEN_SECRET env) (clock env)) ;;
         admin <- AdminModel.findById (tok_id decodedToken) None ;;
         match admin with
         | None => throw (ApiErr 401 "Invalid refresh token")
         | Some a =>
           if strict_neq tk (a_refreshToken a)
           then throw (ApiErr 401 "Refresh token is expired or used")
           else ret (attach_admin req (Some (admin_principal (tok_id decodedToken) a)))
         end
     end)
    (fun error =>
       throw (ApiErr 401 (or_default (err_message error) "Invalid refresh token"))).

(* ===================================================================== *)
(** ** middlewares: client authentication *)
(* ===================================================================== *)

Definition verifyJwt (env : Env) (req : Request) : M Request :=
  try_catch
    (let token := js_or (cookies req !! "accessToken") (bearer req) in
     match token with
     | None => throw (ApiErr 401 "unauthorised request")
     | Some tk =>
       if negb (truthy tk)
       then throw (ApiErr 401 "unauthorised request")
       else
         decodedToken <- lift_result (jwt.verify tk (ACCESS_TOKEN_SECRET env) (clock env)) ;;
         client <- ClientModel.findById (tok_id decodedToken) None ;;
         match client with
         | None => throw (ApiErr 403 "Invalid access Token")
         | Some c =>
           ret (attach_client req (Some (client_principal (tok_id decodedToken) c)))
         end
     end)
    (fun error => throw (ApiErr 401 (err_message error))).

(* ===================================================================== *)
(** ** controllers: admin accounts *)
(* ===================================================================== *)

Definition admin_default_permissions (role : string) : gmap string bool :=
  if String.eqb role "admin" then
    list_to_map
      [ ("manageServices", true); ("managePortfolio", true);
        ("manageClients", true); ("manageProjects", true);
        ("manageTeam", true); ("manageTestimonials", true);
        ("manageBlog", true);
        ("manageLeads", true); ("manageContacts", true);
        ("sendBulkEmails", true);
        ("manageInvoices", true); ("managePayments", true);
        ("managePlans", true);
        ("viewActivityLogs", true) ]
  else if String.eqb role "moderator" then
    list_to_map
      [ ("manageBlog", true); ("manageTestimonials", true);
        ("manageLeads", true); ("manageContacts", true);
        ("viewActivityLogs", false) ]
  else if String.eqb role "client" then
    list_to_map [ ("manageProjects", false); ("viewActivityLogs", false) ]
  else ∅.

(** Superadmin-only: create a new admin account. *)
Definition createAdmin (env : Env) (req : Request) : M Response :=
  session <- startSession ;;
  startTransaction session ;;
  try_finally
    (try_catch
       (logger.info "Starting createAdmin process" ;;
        (* 1. Authorization check *)
        me <- the_admin req ;;
        if negb (String.eqb (p_role me) "superadmin")
        then logger.error "Unauthorized: Only superadmin can create admin accounts" ;;
             throw (ApiErr 403 "Unauthorized: Only superadmin can create admin accounts")
        else
        let fullName := body req !! "fullName" in
        let email := body req !! "email" in
        let password := body req !! "password" in
        let role := body req !! "role" in
        (* 2. Input validation *)
        if negb (Validator.areRequiredFieldsProvided [fullName; email; password; role])
        then logger.error "Missing required fields" ;;
             throw (ApiErr 400 "All fields (fullName, email, password, role) are required")
        else if negb (isEmail env (str email))
        then logger.error "Invalid email format" ;;
             throw (ApiErr 400 "Invalid email format")
        else if negb (Validator.isPasswordStrong (str password))
        then logger.error "Password does not meet strength requirements" ;;
             throw (ApiErr 400 "Password must be at least 8 characters with uppercase, lowercase, number, and special character")
        else
        (* 3. Role validation *)
        if negb (includes ["admin"; "moderator"; "client"] (str role))
        then logger.error "Invalid admin role" ;;
             throw (ApiErr 400 "Role must be one of: admin, moderator, client")
        else
        (* 4. Check for existing admin *)
        existingAdmin <- AdminModel.findOne_email (str email) (Some session) ;;
        if bool_decide (is_Some existingAdmin)
        then logger.error "Email already in use" ;;
             throw (ApiErr 409 "Email already in use by another admin")
        else
        (* 5. Default permissions based on role; 6. create *)
        admin <- AdminModel.create env (str fullName) (str email) (str password)
                   (str role) (admin_default_permissions (str role)) (Some session) ;;
        (* 7. Save and commit transaction *)
        AdminModel.save admin.1 admin.2 true (Some session) ;;
        commitTransaction session ;;
        (* 8. Prepare response *)
        createdAdmin <- AdminModel.findById admin.1 (Some session) ;;
        match createdAdmin with
        | None => logger.error "Failed to create admin" ;;
                  throw (ApiErr 500 "Failed to create admin account")
        | Some _ =>
            logger.info ("Admin account created successfully for " +:+ str email) ;;
            ret (json 201 (DDoc admin.1) "Admin account created successfully")
        end)
       (fun error =>
          abortTransaction session ;;
          logger.error ("Error in createAdmin: " +:+ err_message error) ;;
          if instanceof_ApiError error then throw error
          else if String.eqb (err_name error) "ValidationError"
          then throw (ApiErr 400 (err_message error))
          else if bool_decide (err_code error = Some 11000%N)
          then throw (ApiErr 409 "Admin with this email already exists")
          else throw (ApiErr 500 (or_default (err_message error)
                                    "Failed to create admin account"))))
    (endSession session).

(** Admin login. *)
Definition loginAdmin (env : Env) (req : Request) : M Response :=
  let email := body req !! "email" in
  let password := body req !! "password" in
  try_catch
    (logger.info "Starting admin login process" ;;
     (* 1. Input validation *)
     if falsy email || falsy password
     then logger.error "Email and password are required" ;;
          throw (ApiErr 400 "Email and password are required")
     else if negb (isEmail env (str email))
     then logger.error "Invalid email format" ;;
          throw (ApiErr 400 "Invalid email format")
     else
     (* 2. Find admin *)
     found <- AdminModel.findOne_email (str email) None ;;
     match found with
     | None => logger.error "Admin not found with this email" ;;
               throw (ApiErr 404 "Admin not found")
     | Some (id, admin) =>
       (* 3. Check if account is active *)
       if negb (a_isActive admin)
       then logger.error "Admin account is inactive" ;;
            throw (ApiErr 403 "Admin account is inactive. Please contact superadmin.")
       else
       (* 4. Verify password *)
       if negb (AdminModel.comparePassword admin (str password))
       then logger.error "Invalid credentials" ;;
            throw (ApiErr 401 "Invalid credentials")
       else
       (* 5. Generate tokens *)
       let accessToken := AdminModel.generateAccessToken env id admin in
       let refreshToken := AdminModel.generateRefreshToken env id admin in
       (* 6. Save refresh token to database *)
       AdminModel.save id
         (with_login (with_refreshToken admin (JVal refreshToken)) (clock env) (ip req))
         false None ;;
       (* 7. Prepare response; 8. set cookies *)
       AdminModel.findById id None ;;
       logger.info ("Admin " +:+ str email +:+ " logged in successfully") ;;
       ret {| res_status := 200;
              res_data := DLogin id accessToken refreshToken;
              res_message := "Admin logged in successfully";
              res_cookies := [("adminAccessToken", accessToken);
                              ("adminRefreshToken", refreshToken)];
              res_cleared := [] |}
     end)
    (fun error =>
       logger.error ("Error in loginAdmin: " +:+ err_message error) ;;
       throw error).

(** Refresh token controller. *)
Definition refreshAdminToken (env : Env) (req : Request) : M Response :=
  try_catch
    (let incomingRefreshToken :=
       js_or (cookies req !! "adminRefreshToken") (body_refreshToken req) in
     match incomingRefreshToken with
     | None => throw (ApiErr 401 "Unauthorized request - No refresh token")
     | Some tk =>
       if negb (truthy tk)
       then throw (ApiErr 401 "Unauthorized request - No refresh token")
       else
         (* Verify the refresh token *)
         decodedToken <- lift_result (jwt.verify tk (REFRESH_TOKEN_SECRET env) (clock env)) ;;
         (* Find admin with refresh token *)
         found <- AdminModel.findById (tok_id decodedToken) None ;;
         match found with
         | None => throw (ApiErr 401 "Invalid refresh token")
         | Some admin =>
           (* Verify token matches stored token *)
           if strict_neq tk (a_refreshToken admin)
           then throw (ApiErr 401 "Refresh token is expired or used")
           else
             (* Generate new tokens *)
             let id := tok_id decodedToken in
             let newAccessToken := AdminModel.generateAccessToken env id admin in
             let newRefreshToken := AdminModel.generateRefreshToken env id admin in
             (* Update refresh token in database *)
             AdminModel.save id (with_refreshToken admin (JVal newRefreshToken))
               false None ;;
             ret {| res_status := 200;
                    res_data := DTokens newAccessToken newRefreshToken;
                    res_message := "Access token refreshed";
                    res_cookies := [("adminAccessToken", newAccessToken);
                                    ("adminRefreshToken", newRefreshToken)];
                    res_cleared := [] |}
         end
     end)
    (fun error =>
       throw (ApiErr 401 (or_default (err_message error) "Invalid refresh token"))).

(** Admin logout. *)
Definition logoutAdmin (env : Env) (req : Request) : M Response :=
  try_catch
    (logger.info "Starting admin logout process" ;;
     (* Find admin and clear refresh token *)
     me <- the_admin req ;;
     AdminModel.unset_refreshToken (p_id me) ;;
     logger.info ("Admin " +:+ p_email me +:+ " logged out successfully") ;;
     ret {| res_status := 200; res_data := DEmpty;
            res_message := "Admin logged out successfully";
            res_cookies := [];
            res_cleared := ["adminAccessToken"; "adminRefreshToken"] |})
    (fun error =>
       logger.error ("Error in logoutAdmin: " +:+ err_message error) ;;
       throw (ApiErr 500 "Failed to logout admin")).

(** Change password (for logged-in admins). *)
Definition changePassword (env : Env) (req : Request) : M Response :=
  session <- startSession ;;
  startTransaction session ;;
  try_finally
    (try_catch
       (logger.info "Starting changePassword process" ;;
        let currentPassword := body req !! "currentPassword" in
        let newPassword := body req !! "newPassword" in
        (* 1. Input validation *)
        if falsy currentPassword || falsy newPassword
        then logger.error "Current and new passwords are required" ;;
             throw (ApiErr 400 "Current and new passwords are required")
        else if negb (Validator.isPasswordStrong (str newPassword))
        then logger.error "New password does not meet strength requirements" ;;
             throw (ApiErr 400 "Password must be at least 8 characters with uppercase, lowercase, number, and special character")
        else
        (* 2. Get admin from request *)
        me <- the_admin req ;;
        found <- AdminModel.findById (p_id me) (Some session) ;;
        match found with
        | None => logger.error "Admin not found" ;;
                  throw (ApiErr 404 "Admin not found")
        | Some admin =>
          (* 3. Verify current password *)
          if negb (AdminModel.comparePassword admin (str currentPassword))
          then logger.error "Current password is incorrect" ;;
               throw (ApiErr 401 "Current password is incorrect")
          else
          (* 4. Check if new password is different *)
          if String.eqb (str currentPassword) (str newPassword)
          then logger.error "New password must be different from current password" ;;
               throw (ApiErr 400 "New password must be different from current password")
          else
          (* 5. Update password *)
          admin1 <- AdminModel.save (p_id me)
                      (with_password admin (Plain (str newPassword)))
                      true (Some session) ;;
          (* 6. Invalidate all sessions by clearing refresh token *)
          AdminModel.save (p_id me) (with_refreshToken admin1 JUndefined)
            true (Some session) ;;
          commitTransaction session ;;
          logger.info ("Password changed successfully for admin " +:+ a_email admin) ;;
          ret (json 200 DEmpty "Password changed successfully. Please login again.")
        end)
       (fun error =>
          abortTransaction session ;;
          logger.error ("Error in changePassword: " +:+ err_message error) ;;
          if instanceof_ApiError error then throw error
          else throw (ApiErr 500 (or_default (err_message error)
                                    "Failed to change password"))))
    (endSession session).

(* ===================================================================== *)
(** ** utils/emailService.js *)
(* ===================================================================== *)

Definition sendEmail (env : Env) (to : string) : M unit :=
  emit (EvMail to) ;;
  match sendMail env to with
  | None => ret tt
  | Some _ => throw (JsErr "Error" "Failed to send email" None)
  end.

Definition sendVerificationEmail (env : Env) (email : string) (token : RawToken) : M unit :=
  sendEmail env email.

(* ===================================================================== *)
(** ** controllers: client accounts *)
(* ===================================================================== *)

(** Generate access and refresh tokens, storing the refresh token. *)
Definition generateAccessAndRefreshToken (env : Env) (clientId : string)
    : M (RawToken * RawToken) :=
  try_catch
    (found <- ClientModel.findById clientId None ;;
     match found with
     | None => throw (TypeError "Cannot read properties of null")
     | Some client =>
         let accessToken := ClientModel.generateAccessToken env clientId client in
         let refreshToken := ClientModel.generateRefreshToken env clientId client in
         ClientModel.save clientId (c_with_refreshToken client (JVal refreshToken))
           false None ;;
         ret (accessToken, refreshToken)
     end)
    (fun error =>
       logger.error ("Error in generateAccessAndRefreshToken: " +:+ err_message error) ;;
       throw (ApiErr 500 "Failed to generate access and refresh tokens")).

(** Register a new client. *)
Definition registerClient (env : Env) (req : Request) : M Response :=
  session <- startSession ;;
  startTransaction session ;;
  try_finally
    (try_catch
       (logger.info "Starting registerClient process" ;;
        let fullName := body req !! "fullName" in
        let email := body req !! "email" in
        let password := body req !! "password" in
        let phone := body req !! "phone" in
        (* Validation *)
        if negb (Validator.areRequiredFieldsProvided [fullName; email; password; phone])
        then throw (ApiErr 400 "All fields are required")
        else if negb (isEmail env (str email))
        then throw (ApiErr 400 "Invalid email format")
        else if negb (isMobilePhone env (str phone))
        then throw (ApiErr 400 "Invalid phone number")
        else if negb (Validator.isPasswordStrong (str password))
        then throw (ApiErr 400 "Password must be at least 6 characters with uppercase, lowercase, number and special character")
        else
        (* Check if client exists *)
        existingClient <- ClientModel.findOne_email (str email) (Some session) ;;
        if bool_decide (is_Some existingClient)
        then throw (ApiErr 409 "Email already registered")
        else
        existingPhone <- ClientModel.findOne_phone (str phone) (Some session) ;;
        if bool_decide (is_Some existingPhone)
        then throw (ApiErr 409 "Phone number already registered")
        else
        (* Create client *)
        client <- ClientModel.create env (str fullName) (str email) (str password)
                    (str phone) "client" (Some session) ;;
        (* Generate verification token *)
        let verificationToken := ClientModel.generateAccessToken env client.1 client.2 in
        ClientModel.save client.1
          (c_with_verificationToken client.2 (JVal verificationToken))
          false (Some session) ;;
        (* Send verification email *)
        sendVerificationEmail env (str email) verificationToken ;;
        commitTransaction session ;;
        ClientModel.findById client.1 None ;;
        ret (json 201 (DDoc client.1)
               "Client registered successfully. Please verify your email."))
       (fun error =>
          abortTransaction session ;;
          logger.error ("Error in registerClient: " +:+ err_message error) ;;
          if instanceof_ApiError error then throw error
          else if String.eqb (err_name error) "ValidationError"
          then throw (ApiErr 400 (err_message error))
          else if bool_decide (err_code error = Some 11000%N)
          then throw (ApiErr 400 "Duplicate field value")
          else throw (ApiErr 500 "Failed to register client")))
    (endSession session).

(** Login client. *)
Definition loginClient (env : Env) (req : Request) : M Response :=
  let email := body req !! "email" in
  let password := body req !! "password" in
  if falsy email || falsy password
  then throw (ApiErr 400 "Email and password are required")
  else
  try_catch
    (found <- ClientModel.findOne_email (str email) None ;;
     match found with
     | None => throw (ApiErr 401 "Invalid credentials")
     | Some (id, client) =>
       if negb (c_isEmailVerified client)
       then throw (ApiErr 403 "Please verify your email first")
       else if negb (ClientModel.comparePassword client (str password))
       then throw (ApiErr 401 "Invalid credentials")
       else
         tokens <- generateAccessAndRefreshToken env id ;;
         ClientModel.findById id None ;;
         ret {| res_status := 200;
                res_data := DLogin id tokens.1 tokens.2;
                res_message := "Client logged in successfully";
                res_cookies := [("accessToken", tokens.1); ("refreshToken", tokens.2)];
                res_cleared := [] |}
     end)
    (fun error =>
       logger.error ("Error in loginClient: " +:+ err_message error) ;;
       throw (ApiErr (default 500 (err_statusCode error))
                (or_default (err_message error) "Login failed"))).

(** Logout client. *)
Definition logoutClient (env : Env) (req : Request) : M Response :=
  me <- the_client req ;;
  ClientModel.unset_refreshToken (p_id me) ;;
  ret {| res_status := 200; res_data := DEmpty;
         res_message := "Client logged out successfully";
         res_cookies := [];
         res_cleared := ["accessToken"; "refreshToken"] |}.

(** Refresh access token. *)
Definition refreshClientAccessToken (env : Env) (req : Request) : M Response :=
  let incomingRefreshToken :=
    js_or (cookies req !! "refreshToken") (body_refreshToken req) in
  match incomingRefreshToken with
  | None => throw (ApiErr 401 "Unauthorized request")
  | Some tk =>
    if negb (truthy tk)
    then throw (ApiErr 401 "Unauthorized request")
    else
    try_catch
      (decodedToken <- lift_result (jwt.verify tk (REFRESH_TOKEN_SECRET env) (clock env)) ;;
       found <- ClientModel.findById (tok_id decodedToken) None ;;
       match found with
       | None => throw (ApiErr 401 "Invalid refresh token")
       | Some client =>
         if strict_neq tk (c_refreshToken client)
         then throw (ApiErr 401 "Invalid refresh token")
         else
           tokens <- generateAccessAndRefreshToken env (tok_id decodedToken) ;;
           ret {| res_status := 200;
                  res_data := DTokens tokens.1 tokens.2;
                  res_message := "Access token refreshed";
                  res_cookies := [("accessToken", tokens.1); ("refreshToken", tokens.2)];
                  res_cleared := [] |}
       end)
      (fun error =>
         logger.error ("Error in refreshClientAccessToken: " +:+ err_message error) ;;
         throw (ApiErr 500 (or_default (err_message error) "Failed to refresh token")))
  end.

(** Change client password. *)
Definition changeClientPassword (env : Env) (req : Request) : M Response :=
  let oldPassword := body req !! "oldPassword" in
  let newPassword := body req !! "newPassword" in
  if falsy oldPassword || falsy newPassword
  then throw (ApiErr 400 "Both passwords are required")
  else
  me <- the_client req ;;
  found <- ClientModel.findById (p_id me) None ;;
  match found with
  | None => throw (ApiErr 404 "Client not found")
  | Some client =>
    if negb (ClientModel.comparePassword client (str oldPassword))
    then throw (ApiErr 401 "Invalid current password")
    else if negb (Validator.isPasswordStrong (str newPassword))
    then throw (ApiErr 400 "Password must be at least 6 characters with uppercase, lowercase, number and special character")
    else
      ClientModel.save (p_id me) (c_with_password client (Plain (str newPassword)))
        false None ;;
      ret (json 200 DEmpty "Password changed")
  end.

(* ===================================================================== *)
(** ** utils/cloudinary.utils.js *)
(* ===================================================================== *)

Module console.
Definition error (message : string) : M unit := emit (EvLog "console.error" message).
End console.

(** [url.split("/").pop()]: the part after the last slash. *)
Fixpoint last_segment (s : string) : string :=
  match s with
  | EmptyString => EmptyString
  | String c rest =>
      if Ascii.eqb c "/"%char then last_segment rest
      else if existsb (Ascii.eqb "/"%char) (list_ascii_of_string rest)
           then last_segment rest
           else String c rest
  end.

(** [name.split(".")[0]]: the part before the first dot. *)
Fixpoint before_dot (s : string) : string :=
  match s with
  | EmptyString => EmptyString
  | String c rest =>
      if Ascii.eqb c "."%char then EmptyString else String c (before_dot rest)
  end.

(** [url.split("/").pop().split(".")[0]] *)
Definition publicId_of_url (url : string) : string := before_dot (last_segment url).

Definition uploadOnCloudinary (env : Env) (LocalFilePath : option string)
    : M (option string) :=
  try_catch
    (if falsy LocalFilePath then throw (JsErr "Error" "No file path provided" None)
     else if negb (fs_existsSync env (str LocalFilePath))
     then throw (JsErr "Error" "File not found" None)
     else
       emit (EvUpload (str LocalFilePath)) ;;
       lift_result (uploader_upload env (str LocalFilePath)))
    (fun error =>
       console.error ("Cloudinary Upload Error: " +:+ err_message error) ;;
       throw (JsErr "Error" ("Upload failed: " +:+ err_message error) None)).

Definition deleteFromCloudinary (env : Env) (publicId : string) (resourceType : string)
    : M string :=
  try_catch
    (if String.eqb publicId "" then throw (JsErr "Error" "No public ID provided" None)
     else if negb (includes ["image"; "video"; "raw"] resourceType)
     then throw (JsErr "Error" "Invalid resource type. Must be one of: image, video, raw" None)
     else
       emit (EvDestroy publicId resourceType) ;;
       result <- lift_result (uploader_destroy env publicId resourceType) ;;
       if negb (String.eqb result "ok")
       then throw (JsErr "Error" ("Deletion failed: " +:+ result) None)
       else ret result)
    (fun error =>
       console.error ("Cloudinary Deletion Error: " +:+ err_message error) ;;
       throw (JsErr "Error" ("Deletion failed: " +:+ err_message error) None)).

(* ===================================================================== *)
(** ** controllers: services *)
(* ===================================================================== *)

Module ServicesModel.

Definition findById (id : string) (session : option nat) : M (option Service) :=
  d <- read_db session ;; ret (services d !! id).

Definition validate (s : Service) : option Error :=
  if String.eqb (s_title s) "" then Some (ValidationError "Path `title` is required.")
  else if String.eqb (s_description s) ""
  then Some (ValidationError "Path `description` is required.")
  else if (s_price s <? 0)%Z
  then Some (ValidationError "Path `price` is less than minimum allowed value (0).")
  else None.

Definition create (env : Env) (s : Service) (session : option nat)
    : M (string * Service) :=
  match validate s with
  | Some e => throw e
  | None =>
      d <- read_db session ;;
      if bool_decide (is_Some (services d !! new_ObjectId env))
      then throw E11000
      else write_db session (set_services (insert (new_ObjectId env) s)) ;;
           ret (new_ObjectId env, s)
  end.

Definition save (id : string) (s : Service) (session : option nat) : M unit :=
  match validate s with
  | Some e => throw e
  | None => write_db session (set_services (insert id s))
  end.

Definition findByIdAndDelete (id : string) (session : option nat) : M unit :=
  write_db session (set_services (delete id)).

End ServicesModel.

(** What the property read [admin.permissions[permission]] yields: a
    stored flag, [undefined], or a property that the permission object does
    not hold itself but inherits (a method such as [constructor] or
    [toObject]), of which the handlers see the truthiness. *)
Inductive PermissionValue : Type :=
  | PFlag (b : bool)
  | PUndefined
  | PInherited (truthy : bool).

(** [admin.permissions[permission]].  The permission set is the stored
    object of named boolean flags, read as a finite map from flag names; a
    name that is neither stored nor a flag of the schema is looked up on
    the prototype chain. *)
Definition permissions_get (env : Env) (admin : Admin) (permission : string)
    : PermissionValue :=
  match a_permissions admin !! permission with
  | Some b => PFlag b
  | None =>
      if includes AdminModel.flag_names permission then PUndefined
      else match prototype_property env permission with
           | Some truthy => PInherited truthy
           | None => PUndefined
           end
  end.

(** Helper to check admin permissions.  The value is [true], or whatever
    [admin.permissions[permission]] holds. *)
Definition checkAdminPermissions (env : Env) (adminId : string) (permission : string)
    : M PermissionValue :=
  found <- AdminModel.findById adminId None ;;
  match found with
  | None => throw (ApiErr 404 "Admin not found")
  | Some admin =>
      if String.eqb (a_role admin) "superadmin" then ret (PFlag true)
      else ret (permissions_get env admin permission)
  end.

(** [!hasPermission] *)
Definition not_permitted (hasPermission : PermissionValue) : bool :=
  match hasPermission with
  | PFlag b => negb b
  | PUndefined => true
  | PInherited truthy => negb truthy
  end.

(** Create a new service.  Of the body, the fields that the checks of the
    handler read are kept ([title], [description], [price]). *)
Definition createService (env : Env) (req : Request) : M Response :=
  session <- startSession ;;
  startTransaction session ;;
  try_finally
    (try_catch
       (logger.info "Starting createService process" ;;
        (* 1. Authorization check *)
        me <- the_admin req ;;
        hasPermission <- checkAdminPermissions env (p_id me) "manageServices" ;;
        if not_permitted hasPermission
        then logger.error "Unauthorized: Admin doesn't have permission to manage services" ;;
             throw (ApiErr 403 "Unauthorized: You don't have permission to manage services")
        else
        let title := body req !! "title" in
        let description := body req !! "description" in
        let price := body req !! "price" in
        (* 2. Required fields validation *)
        if falsy title || falsy description || bool_decide (price = None)
        then logger.error "Missing required fields" ;;
             throw (ApiErr 400 "Title, description and price are required")
        else
        (* 3. Price validation *)
        match Number env (str price) with
        | None => logger.error "Invalid price format" ;;
                  throw (ApiErr 400 "Price must be a number")
        | Some p =>
          (* 4. Create service *)
          service <- ServicesModel.create env
                       {| s_title := str title; s_description := str description;
                          s_price := p; s_createdBy := p_id me;
                          s_thumbnail := None; s_status := "active" |}
                       (Some session) ;;
          commitTransaction session ;;
          logger.info ("Service created successfully: " +:+ s_title service.2) ;;
          ret (json 201 (DDoc service.1) "Service created successfully")
        end)
       (fun error =>
          abortTransaction session ;;
          logger.error ("Error in createService: " +:+ err_message error) ;;
          if instanceof_ApiError error then throw error
          else if String.eqb (err_name error) "ValidationError"
          then throw (ApiErr 400 (err_message error))
          else if bool_decide (err_code error = Some 11000%N)
          then throw (ApiErr 409 "Service with this title already exists")
          else throw (ApiErr 500 (or_default (err_message error)
                                    "Failed to create service"))))
    (endSession session).

(** Delete service. *)
Definition deleteService (env : Env) (req : Request) : M Response :=
  session <- startSession ;;
  startTransaction session ;;
  try_finally
    (try_catch
       (logger.info "Starting deleteService process" ;;
        let serviceId := str (params req !! "serviceId") in
        (* 1. Authorization check *)
        me <- the_admin req ;;
        hasPermission <- checkAdminPermissions env (p_id me) "manageServices" ;;
        if not_permitted hasPermission
        then logger.error "Unauthorized: Admin doesn't have permission to manage services" ;;
             throw (ApiErr 403 "Unauthorized: You don't have permission to manage services")
        else
        (* 2. Validate service ID *)
        if negb (ObjectId_isValid env serviceId)
        then logger.error "Invalid service ID" ;;
             throw (ApiErr 400 "Invalid service ID")
        else
        (* 3. Find service *)
        found <- ServicesModel.findById serviceId (Some session) ;;
        match found with
        | None => logger.error "Service not found" ;;
                  throw (ApiErr 404 "Service not found")
        | Some service =>
          (* 4. Check if admin created this service or is superadmin *)
          let isSuperadmin := String.eqb (p_role me) "superadmin" in
          let isCreator := String.eqb (s_createdBy service) (p_id me) in
          if negb isCreator && negb isSuperadmin
          then logger.error "Unauthorized: You can only delete services you created" ;;
               throw (ApiErr 403 "Unauthorized: You can only delete services you created")
          else
          (* 5. Delete thumbnail from Cloudinary if it exists *)
          (when negb (falsy (s_thumbnail service)) then
             try_catch
               (let publicId := publicId_of_url (str (s_thumbnail service)) in
                logger.info ("Attempting to delete thumbnail from Cloudinary with publicId: " +:+ publicId) ;;
                deleteFromCloudinary env publicId "image" ;;
                logger.info "Thumbnail deleted from Cloudinary successfully")
               (fun cloudinaryError =>
                  (* Don't fail the entire operation if thumbnail deletion fails *)
                  logger.error "Failed to delete thumbnail from Cloudinary")) ;;
          (* 6. Delete the service *)
          ServicesModel.findByIdAndDelete serviceId (Some session) ;;
          commitTransaction session ;;
          logger.info ("Service deleted successfully: " +:+ s_title service) ;;
          ret (json 200 DEmpty "Service deleted successfully")
        end)
       (fun error =>
          abortTransaction session ;;
          logger.error ("Error in deleteService: " +:+ err_message error) ;;
          if instanceof_ApiError error then throw error
          else throw (ApiErr 500 (or_default (err_message error)
                                    "Failed to delete service"))))
    (endSession session).

(** Upload a thumbnail. *)
Definition uploadThumbnail (env : Env) (req : Request) : M Response :=
  session <- startSession ;;
  startTransaction session ;;
  try_catch
    (logger.info "Starting thumbnail upload process" ;;
     let serviceId := str (params req !! "serviceId") in
     (* 1. Authorization check *)
     me <- the_admin req ;;
     hasPermission <- checkAdminPermissions env (p_id me) "manageServices" ;;
     if not_permitted hasPermission
     then logger.error "Unauthorized: Admin doesn't have permission to manage services" ;;
          throw (ApiErr 403 "Unauthorized: You don't have permission to manage services")
     else
     (* 2. Validate service ID *)
     if negb (ObjectId_isValid env serviceId)
     then logger.error "Invalid service ID" ;;
          throw (ApiErr 400 "Invalid service ID")
     else
     (* 3. Check if file exists *)
     if falsy (file_path req)
     then logger.error "No thumbnail file uploaded" ;;
          throw (ApiErr 400 "Thumbnail file is required")
     else
     (* 4. Find the service *)
     found <- ServicesModel.findById serviceId (Some session) ;;
     match found with
     | None => logger.error "Service not found" ;;
               throw (ApiErr 404 "Service not found")
     | Some service =>
       (* 5. Check if admin created this service or is superadmin *)
       let isSuperadmin := String.eqb (p_role me) "superadmin" in
       let isCreator := String.eqb (s_createdBy service) (p_id me) in
       if negb isCreator && negb isSuperadmin
       then logger.error "Unauthorized: You can only update services you created" ;;
            throw (ApiErr 403 "Unauthorized: You can only update services you created")
       else
       (* 6. Upload to Cloudinary *)
       cloudinaryResponse <- uploadOnCloudinary env (file_path req) ;;
       if falsy cloudinaryResponse
       then logger.error "Failed to upload thumbnail to Cloudinary" ;;
            throw (ApiErr 500 "Failed to upload thumbnail")
       else
       (* 7. If there was an existing thumbnail, delete it from Cloudinary *)
       (when negb (falsy (s_thumbnail service)) then
          (deleteFromCloudinary env (publicId_of_url (str (s_thumbnail service))) "image" ;;
           ret tt)) ;;
       (* 8. Update service with new thumbnail URL *)
       ServicesModel.save serviceId (s_with_thumbnail service cloudinaryResponse)
         (Some session) ;;
       commitTransaction session ;;
       logger.info ("Thumbnail uploaded successfully for service: " +:+ s_title service) ;;
       ret (json 200 (DThumbnail (str cloudinaryResponse)) "Thumbnail uploaded successfully")
     end)
    (fun error =>
       abortTransaction session ;;
       logger.error ("Error in uploadThumbnail: " +:+ err_message error) ;;
       throw (ApiErr 500 (or_default (err_message error) "Failed to upload thumbnail"))).

(* ===================================================================== *)
(** ** controllers: blogs (client side) *)
(* ===================================================================== *)

Module BlogModel.
Definition findById (id : string) (session : option nat) : M (option Blog) :=
  d <- read_db session ;; ret (blogs d !! id).
Definition findByIdAndDelete (id : string) (session : option nat) : M unit :=
  write_db session (set_blogs (delete id)).
End BlogModel.

(** Permission checking with Client model verification. *)
Definition verifyBlogOwnership (clientId blogId : string) : M bool :=
  session <- startSession ;;
  startTransaction session ;;
  try_finally
    (try_catch
       ((* 1. Verify client exists and is active *)
        client <- ClientModel.findById clientId (Some session) ;;
        match client with
        | None => throw (ApiErr 404 "Client not found")
        | Some c =>
          if negb (String.eqb (c_status c) "active")
          then throw (ApiErr 403 "Client account is not active")
          else
          (* 2. Verify blog exists and belongs to this client *)
          blog <- BlogModel.findById blogId (Some session) ;;
          match blog with
          | None => throw (ApiErr 404 "Blog not found")
          | Some b =>
            if negb (String.eqb (b_author b) clientId)
            then throw (ApiErr 403 "Unauthorized: You don't own this blog")
            else commitTransaction session ;; ret true
          end
        end)
       (fun error =>
          abortTransaction session ;;
          logger.error ("Error in verifyBlogOwnership: " +:+ err_message error) ;;
          throw error))
    (endSession session).

(** Delete blog post with ownership verification. *)
Definition deleteBlog (env : Env) (req : Request) : M Response :=
  session <- startSession ;;
  startTransaction session ;;
  try_finally
    (try_catch
       (me <- the_client req ;;
        logger.info ("Starting deleteBlog process for client " +:+ p_id me) ;;
        let blogId := str (params req !! "blogId") in
        (* 1. Validate blog ID *)
        if negb (ObjectId_isValid env blogId)
        then logger.error "Invalid blog ID" ;;
             throw (ApiErr 400 "Invalid blog ID")
        else
        (* 2. Verify ownership *)
        verifyBlogOwnership (p_id me) blogId ;;
        (* 3. Find blog *)
        found <- BlogModel.findById blogId (Some session) ;;
        match found with
        | None => logger.error "Blog not found" ;;
                  throw (ApiErr 404 "Blog not found")
        | Some blog =>
          (* 4. Delete cover image from Cloudinary if it exists *)
          (when negb (falsy (b_coverImage_url blog)) then
             try_catch
               (let publicId := publicId_of_url (str (b_coverImage_url blog)) in
                logger.info ("Attempting to delete cover image from Cloudinary with publicId: " +:+ publicId) ;;
                deleteFromCloudinary env publicId "image" ;;
                logger.info "Cover image deleted from Cloudinary successfully")
               (fun cloudinaryError =>
                  (* Continue with blog deletion even if image deletion fails *)
                  logger.error "Failed to delete cover image from Cloudinary")) ;;
          (* 5. Delete the blog *)
          BlogModel.findByIdAndDelete blogId (Some session) ;;
          commitTransaction session ;;
          logger.info ("Blog deleted successfully by owner " +:+ p_id me +:+ ": " +:+ b_title blog) ;;
          ret (json 200 DEmpty "Blog deleted successfully")
        end)
       (fun error =>
          abortTransaction session ;;
          logger.error ("Error in deleteBlog: " +:+ err_message error) ;;
          if instanceof_ApiError error then throw error
          else throw (ApiErr 500 (or_default (err_message error)
                                    "Failed to delete blog"))))
    (endSession session).

(* ===================================================================== *)
(** ** controllers: client service requests *)
(* ===================================================================== *)

Module RequestModel.

(** [findOne({ _id, createdBy })] *)
Definition findOne_owned (id createdBy : string) (session : option nat)
    : M (option ServiceRequest) :=
  d <- read_db session ;;
  ret (match requests d !! id with
       | Some r => if String.eqb (r_createdBy r) createdBy then Some r else None
       | None => None
       end).

(** [findByIdAndUpdate(id, { $pull: { attachments: { publicId } } },
    { new: true, session })] *)
Definition pull_attachment (id publicId : string) (session : option nat)
    : M (option ServiceRequest) :=
  write_db session (set_requests (fun m =>
    match m !! id with
    | Some r =>
        <[id := r_with_attachments r
                  (filter (fun att => att_publicId att ≠ publicId)
                          (r_attachments r))]> m
    | None => m
    end)) ;;
  d <- read_db session ;;
  ret (requests d !! id).

End RequestModel.

(** Delete service request attachment from both Cloudinary and database. *)
Definition deleteServiceRequestAttachment (env : Env) (req : Request) : M Response :=
  session <- startSession ;;
  startTransaction session ;;
  try_finally
    (try_catch
       (let requestId := str (params req !! "requestId") in
        let publicId := params req !! "publicId" in
        if negb (ObjectId_isValid env requestId)
        then logger.warn "Invalid request ID format" ;;
             throw (ApiErr 400 "Invalid request ID format")
        else if falsy publicId
        then logger.warn "Invalid publicId provided" ;;
             throw (ApiErr 400 "Valid attachment public ID is required")
        else
        logger.info ("Deleting attachment " +:+ str publicId +:+ " from request " +:+ requestId) ;;
        (* Find the request and verify ownership *)
        me <- the_client req ;;
        serviceRequest <- RequestModel.findOne_owned requestId (p_id me) (Some session) ;;
        match serviceRequest with
        | None => logger.warn "Service request not found or unauthorized" ;;
                  throw (ApiErr 404 "Service request not found")
        | Some r =>
          (* Find the specific attachment *)
          match find (fun att => String.eqb (att_publicId att) (str publicId))
                     (r_attachments r) with
          | None => logger.warn "Attachment not found in request" ;;
                    throw (ApiErr 404 "Attachment not found in this request")
          | Some attachment =>
            (* Determine resource type from the attachment *)
            let resourceType :=
              if falsy (att_resourceType attachment) then "image"
              else if String.eqb (str (att_resourceType attachment)) "raw" then "raw"
              else if String.eqb (str (att_resourceType attachment)) "video" then "video"
              else "image" in
            (* Delete from Cloudinary with proper resource type *)
            deletionResult <- deleteFromCloudinary env (str publicId) resourceType ;;
            if negb (String.eqb deletionResult "ok")
            then logger.error "Failed to delete from Cloudinary" ;;
                 throw (ApiErr 500 "Failed to delete attachment from storage")
            else
            (* Remove from database *)
            updatedRequest <- RequestModel.pull_attachment requestId (str publicId)
                                (Some session) ;;
            commitTransaction session ;;
            logger.info ("Successfully deleted attachment " +:+ str publicId +:+ " from request " +:+ requestId) ;;
            match updatedRequest with
            | None => throw (TypeError "Cannot read properties of null")
            | Some u => ret (json 200 (DAttachments (r_attachments u))
                               "Attachment deleted successfully")
            end
          end
        end)
       (fun error =>
          abortTransaction session ;;
          logger.error ("Attachment deletion failed: " +:+ err_message error) ;;
          if instanceof_ApiError error then throw error
          else throw (ApiErr 500 "Attachment deletion failed")))
    (endSession session).

(* ===================================================================== *)
(** ** Concrete data for the examples *)
(* ===================================================================== *)

Module Fixture.

Definition is_hex (c : ascii) : bool :=
  let n := nat_of_ascii c in
  ((48 <=? n) && (n <=? 57)) || ((97 <=? n) && (n <=? 102))
  || ((65 <=? n) && (n <=? 70)).

(** Object ids written as 24 hexadecimal digits. *)
Definition hex24 (s : string) : bool :=
  (String.length s =? 24) && forallb is_hex (list_ascii_of_string s).

Definition has_at (s : string) : bool :=
  existsb (Ascii.eqb "@"%char) (list_ascii_of_string s).

(** Hexadecimal digits in lower case, as an ObjectId prints them. *)
Definition lower_hex (c : ascii) : ascii :=
  let n := nat_of_ascii c in
  if (65 <=? n) && (n <=? 70) then ascii_of_nat (n + 32) else c.

Fixpoint lower (s : string) : string :=
  match s with
  | EmptyString => EmptyString
  | String c rest => String (lower_hex c) (lower rest)
  end.

Definition env0 : Env :=
  {| ACCESS_TOKEN_SECRET := "access-secret";
     REFRESH_TOKEN_SECRET := "refresh-secret";
     ACCESS_TOKEN_EXPIRES_IN := None;
     REFRESH_TOKEN_EXPIRES_IN := None;
     clock := 1000%N;
     new_ObjectId := "64b0000000000000000000ff";
     isEmail := has_at;
     isMobilePhone := fun _ => true;
     ObjectId_isValid := hex24;
     ObjectId_cast := lower;
     prototype_property := fun name =>
       if includes ["constructor"; "toString"; "valueOf"; "hasOwnProperty";
                    "toObject"] name
       then Some true else None;
     authRateLimiter_allows := fun _ => true;
     Number := fun s => if String.eqb s "100" then Some 100%Z else None;
     uploader_destroy := fun _ _ => inr "ok";
     uploader_upload := fun _ => inr (Some "https://cdn.example/v1/new.png");
     fs_existsSync := fun _ => true;
     sendMail := fun _ => None |}.

Definition at_clock (env : Env) (t : N) : Env :=
  {| ACCESS_TOKEN_SECRET := ACCESS_TOKEN_SECRET env;
     REFRESH_TOKEN_SECRET := REFRESH_TOKEN_SECRET env;
     ACCESS_TOKEN_EXPIRES_IN := ACCESS_TOKEN_EXPIRES_IN env;
     REFRESH_TOKEN_EXPIRES_IN := REFRESH_TOKEN_EXPIRES_IN env;
     clock := t; new_ObjectId := new_ObjectId env;
     isEmail := isEmail env; isMobilePhone := isMobilePhone env;
     ObjectId_isValid := ObjectId_isValid env;
     ObjectId_cast := ObjectId_cast env;
     prototype_property := prototype_property env;
     authRateLimiter_allows := authRateLimiter_allows env;
     Number := Number env;
     uploader_destroy := uploader_destroy env;
     uploader_upload := uploader_upload env;
     fs_existsSync := fs_existsSync env; sendMail := sendMail env |}.

(** The object store refuses every deletion. *)
Definition store_down (env : Env) : Env :=
  {| ACCESS_TOKEN_SECRET := ACCESS_TOKEN_SECRET env;
     REFRESH_TOKEN_SECRET := REFRESH_TOKEN_SECRET env;
     ACCESS_TOKEN_EXPIRES_IN := ACCESS_TOKEN_EXPIRES_IN env;
     REFRESH_TOKEN_EXPIRES_IN := REFRESH_TOKEN_EXPIRES_IN env;
     clock := clock env; new_ObjectId := new_ObjectId env;
     isEmail := isEmail env; isMobilePhone := isMobilePhone env;
     ObjectId_isValid := ObjectId_isValid env;
     ObjectId_cast := ObjectId_cast env;
     prototype_property := prototype_property env;
     authRateLimiter_allows := authRateLimiter_allows env;
     Number := Number env;
     uploader_destroy := fun _ _ => inl (JsErr "Error" "connect ETIMEDOUT" None);
     uploader_upload := uploader_upload env;
     fs_existsSync := fs_existsSync env; sendMail := sendMail env |}.

(** The mail transport fails. *)
Definition mail_down (env : Env) : Env :=
  {| ACCESS_TOKEN_SECRET := ACCESS_TOKEN_SECRET env;
     REFRESH_TOKEN_SECRET := REFRESH_TOKEN_SECRET env;
     ACCESS_TOKEN_EXPIRES_IN := ACCESS_TOKEN_EXPIRES_IN env;
     REFRESH_TOKEN_EXPIRES_IN := REFRESH_TOKEN_EXPIRES_IN env;
     clock := clock env; new_ObjectId := new_ObjectId env;
     isEmail := isEmail env; isMobilePhone := isMobilePhone env;
     ObjectId_isValid := ObjectId_isValid env;
     ObjectId_cast := ObjectId_cast env;
     prototype_property := prototype_property env;
     authRateLimiter_allows := authRateLimiter_allows env;
     Number := Number env;
     uploader_destroy := uploader_destroy env;
     uploader_upload := uploader_upload env;
     fs_existsSync := fs_existsSync env;
     sendMail := fun _ => Some (JsErr "Error" "SMTP connection refused" None) |}.

Definition root_id : string := "64a000000000000000000001".
Definition alice_id : string := "64a000000000000000000002".
Definition mallory_id : string := "64a000000000000000000003".
Definition carol_id : string := "64c000000000000000000001".
Definition dave_id : string := "64c000000000000000000002".
Definition erin_id : string := "64c000000000000000000003".
Definition blog_id : string := "64d000000000000000000001".
Definition service_id : string := "64e000000000000000000001".
Definition request_id : string := "64f000000000000000000001".

(** The superadmin. *)
Definition root : Admin :=
  {| a_fullName := "Root"; a_email := "root@codix.dev";
     a_password := Hashed 12 "Sup3r!Secret"; a_refreshToken := JUndefined;
     a_role := "superadmin"; a_permissions := AdminModel.default_permissions;
     a_lastLogin := None; a_loginIP := None; a_isActive := true |}.

(** An admin whose [manageServices] flag is off. *)
Definition alice : Admin :=
  {| a_fullName := "Alice"; a_email := "alice@codix.dev";
     a_password := Hashed 12 "Al1ce!Secret"; a_refreshToken := JUndefined;
     a_role := "admin";
     a_permissions := <["manageBlog" := true]> AdminModel.default_permissions;
     a_lastLogin := None; a_loginIP := None; a_isActive := true |}.

(** A deactivated admin. *)
Definition mallory : Admin :=
  {| a_fullName := "Mallory"; a_email := "mallory@codix.dev";
     a_password := Hashed 12 "Mall0ry!Secret"; a_refreshToken := JUndefined;
     a_role := "admin";
     a_permissions := <["manageServices" := true]> AdminModel.default_permissions;
     a_lastLogin := None; a_loginIP := None; a_isActive := false |}.

Definition carol : Client :=
  {| c_fullName := "Carol"; c_email := "carol@example.com";
     c_password := Hashed 10 "Car0l!pw"; c_phone := "+15550001";
     c_role := "client"; c_status := "active"; c_isEmailVerified := true;
     c_verificationToken := JUndefined; c_refreshToken := JUndefined |}.

Definition dave : Client :=
  {| c_fullName := "Dave"; c_email := "dave@example.com";
     c_password := Hashed 10 "Dav3!pw"; c_phone := "+15550002";
     c_role := "client"; c_status := "active"; c_isEmailVerified := true;
     c_verificationToken := JUndefined; c_refreshToken := JUndefined |}.

(** A banned client. *)
Definition erin : Client :=
  {| c_fullName := "Erin"; c_email := "erin@example.com";
     c_password := Hashed 10 "Er1n!pw"; c_phone := "+15550003";
     c_role := "client"; c_status := "banned"; c_isEmailVerified := true;
     c_verificationToken := JUndefined; c_refreshToken := JUndefined |}.

Definition carols_blog : Blog :=
  {| b_title := "Hello"; b_author := carol_id;
     b_coverImage_url := Some "https://cdn.example/v1/cover.png" |}.

Definition alices_service : Service :=
  {| s_title := "Landing page"; s_description := "A landing page";
     s_price := 100%Z; s_createdBy := alice_id;
     s_thumbnail := Some "https://cdn.example/v1/thumb.png";
     s_status := "active" |}.

Definition carols_request : ServiceRequest :=
  {| r_title := "Shop"; r_createdBy := carol_id;
     r_attachments := [ {| att_url := "https://cdn.example/v1/brief.pdf";
                           att_publicId := "brief";
                           att_resourceType := Some "raw" |} ];
     r_status := "pending" |}.

Definition db0 : DB :=
  {| admins := <[root_id := root]> (<[alice_id := alice]> (<[mallory_id := mallory]> ∅));
     clients := <[carol_id := carol]> (<[dave_id := dave]> (<[erin_id := erin]> ∅));
     blogs := <[blog_id := carols_blog]> ∅;
     services := <[service_id := alices_service]> ∅;
     requests := <[request_id := carols_request]> ∅ |}.

Definition w0 : World := {| db := db0; sessions := []; trace := [] |}.

Definition req0 : Request :=
  {| cookies := ∅; bearer := None; body := ∅; body_refreshToken := None;
     params := ∅; file_path := None; ip := "203.0.113.7";
     req_admin := None; req_client := None |}.

Definition with_body (req : Request) (l : list (string * string)) : Request :=
  {| cookies := cookies req; bearer := bearer req; body := list_to_map l;
     body_refreshToken := body_refreshToken req; params := params req;
     file_path := file_path req; ip := ip req;
     req_admin := req_admin req; req_client := req_client req |}.

Definition with_params (req : Request) (l : list (string * string)) : Request :=
  {| cookies := cookies req; bearer := bearer req; body := body req;
     body_refreshToken := body_refreshToken req; params := list_to_map l;
     file_path := file_path req; ip := ip req;
     req_admin := req_admin req; req_client := req_client req |}.

Definition with_bearer (req : Request) (t : RawToken) : Request :=
  {| cookies := cookies req; bearer := Some t; body := body req;
     body_refreshToken := body_refreshToken req; params := params req;
     file_path := file_path req; ip := ip req;
     req_admin := req_admin req; req_client := req_client req |}.

Definition with_refresh (req : Request) (t : RawToken) : Request :=
  {| cookies := cookies req; bearer := bearer req; body := body req;
     body_refreshToken := Some t; params := params req;
     file_path := file_path req; ip := ip req;
     req_admin := req_admin req; req_client := req_client req |}.

Definition with_file (req : Request) (p : string) : Request :=
  {| cookies := cookies req; bearer := bearer req; body := body req;
     body_refreshToken := body_refreshToken req; params := params req;
     file_path := Some p; ip := ip req;
     req_admin := req_admin req; req_client := req_client req |}.

(** Outcome and final world of a handler. *)
Definition outcome {A} (r : Outcome A * World) : Outcome A := r.1.
Definition world {A} (r : Outcome A * World) : World := r.2.

(** Access token of the superadmin and a request carrying it. *)
Definition root_access : RawToken := AdminModel.generateAccessToken env0 root_id root.
Definition root_request : Request := with_bearer req0 root_access.

(** Access token of the deactivated admin and a request carrying it. *)
Definition mallory_access : RawToken :=
  AdminModel.generateAccessToken env0 mallory_id mallory.
Definition mallory_request : Request := with_bearer req0 mallory_access.

(** Access token of the banned client and a request carrying it. *)
Definition erin_access : RawToken := ClientModel.generateAccessToken env0 erin_id erin.
Definition erin_request : Request := with_bearer req0 erin_access.

(** The superadmin logs in at second 1000. *)
Definition root_login_request : Request :=
  with_body req0 [("email", "root@codix.dev"); ("password", "Sup3r!Secret")].
Definition w_root_logged_in : World := world (loginAdmin env0 root_login_request w0).
Definition root_refresh : RawToken := AdminModel.generateRefreshToken env0 root_id root.
Definition root_refresh_token : Token :=
  {| tok_secret := "refresh-secret"; tok_id := root_id; tok_claims := [];
     tok_iat := 1000%N; tok_exp := 605800%N |}.
Definition root_refresh_request : Request := with_refresh req0 root_refresh.

(** Carol logs in at second 1000. *)
Definition carol_login_request : Request :=
  with_body req0 [("email", "carol@example.com"); ("password", "Car0l!pw")].
Definition w_carol_logged_in : World := world (loginClient env0 carol_login_request w0).
Definition carol_refresh : RawToken := ClientModel.generateRefreshToken env0 carol_id carol.
Definition carol_refresh_token : Token :=
  {| tok_secret := "refresh-secret"; tok_id := carol_id; tok_claims := [];
     tok_iat := 1000%N; tok_exp := 605800%N |}.
Definition carol_refresh_request : Request := with_refresh req0 carol_refresh.

(** One second later. *)
Definition env1 : Env := at_clock env0 1001%N.

(** A registration. *)
Definition bob_registration : Request :=
  with_body req0 [("fullName", "Bob"); ("email", "bob@example.com");
                  ("password", "Abc12!"); ("phone", "+15550004")].

(** The superadmin uploads a thumbnail for, and deletes, Alice's service. *)
Definition thumbnail_upload : Request :=
  with_file
    (attach_admin (with_params req0 [("serviceId", service_id)])
       (Some (admin_principal root_id root)))
    "public/temp/thumb.png".
Definition service_deletion : Request :=
  attach_admin (with_params req0 [("serviceId", service_id)])
    (Some (admin_principal root_id root)).

(** Requests to delete a blog. *)
Definition delete_blog (who : Principal) (blogId : string) : Request :=
  attach_client (with_params req0 [("blogId", blogId)]) (Some who).
Definition carol_deletes_her_blog : Request :=
  delete_blog (client_principal carol_id carol) blog_id.

(** Carol removes the attachment of her service request. *)
Definition carol_removes_brief : Request :=
  attach_client
    (with_params req0 [("requestId", request_id); ("publicId", "brief")])
    (Some (client_principal carol_id carol)).

(** Password changes. *)
Definition alice_changes_password : Request :=
  with_body (attach_admin req0 (Some (admin_principal alice_id alice)))
    [("currentPassword", "Al1ce!Secret"); ("newPassword", "Abc12!x")].
Definition root_changes_password : Request :=
  with_body (attach_admin req0 (Some (admin_principal root_id root)))
    [("currentPassword", "Sup3r!Secret"); ("newPassword", "N3w!Secret")].
Definition carol_changes_password : Request :=
  with_body (attach_client req0 (Some (client_principal carol_id carol)))
    [("oldPassword", "Car0l!pw"); ("newPassword", "N3w!pw")].
Definition root_creates_admin (password : string) : Request :=
  with_body (attach_admin req0 (Some (admin_principal root_id root)))
    [("fullName", "Bob"); ("email", "bob@codix.dev");
     ("password", password); ("role", "admin")].

End Fixture.

(* ===================================================================== *)
(** ** controllers: admin accounts, the remaining handlers *)
(* ===================================================================== *)

(** [Admin.findOne({ role })] *)
Definition Admin_findOne_role (role : string) (session : option nat)
    : M (option (string * Admin)) :=
  d <- read_db session ;;
  ret (head (filter (fun kv => bool_decide (a_role kv.2 = role))
                    (map_to_list (admins d)))).

(** The permission set written by [createSuperadmin]: every flag on. *)
Definition superadmin_permissions : gmap string bool :=
  list_to_map
    [ ("manageServices", true); ("managePortfolio", true);
      ("manageClients", true); ("manageProjects", true);
      ("manageTeam", true); ("manageTestimonials", true);
      ("manageBlog", true);
      ("manageLeads", true); ("manageContacts", true);
      ("sendBulkEmails", true);
      ("manageInvoices", true); ("managePayments", true);
      ("managePlans", true);
      ("manageDeployments", true); ("accessLogs", true);
      ("manageBackups", true);
      ("assignRoles", true); ("managePermissions", true);
      ("viewActivityLogs", true);
      ("manageSecuritySettings", true); ("managePrivacySettings", true);
      ("manageSiteSettings", true) ].

(** Create the initial superadmin.  The handler has no [try]: what
    [Admin.create] throws reaches the framework as it is. *)
Definition createSuperadmin (env : Env) (req : Request) : M Response :=
  let fullName := body req !! "fullName" in
  let email := body req !! "email" in
  let password := body req !! "password" in
  (* Check if any superadmin already exists *)
  existingSuperadmin <- Admin_findOne_role "superadmin" None ;;
  if bool_decide (is_Some existingSuperadmin)
  then throw (ApiErr 403 "Superadmin already exists")
  else
    (* Create superadmin with all permissions *)
    superadmin <- AdminModel.create env (str fullName) (str email) (str password)
                    "superadmin" superadmin_permissions None ;;
    ret (json 201 (DDoc superadmin.1) "Initial superadmin created").

(** Superadmin-only: delete an admin account. *)
Definition deleteAdmin (env : Env) (req : Request) : M Response :=
  session <- startSession ;;
  startTransaction session ;;
  try_finally
    (try_catch
       (logger.info "Starting deleteAdmin process" ;;
        let adminId := str (params req !! "adminId") in
        (* 1. Authorization check *)
        me <- the_admin req ;;
        if negb (String.eqb (p_role me) "superadmin")
        then logger.error "Unauthorized: Only superadmin can delete admin accounts" ;;
             throw (ApiErr 403 "Unauthorized: Only superadmin can delete admin accounts")
        else
        (* 2. Validate admin ID *)
        if negb (ObjectId_isValid env adminId)
        then logger.error "Invalid admin ID" ;;
             throw (ApiErr 400 "Invalid admin ID")
        else
        (* 3. Prevent self-deletion *)
        if String.eqb adminId (p_id me)
        then logger.error "Superadmin cannot delete themselves" ;;
             throw (ApiErr 400 "Superadmin cannot delete themselves")
        else
        (* 4. Find and delete admin *)
        adminToDelete <- AdminModel.findByIdAndDelete env adminId (Some session) ;;
        match adminToDelete with
        | None => logger.error "Admin not found" ;;
                  throw (ApiErr 404 "Admin not found")
        | Some deleted =>
          (* 5. Commit transaction *)
          commitTransaction session ;;
          logger.info ("Admin " +:+ a_email deleted +:+ " deleted successfully") ;;
          ret (json 200 DEmpty "Admin account deleted successfully")
        end)
       (fun error =>
          abortTransaction session ;;
          logger.error ("Error in deleteAdmin: " +:+ err_message error) ;;
          if instanceof_ApiError error then throw error
          else if String.eqb (err_name error) "CastError"
          then throw (ApiErr 400 "Invalid admin ID")
          else throw (ApiErr 500 (or_default (err_message error)
                                    "Failed to delete admin account"))))
    (endSession session).

(* ===================================================================== *)
(** ** controllers: client accounts, the remaining handlers *)
(* ===================================================================== *)

Definition c_verified (c : Client) : Client :=
  {| c_fullName := c_fullName c; c_email := c_email c; c_password := c_password c;
     c_phone := c_phone c; c_role := c_role c; c_status := c_status c;
     c_isEmailVerified := true;
     c_verificationToken := JUndefined;
     c_refreshToken := c_refreshToken c |}.

(** Verify client email; [token] is [req.query.token]. *)
Definition verifyClientEmail (env : Env) (token : option RawToken) : M Response :=
  match token with
  | None => throw (ApiErr 400 "Verification token is required")
  | Some tk =>
    if negb (truthy tk)
    then throw (ApiErr 400 "Verification token is required")
    else
    try_catch
      (decodedToken <- lift_result (jwt.verify tk (ACCESS_TOKEN_SECRET env) (clock env)) ;;
       found <- ClientModel.findById (tok_id decodedToken) None ;;
       match found with
       | None => throw (ApiErr 404 "Client not found")
       | Some client =>
         if c_isEmailVerified client
         then throw (ApiErr 400 "Email already verified")
         else
           ClientModel.save (tok_id decodedToken) (c_verified client) false None ;;
           ret (json 200 DEmpty "Email verified successfully")
       end)
      (fun error =>
         logger.error ("Error in verifyClientEmail: " +:+ err_message error) ;;
         if String.eqb (err_name error) "JsonWebTokenError"
         then throw (ApiErr 400 "Invalid or expired token")
         else throw error)
  end.

(* ===================================================================== *)
(** ** controllers: services, the remaining handlers *)
(* ===================================================================== *)

Definition s_with_status (s : Service) (status : string) : Service :=
  {| s_title := s_title s; s_description := s_description s; s_price := s_price s;
     s_createdBy := s_createdBy s; s_thumbnail := s_thumbnail s;
     s_status := status |}.


(** Toggle service status. *)
Definition toggleServiceStatus (env : Env) (req : Request) : M Response :=
  session <- startSession ;;
  startTransaction session ;;
  try_finally
    (try_catch
       (logger.info "Starting toggleServiceStatus process" ;;
        let serviceId := str (params req !! "serviceId") in
        (* 1. Authorization check *)
        me <- the_admin req ;;
        hasPermission <- checkAdminPermissions env (p_id me) "manageServices" ;;
        if not_permitted hasPermission
        then logger.error "Unauthorized: Admin doesn't have permission to manage services" ;;
             throw (ApiErr 403 "Unauthorized: You don't have permission to manage services")
        else
        (* 2. Validate service ID *)
        if negb (ObjectId_isValid env serviceId)
        then logger.error "Invalid service ID" ;;
             throw (ApiErr 400 "Invalid service ID")
        else
        (* 3. Find service *)
        found <- ServicesModel.findById serviceId (Some session) ;;
        match found with
        | None => logger.error "Service not found" ;;
                  throw (ApiErr 404 "Service not found")
        | Some service =>
          (* 4. Check if admin created this service or is superadmin *)
          let isSuperadmin := String.eqb (p_role me) "superadmin" in
          let isCreator := String.eqb (s_createdBy service) (p_id me) in
          if negb isCreator && negb isSuperadmin
          then logger.error "Unauthorized: You can only update services you created" ;;
               throw (ApiErr 403 "Unauthorized: You can only update services you created")
          else
          (* 5. Toggle status *)
          let toggled :=
            s_with_status service
              (if String.eqb (s_status service) "active" then "inactive" else "active") in
          ServicesModel.save serviceId toggled (Some session) ;;
          commitTransaction session ;;
          logger.info ("Service status toggled to " +:+ s_status toggled +:+ ": "
                       +:+ s_title toggled) ;;
          ret (json 200 (DDoc serviceId) "Service status updated successfully")
        end)
       (fun error =>
          abortTransaction session ;;
          logger.error ("Error in toggleServiceStatus: " +:+ err_message error) ;;
          if instanceof_ApiError error then throw error
          else throw (ApiErr 500 (or_default (err_message error)
                                    "Failed to toggle service status"))))
    (endSession session).

(* ===================================================================== *)
(** ** routes *)
(* ===================================================================== *)

(** [router.route(path).post(middleware, handler)]: the handler runs on the
    request the middleware passed on; an error of the middleware ends the
    exchange. *)
Definition route (middleware : Env -> Request -> M Request)
    (handler : Env -> Request -> M Response) (env : Env) (req : Request)
    : M Response :=
  req' <- middleware env req ;; handler env req'.

(** What express-rate-limit answers when the limit is exceeded. *)
Definition too_many_requests : Response :=
  {| res_status := 429; res_data := DEmpty;
     res_message := "Too many requests from this IP, please try again after 15 minutes";
     res_cookies := []; res_cleared := [] |}.

(** [authRateLimiter]: passes the request on, or answers 429 by itself and
    ends the exchange. *)
Definition authRateLimiter (env : Env) (req : Request) : M (Response + Request) :=
  if authRateLimiter_allows env (ip req) then ret (inr req)
  else ret (inl too_many_requests).

(** [/api/v1/admin/refresh-token]:
    [post(verifyAdminRefreshToken, authRateLimiter, refreshAdminToken)] *)
Definition admin_refresh_token_route (env : Env) (req : Request) : M Response :=
  req1 <- verifyAdminRefreshToken env req ;;
  limited <- authRateLimiter env req1 ;;
  match limited with
  | inl answer => ret answer
  | inr req2 => refreshAdminToken env req2
  end.

(** [/api/v1/admin/:adminId], behind [router.use(verifyAdminJwt)]. *)
Definition admin_delete_route : Env -> Request -> M Response :=
  route verifyAdminJwt deleteAdmin.

(* ===================================================================== *)
(** ** Invariants of the stored data *)
(* ===================================================================== *)

Definition is_hashed (p : Password) : bool :=
  match p with Hashed _ _ => true | Plain _ => false end.

(** No stored document holds a password in plain text. *)
Definition passwords_hashed (d : DB) : Prop :=
  (forall id a, admins d !! id = Some a -> is_hashed (a_password a) = true) /\
  (forall id c, clients d !! id = Some c -> is_hashed (c_password c) = true).

(** There is at most one admin of role superadmin. *)
Definition at_most_one_superadmin (d : DB) : Prop :=
  forall i j a b,
    admins d !! i = Some a -> admins d !! j = Some b ->
    a_role a = "superadmin" -> a_role b = "superadmin" -> i = j.

(** What one request may do to the accounts. *)
Inductive account_step (d d' : DB) : Prop :=
| accounts_unchanged :
    d' = d -> account_step d d'
| admin_created (i : string) (a : Admin) :
    admins d !! i = None ->
    is_hashed (a_password a) = true ->
    (a_role a = "superadmin" ->
     forall j b, admins d !! j = Some b -> a_role b <> "superadmin") ->
    d' = set_admins (insert i a) d -> account_step d d'
| admin_updated (i : string) (a0 a : Admin) :
    admins d !! i = Some a0 ->
    a_role a = a_role a0 ->
    (is_hashed (a_password a0) = true -> is_hashed (a_password a) = true) ->
    d' = set_admins (insert i a) d -> account_step d d'
| admin_deleted (i : string) :
    d' = set_admins (delete i) d -> account_step d d'
| client_created (i : string) (c : Client) :
    clients d !! i = None ->
    is_hashed (c_password c) = true ->
    d' = set_clients (insert i c) d -> account_step d d'
| client_updated (i : string) (c0 c : Client) :
    clients d !! i = Some c0 ->
    (is_hashed (c_password c0) = true -> is_hashed (c_password c) = true) ->
    d' = set_clients (insert i c) d -> account_step d d'.

(** The modelled handlers that write the admin or the client collection. *)
Definition account_writers : list (Env -> Request -> M Response) :=
  [ createSuperadmin; createAdmin; deleteAdmin; loginAdmin; refreshAdminToken;
    logoutAdmin; changePassword;
    registerClient; loginClient; refreshClientAccessToken; logoutClient;
    changeClientPassword ].


(** The flags that [createAdmin] gives to no role. *)
Definition control_flags : list string :=
  [ "manageDeployments"; "accessLogs"; "manageBackups";
    "assignRoles"; "managePermissions";
    "manageSecuritySettings"; "managePrivacySettings"; "manageSiteSettings" ].

(** The session-wrapped handlers that have a [finally] block. *)
Definition releasing_handlers : list (Env -> Request -> M Response) :=
  [ registerClient; createAdmin; changePassword; createService; deleteService;
    deleteBlog; deleteServiceRequestAttachment; deleteAdmin; toggleServiceStatus ].

(** The session [sid] is ended and its transaction is in state [t]. *)
Definition settled (sid : nat) (t : TxState) (w : World) : Prop :=
  exists s, sessions w !! sid = Some s /\ ended s = true /\ tx s = t.


(** [status === "active" ? "inactive" : "active"] *)
Definition toggled (s : Service) : Service :=
  s_with_status s (if String.eqb (s_status s) "active" then "inactive" else "active").

(** [s.includes(c)] for a character. *)
Definition has_char (c : ascii) (s : string) : bool :=
  existsb (Ascii.eqb c) (list_ascii_of_string s).

(* ===================================================================== *)
(** ** More concrete data *)
(* ===================================================================== *)

Module Scenario.

(** A store without any admin. *)
Definition empty_db : DB :=
  {| admins := ∅; clients := ∅; blogs := ∅; services := ∅; requests := ∅ |}.
Definition w_empty : World := {| db := empty_db; sessions := []; trace := [] |}.

Definition first_superadmin : Request :=
  Fixture.with_body Fixture.req0
    [("fullName", "Root"); ("email", "root@codix.dev"); ("password", "Sup3r!Secret")].

(** The superadmin deletes Alice, with the access token as bearer. *)
Definition root_deletes_alice : Request :=
  Fixture.with_bearer
    (Fixture.with_params Fixture.req0 [("adminId", Fixture.alice_id)])
    Fixture.root_access.

(** A login with an email that nobody has, and Carol with a wrong password. *)
Definition nobody_login : Request :=
  Fixture.with_body Fixture.req0
    [("email", "nobody@example.com"); ("password", "Gu3ss!ng")].

(** Carol and the superadmin log out. *)
Definition carol_logout : Request :=
  attach_client Fixture.req0 (Some (client_principal Fixture.carol_id Fixture.carol)).
Definition root_logout : Request :=
  attach_admin Fixture.req0 (Some (admin_principal Fixture.root_id Fixture.root)).

(** The superadmin creates a service, and toggles Alice's service. *)
Definition root_creates_service : Request :=
  Fixture.with_body
    (attach_admin Fixture.req0 (Some (admin_principal Fixture.root_id Fixture.root)))
    [("title", "Shop"); ("description", "An online shop"); ("price", "100")].
Definition root_toggles : Request :=
  attach_admin
    (Fixture.with_params Fixture.req0 [("serviceId", Fixture.service_id)])
    (Some (admin_principal Fixture.root_id Fixture.root)).

(** A token for Carol that carries the right signature and expired at
    second 20. *)
Definition stale_token : Token :=
  {| tok_secret := "access-secret"; tok_id := Fixture.carol_id;
     tok_claims := []; tok_iat := 10%N; tok_exp := 20%N |}.

(** The superadmin asks for the deletion of its own account, spelling its
    id with an upper-case hexadecimal digit. *)
Definition root_id_upper : string := "64A000000000000000000001".
Definition root_deletes_itself : Request :=
  Fixture.with_bearer
    (Fixture.with_params Fixture.req0 [("adminId", root_id_upper)])
    Fixture.root_access.

(** Bob has registered and has not verified his email; he logs in with
    his password, and somebody else tries with a guess. *)
Definition w_bob_registered : World :=
  Fixture.world (registerClient Fixture.env0 Fixture.bob_registration Fixture.w0).
Definition bob_login : Request :=
  Fixture.with_body Fixture.req0
    [("email", "bob@example.com"); ("password", "Abc12!")].
Definition bob_wrong_password : Request :=
  Fixture.with_body Fixture.req0
    [("email", "bob@example.com"); ("password", "Gu3ss!ng")].

(** The first superadmin, with a password of eight lower-case letters. *)
Definition weak_superadmin : Request :=
  Fixture.with_body Fixture.req0
    [("fullName", "Root"); ("email", "root@codix.dev"); ("password", "password")].

(** The limiter of the auth routes has seen too many requests. *)
Definition rate_limited (env : Env) : Env :=
  {| ACCESS_TOKEN_SECRET := ACCESS_TOKEN_SECRET env;
     REFRESH_TOKEN_SECRET := REFRESH_TOKEN_SECRET env;
     ACCESS_TOKEN_EXPIRES_IN := ACCESS_TOKEN_EXPIRES_IN env;
     REFRESH_TOKEN_EXPIRES_IN := REFRESH_TOKEN_EXPIRES_IN env;
     clock := clock env; new_ObjectId := new_ObjectId env;
     isEmail := isEmail env; isMobilePhone := isMobilePhone env;
     ObjectId_isValid := ObjectId_isValid env;
     ObjectId_cast := ObjectId_cast env;
     prototype_property := prototype_property env;
     authRateLimiter_allows := fun _ => false;
     Number := Number env;
     uploader_destroy := uploader_destroy env;
     uploader_upload := uploader_upload env;
     fs_existsSync := fs_existsSync env;
     sendMail := sendMail env |}.

(** Two passwords of eighty characters that agree on the first
    seventy-two. *)
Definition seventy_two : string :=
  "Aa1!aaaaaaaaaaaaaaaaaaaaaaaaaaaaaaaaaaaaaaaaaaaaaaaaaaaaaaaaaaaaaaaaaaaa".
Definition long_old : string := seventy_two +:+ "old-tail".
Definition long_new : string := seventy_two +:+ "new-tail".
Definition root_long : Admin :=
  with_password Fixture.root (bcrypt.hash long_old 12).
Definition w_root_long : World :=
  {| db := set_admins (insert Fixture.root_id root_long) Fixture.db0;
     sessions := []; trace := [] |}.
Definition root_changes_long_password : Request :=
  Fixture.with_body
    (attach_admin Fixture.req0 (Some (admin_principal Fixture.root_id root_long)))
    [("currentPassword", long_old); ("newPassword", long_new)].

End Scenario.

(* ===================================================================== *)
(** ** A weakest-precondition calculus for handlers *)
(* ===================================================================== *)

(** [wp m w Q E]: run from [w], the computation [m] either returns a value
    and a world satisfying [Q], or throws an error with a world
    satisfying [E]. *)
Definition wp {A} (m : M A) (w : World)
    (Q : A -> World -> Prop) (E : Error -> World -> Prop) : Prop :=
  match m w with
  | (Ret a, w') => Q a w'
  | (Throw e, w') => E e w'
  end.

(** The embedded handlers that open a driver session and a transaction.
    In the repository twenty-seven handlers and the helper
    [verifyBlogOwnership] do; these are the ten handlers that are embedded
    ([deleteBlog] runs the helper), the other seventeen (the pricing
    handlers, the other blog and service-request handlers, [updateService],
    [updateClient], [deleteClient], [resetPassword]) are not. *)
Definition session_wrapped : list (Env -> Request -> M Response) :=
  [ registerClient; createAdmin; changePassword; deleteAdmin;
    createService; deleteService; toggleServiceStatus; uploadThumbnail;
    deleteBlog; deleteServiceRequestAttachment ].

(** The transaction of the session with handle [sid] has been aborted. *)
Definition aborted (sid : nat) (w : World) : Prop :=
  exists s, sessions w !! sid = Some s /\ tx s = TxAborted.

(** The session with handle [sid] has been released / is still held. *)
Definition released (sid : nat) (w : World) : Prop :=
  exists s, sessions w !! sid = Some s /\ ended s = true.

Definition held (sid : nat) (w : World) : Prop :=
  exists s, sessions w !! sid = Some s /\ ended s = false.

Section WpRules.
Context {A B : Type}.
Implicit Types (Q : A -> World -> Prop) (E : Error -> World -> Prop).

Lemma wp_ret (a : A) w Q E : Q a w -> wp (ret a) w Q E.
Proof. done. Qed.

Lemma wp_throw (e : Error) w Q E : E e w -> wp (throw e) w Q E.
Proof. done. Qed.

Lemma wp_bind (m : M B) (k : B -> M A) w Q E :
  wp m w (fun b w' => wp (k b) w' Q E) E -> wp (bind m k) w Q E.
Proof. unfold wp, bind. by destruct (m w) as [[b|e] w']. Qed.

Lemma wp_try_catch (body : M A) (handler : Error -> M A) w Q E :
  wp body w Q (fun e w' => wp (handler e) w' Q E) ->
  wp (try_catch body handler) w Q E.
Proof. unfold wp, try_catch. by destruct (body w) as [[a|e] w']. Qed.

Lemma wp_try_finally (body : M A) (fin : M unit) w Q E :
  wp body w (fun a w' => wp fin w' (fun _ w'' => Q a w'') E)
            (fun e w' => wp fin w' (fun _ w'' => E e w'') E) ->
  wp (try_finally body fin) w Q E.
Proof.
  unfold wp, try_finally.
  destruct (body w) as [[a|e] w']; by destruct (fin w') as [[[]|e'] w''].
Qed.

Lemma wp_mono (m : M A) w Q Q' E E' :
  wp m w Q E ->
  (forall a w', Q a w' -> Q' a w') -> (forall e w', E e w' -> E' e w') ->
  wp m w Q' E'.
Proof. unfold wp. destruct (m w) as [[a|e] w']; auto. Qed.

Lemma wp_run (m : M A) w Q E :
  wp m w Q E ->
  match (m w).1 with Ret a => Q a (m w).2 | Throw e => E e (m w).2 end.
Proof. unfold wp. by destruct (m w) as [[a|e] w']. Qed.

Lemma wp_Throw (m : M A) w Q E e w' :
  wp m w Q E -> m w = (Throw e, w') -> E e w'.
Proof. unfold wp. intros H Heq. by rewrite Heq in H. Qed.

Lemma wp_Ret (m : M A) w Q E a w' :
  wp m w Q E -> m w = (Ret a, w') -> Q a w'.
Proof. unfold wp. intros H Heq. by rewrite Heq in H. Qed.

Lemma wp_final (m : M A) w (R : World -> Prop) :
  wp m w (fun _ => R) (fun _ => R) -> R (m w).2.
Proof. unfold wp. by destruct (m w) as [[a|e] w']. Qed.

Lemma wp_must_throw (m : M A) w (E : Error -> World -> Prop) :
  wp m w (fun _ _ => False) E ->
  exists e, (m w).1 = Throw e /\ E e (m w).2.
Proof. unfold wp. destruct (m w) as [[a|e] w']; [done|]. eauto. Qed.

Lemma wp_must_return (m : M A) w Q :
  wp m w Q (fun _ _ => False) ->
  exists a, (m w).1 = Ret a /\ Q a (m w).2.
Proof. unfold wp. destruct (m w) as [[a|e] w']; [|done]. eauto. Qed.
End WpRules.

Lemma wp_emit (ev : Event) w (Q : unit -> World -> Prop) E :
  Q tt {| db := db w; sessions := sessions w; trace := ev :: trace w |} ->
  wp (emit ev) w Q E.
Proof. done. Qed.

Lemma wp_lift_result {A} (r : Error + A) w (Q : A -> World -> Prop) E :
  match r with inl e => E e w | inr a => Q a w end -> wp (lift_result r) w Q E.
Proof. by destruct r. Qed.

(** *** Sessions *)

Lemma lookup_snoc {A} (l : list A) (x : A) : ((l ++ [x])%list) !! length l = Some x.
Proof. by rewrite list_lookup_middle. Qed.

Lemma insert_snoc {A} (l : list A) (x y : A) :
  <[length l := y]> ((l ++ [x])%list) = (l ++ [y])%list.
Proof. rewrite insert_app_r_alt by lia. by rewrite Nat.sub_diag. Qed.

Lemma lookup_snoc2 {A} (l : list A) (x y : A) :
  (((l ++ [x]) ++ [y])%list) !! length l = Some x.
Proof.
  rewrite lookup_app_l by (rewrite length_app; simpl; lia). apply lookup_snoc.
Qed.

Lemma insert_snoc2 {A} (l : list A) (x y z : A) :
  <[length l := z]> (((l ++ [x]) ++ [y])%list) = ((l ++ [z]) ++ [y])%list.
Proof.
  rewrite insert_app_l by (rewrite length_app; simpl; lia). by rewrite insert_snoc.
Qed.

Lemma wp_startSession w (Q : nat -> World -> Prop) E :
  Q (length (sessions w))
    {| db := db w;
       sessions := sessions w ++ [ {| tx := TxNone; ended := false |} ];
       trace := trace w |} ->
  wp startSession w Q E.
Proof. done. Qed.

Lemma wp_startTransaction sid w (Q : unit -> World -> Prop) E :
  sessions w !! sid = Some {| tx := TxNone; ended := false |} ->
  Q tt (set_session sid {| tx := TxActive (db w); ended := false |} w) ->
  wp (startTransaction sid) w Q E.
Proof.
  intros Hs HQ. unfold wp, startTransaction, bind, lookup_session. by rewrite Hs.
Qed.

Lemma wp_commitTransaction sid view w (Q : unit -> World -> Prop) E :
  sessions w !! sid = Some {| tx := TxActive view; ended := false |} ->
  Q tt (set_session sid {| tx := TxCommitted; ended := false |} (set_db view w)) ->
  wp (commitTransaction sid) w Q E.
Proof.
  intros Hs HQ. unfold wp, commitTransaction, bind, lookup_session. by rewrite Hs.
Qed.

Lemma wp_abortTransaction sid view w (Q : unit -> World -> Prop) E :
  sessions w !! sid = Some {| tx := TxActive view; ended := false |} ->
  Q tt (set_session sid {| tx := TxAborted; ended := false |} w) ->
  wp (abortTransaction sid) w Q E.
Proof.
  intros Hs HQ. unfold wp, abortTransaction, bind, lookup_session. by rewrite Hs.
Qed.

Lemma wp_endSession sid s w (Q : unit -> World -> Prop) E :
  sessions w !! sid = Some s ->
  Q tt (set_session sid
          {| tx := match tx s with TxActive _ => TxAborted | t => t end;
             ended := true |} w) ->
  wp (endSession sid) w Q E.
Proof. intros Hs HQ. unfold wp, endSession. by rewrite Hs. Qed.

Lemma wp_read_db_tx sid view w (Q : DB -> World -> Prop) E :
  sessions w !! sid = Some {| tx := TxActive view; ended := false |} ->
  Q view w -> wp (read_db (Some sid)) w Q E.
Proof.
  intros Hs HQ. unfold wp, read_db, bind, lookup_session. by rewrite Hs.
Qed.

Lemma wp_read_db_committed sid w (Q : DB -> World -> Prop) E :
  sessions w !! sid = Some {| tx := TxCommitted; ended := false |} ->
  Q (db w) w -> wp (read_db (Some sid)) w Q E.
Proof.
  intros Hs HQ. unfold wp, read_db, bind, lookup_session. by rewrite Hs.
Qed.

Lemma wp_read_db w (Q : DB -> World -> Prop) E :
  Q (db w) w -> wp (read_db None) w Q E.
Proof. done. Qed.

Lemma wp_write_db_tx sid view f w (Q : unit -> World -> Prop) E :
  sessions w !! sid = Some {| tx := TxActive view; ended := false |} ->
  Q tt (set_session sid {| tx := TxActive (f view); ended := false |} w) ->
  wp (write_db (Some sid) f) w Q E.
Proof.
  intros Hs HQ. unfold wp, write_db, bind, lookup_session. by rewrite Hs.
Qed.

Lemma wp_write_db f w (Q : unit -> World -> Prop) E :
  Q tt (set_db (f (db w)) w) -> wp (write_db None f) w Q E.
Proof. done. Qed.

(** Simplification of the world after a step. *)
Ltac wp_simpl :=
  cbv beta;
  unfold set_session, set_db;
  cbn [db sessions trace fst snd
       instanceof_ApiError err_message err_name err_code err_statusCode];
  rewrite ?insert_snoc, ?insert_snoc2.

Ltac wp_lookup :=
  cbn [db sessions trace];
  first [ apply lookup_snoc | apply lookup_snoc2 | eassumption ].

(** One step of symbolic execution. *)
Ltac wp_step :=
  lazymatch goal with
  | |- wp (bind _ _) _ _ _ => apply wp_bind
  | |- wp (ret _) _ _ _ => apply wp_ret
  | |- wp (throw _) _ _ _ => apply wp_throw
  | |- wp (try_catch _ _) _ _ _ => apply wp_try_catch
  | |- wp (try_finally _ _) _ _ _ => apply wp_try_finally
  | |- wp (emit _) _ _ _ => apply wp_emit
  | |- wp (logger.info _) _ _ _ => apply wp_emit
  | |- wp (logger.warn _) _ _ _ => apply wp_emit
  | |- wp (logger.error _) _ _ _ => apply wp_emit
  | |- wp (console.error _) _ _ _ => apply wp_emit
  | |- wp startSession _ _ _ => apply wp_startSession
  | |- wp (startTransaction _) _ _ _ => apply wp_startTransaction; [wp_lookup|]
  | |- wp (commitTransaction _) _ _ _ => eapply wp_commitTransaction; [wp_lookup|]
  | |- wp (abortTransaction _) _ _ _ => eapply wp_abortTransaction; [wp_lookup|]
  | |- wp (endSession _) _ _ _ => eapply wp_endSession; [wp_lookup|]
  | |- wp (read_db None) _ _ _ => apply wp_read_db
  | |- wp (read_db (Some _)) _ _ _ =>
      first [ eapply wp_read_db_tx; [wp_lookup|]
            | eapply wp_read_db_committed; [wp_lookup|] ]
  | |- wp (write_db None _) _ _ _ => apply wp_write_db
  | |- wp (write_db (Some _) _) _ _ _ => eapply wp_write_db_tx; [wp_lookup|]
  | |- wp (lift_result _) _ _ _ => apply wp_lift_result
  end; wp_simpl.

Ltac wp_steps := repeat wp_step.

Ltac head_of t := lazymatch t with ?f _ => head_of f | _ => t end.

(** Use what is already known about a scrutinee instead of branching. *)
Ltac wp_known x :=
  progress (repeat match goal with
            | H : ?l = _ |- _ =>
                lazymatch x with context [l] => rewrite H end
            end);
  rewrite ?String.eqb_refl; cbn [negb andb orb]; cbv beta iota.

(** Symbolic execution through branches and model operations. *)
Ltac wp_go :=
  repeat first
    [ wp_step
    | lazymatch goal with
      | |- wp (if ?c then _ else _) _ _ _ => first [wp_known c | destruct c eqn:?]
      | |- wp (match ?x with _ => _ end) _ _ _ => first [wp_known x | destruct x eqn:?]
      | |- wp (the_admin ?r) _ _ _ => unfold the_admin
      | |- wp (the_client ?r) _ _ _ => unfold the_client
      | |- wp ?m _ _ _ => let h := head_of m in unfold h
      | |- match ?x with _ => _ end => first [wp_known x | destruct x eqn:?]
      end ].

(** Branches that the facts collected on the way exclude. *)
Ltac wp_absurd :=
  exfalso; simpl in *; try discriminate;
  repeat (case_match; simplify_eq/=);
  repeat match goal with
  | H : context [<[?i := _]> _ !! ?i] |- _ => rewrite lookup_insert_eq in H
  end; first [discriminate | congruence].

(* ===================================================================== *)
(** * Properties *)
(* ===================================================================== *)

Lemma verify_inr_Jwt tk secret now t :
  jwt.verify tk secret now = inr t -> tk = Jwt t.
Proof.
  destruct tk as [t'|s]; simpl; [|discriminate].
  destruct (negb _); [discriminate|].
  destruct (_ <=? _)%N; [discriminate|]. congruence.
Qed.

(** The admin middleware never changes the world. *)
Lemma verifyAdminJwt_world env req w : (verifyAdminJwt env req w).2 = w.
Proof.
  unfold verifyAdminJwt, try_catch, bind.
  destruct (js_or _ _) as [tk|]; [|reflexivity].
  destruct (truthy tk); simpl; [|reflexivity].
  destruct (jwt.verify _ _ _) as [e|t]; [reflexivity|]. simpl.
  destruct (admins (db w) !! tok_id t) as [a|]; [|reflexivity].
  destruct (a_isActive a); simpl; [|reflexivity].
  destruct (is_null _); reflexivity.
Qed.

Lemma verifyAdminJwt_valid env req w tk t a :
  js_or (cookies req !! "adminAccessToken") (bearer req) = Some tk ->
  jwt.verify tk (ACCESS_TOKEN_SECRET env) (clock env) = inr t ->
  admins (db w) !! tok_id t = Some a ->
  a_isActive a = true ->
  verifyAdminJwt env req w =
    if is_null (a_refreshToken a)
    then (Throw (ApiErr 401 "Token invalidated - please login again"), w)
    else (Ret (attach_admin req (Some (admin_principal (tok_id t) a))), w).
Proof.
  intros Htk Hv Ha Hact.
  pose proof (verify_inr_Jwt _ _ _ _ Hv) as ->.
  unfold verifyAdminJwt, try_catch, bind.
  rewrite Htk. cbn [truthy negb].
  rewrite Hv. simpl. rewrite Ha, Hact. simpl.
  destruct (is_null _); [reflexivity|].
  rewrite Ha. reflexivity.
Qed.

Lemma logoutAdmin_run env req w p :
  req_admin req = Some p ->
  exists tr,
    logoutAdmin env req w =
      (Ret {| res_status := 200; res_data := DEmpty;
              res_message := "Admin logged out successfully";
              res_cookies := [];
              res_cleared := ["adminAccessToken"; "adminRefreshToken"] |},
       {| db := set_admins (fun m =>
                  match m !! p_id p with
                  | Some a => <[p_id p := with_refreshToken a JUndefined]> m
                  | None => m
                  end) (db w);
          sessions := sessions w; trace := tr |}).
Proof.
  intros Hp. eexists.
  unfold logoutAdmin, try_catch, bind, the_admin. rewrite Hp. reflexivity.
Qed.

(** C10.  The admin middleware answers "Token invalidated" to an otherwise
    valid access token exactly when the stored refresh token is [null].
    [logoutAdmin] removes the path with [$unset], which leaves it absent
    and not [null]: after a logout the same unexpired access token of an
    active admin is still accepted. *)
Theorem logout_leaves_access_token_accepted
    (env : Env) (req : Request) (w : World) (tk : RawToken) (t : Token) (a : Admin) :
  js_or (cookies req !! "adminAccessToken") (bearer req) = Some tk ->
  jwt.verify tk (ACCESS_TOKEN_SECRET env) (clock env) = inr t ->
  admins (db w) !! tok_id t = Some a ->
  a_isActive a = true ->
  verifyAdminJwt env req w =
    (if is_null (a_refreshToken a)
     then (Throw (ApiErr 401 "Token invalidated - please login again"), w)
     else (Ret (attach_admin req (Some (admin_principal (tok_id t) a))), w))
  /\
  forall (envL : Env) (reqL : Request),
    req_admin reqL = Some (admin_principal (tok_id t) a) ->
    exists resp w1,
      logoutAdmin envL reqL w = (Ret resp, w1) /\
      res_status resp = 200 /\
      (a_refreshToken <$> admins (db w1) !! tok_id t) = Some JUndefined /\
      verifyAdminJwt env req w1 =
        (Ret (attach_admin req (Some (admin_principal (tok_id t) a))), w1).
Proof.
  intros Htk Hv Ha Hact. split.
  - exact (verifyAdminJwt_valid _ _ _ _ _ _ Htk Hv Ha Hact).
  - intros envL reqL Hp.
    destruct (logoutAdmin_run envL reqL w _ Hp) as [tr Hrun].
    eexists _, _. split; [exact Hrun|]. split; [reflexivity|].
    unfold set_admins; simpl. rewrite Ha.
    split.
    + by rewrite lookup_insert_eq.
    + rewrite (verifyAdminJwt_valid _ _ _ tk t (with_refreshToken a JUndefined));
        [reflexivity | exact Htk | exact Hv | | exact Hact].
      simpl. by rewrite lookup_insert_eq.
Qed.

Lemma logout_leaves_access_token_accepted_witness :
  verifyAdminJwt Fixture.env0 Fixture.root_request Fixture.w0 =
    (Ret (attach_admin Fixture.root_request
            (Some (admin_principal Fixture.root_id Fixture.root))), Fixture.w0)
  /\
  forall (envL : Env) (reqL : Request),
    req_admin reqL = Some (admin_principal Fixture.root_id Fixture.root) ->
    exists resp w1,
      logoutAdmin envL reqL Fixture.w0 = (Ret resp, w1) /\
      res_status resp = 200 /\
      (a_refreshToken <$> admins (db w1) !! Fixture.root_id) = Some JUndefined /\
      verifyAdminJwt Fixture.env0 Fixture.root_request w1 =
        (Ret (attach_admin Fixture.root_request
                (Some (admin_principal Fixture.root_id Fixture.root))), w1).
Proof.
  apply (logout_leaves_access_token_accepted Fixture.env0 Fixture.root_request
           Fixture.w0 Fixture.root_access
           {| tok_secret := "access-secret"; tok_id := Fixture.root_id;
              tok_claims := [("role", "superadmin"); ("email", "root@codix.dev")];
              tok_iat := 1000%N; tok_exp := 1900%N |}
           Fixture.root).
  - reflexivity.
  - reflexivity.
  - vm_compute; reflexivity.
  - reflexivity.
Defined.

(** ** The authentication boundary *)

Lemma verifyJwt_world env req w : (verifyJwt env req w).2 = w.
Proof.
  unfold verifyJwt, try_catch, bind.
  destruct (js_or _ _) as [tk|]; [|reflexivity].
  destruct (truthy tk); simpl; [|reflexivity].
  destruct (jwt.verify _ _ _) as [e|t]; [reflexivity|]. simpl.
  destruct (clients (db w) !! tok_id t) as [c|]; reflexivity.
Qed.

(** C8, as the code has it.  Whatever makes either authentication
    middleware reject a request, the answer is 401: for the admin
    middleware that is every request without a well-signed, unexpired
    token of an existing, active admin whose stored refresh token is not
    [null]; for the client middleware every request without a well-signed,
    unexpired token of an existing client, whose status is not looked at.
    No 403 and no other status leaves this boundary. *)
Theorem authentication_rejects_with_401 (env : Env) (req : Request) (w : World) :
  (forall e w', verifyAdminJwt env req w = (Throw e, w') ->
     exists message, e = ApiErr 401 message)
  /\ (forall e w', verifyJwt env req w = (Throw e, w') ->
     exists message, e = ApiErr 401 message)
  /\ (succeeded (verifyAdminJwt env req w).1 = true <->
      exists tk t a,
        js_or (cookies req !! "adminAccessToken") (bearer req) = Some tk /\
        jwt.verify tk (ACCESS_TOKEN_SECRET env) (clock env) = inr t /\
        admins (db w) !! tok_id t = Some a /\
        a_isActive a = true /\ a_refreshToken a <> JNull)
  /\ (succeeded (verifyJwt env req w).1 = true <->
      exists tk t c,
        js_or (cookies req !! "accessToken") (bearer req) = Some tk /\
        jwt.verify tk (ACCESS_TOKEN_SECRET env) (clock env) = inr t /\
        clients (db w) !! tok_id t = Some c).
Proof.
  split; [|split; [|split]].
  - intros e w'. unfold verifyAdminJwt, try_catch.
    destruct (_ w) as [[r|e0] w0]; intros [= <- <-]; eauto.
  - intros e w'. unfold verifyJwt, try_catch.
    destruct (_ w) as [[r|e0] w0]; intros [= <- <-]; eauto.
  - unfold verifyAdminJwt, try_catch, bind.
    destruct (js_or _ _) as [tk|] eqn:Htk; simpl.
    2:{ split; [discriminate|]. intros (?&?&?&?&_); discriminate. }
    destruct (truthy tk) eqn:Htr; simpl.
    2:{ split; [discriminate|]. intros (?&?&?&[= <-]&Hv&_).
        apply verify_inr_Jwt in Hv; subst; discriminate. }
    destruct (jwt.verify tk _ _) as [e|t] eqn:Hv; simpl.
    { split; [discriminate|]. intros (?&?&?&[= <-]&Hv'&_). congruence. }
    destruct (admins (db w) !! tok_id t) as [a|] eqn:Ha; simpl.
    2:{ split; [discriminate|]. intros (?&?&?&[= <-]&Hv'&Ha'&_). congruence. }
    destruct (a_isActive a) eqn:Hact; simpl.
    2:{ split; [discriminate|]. intros (?&?&?&[= <-]&Hv'&Ha'&?&_). congruence. }
    destruct (a_refreshToken a) eqn:Hr; simpl.
    + split; [|done]. intros _. exists tk, t, a. rewrite Hr. done.
    + split; [discriminate|]. intros (?&?&?&[= <-]&Hv'&Ha'&?&Hn). congruence.
    + split; [|done]. intros _. exists tk, t, a. rewrite Hr. done.
  - unfold verifyJwt, try_catch, bind.
    destruct (js_or _ _) as [tk|] eqn:Htk; simpl.
    2:{ split; [discriminate|]. intros (?&?&?&?&_); discriminate. }
    destruct (truthy tk) eqn:Htr; simpl.
    2:{ split; [discriminate|]. intros (?&?&?&[= <-]&Hv&_).
        apply verify_inr_Jwt in Hv; subst; discriminate. }
    destruct (jwt.verify tk _ _) as [e|t] eqn:Hv; simpl.
    { split; [discriminate|]. intros (?&?&?&[= <-]&Hv'&_). congruence. }
    destruct (clients (db w) !! tok_id t) as [c|] eqn:Hc; simpl.
    + split; [|done]. intros _. by exists tk, t, c.
    + split; [discriminate|]. intros (?&?&?&[= <-]&Hv'&Hc'). congruence.
Qed.

(** C8 as stated fails: a deactivated admin presenting a valid token is
    answered 401, not 403; so is a request without any token.  A banned
    client with a valid token is let through. *)
Lemma inactive_admin_is_answered_401 :
  succeeded
    (match jwt.verify Fixture.mallory_access (ACCESS_TOKEN_SECRET Fixture.env0)
             (clock Fixture.env0) with inr _ => Ret tt | inl e => Throw e end) = true
  /\ (a_isActive <$> admins (db Fixture.w0) !! Fixture.mallory_id) = Some false
  /\ (verifyAdminJwt Fixture.env0 Fixture.mallory_request Fixture.w0).1
     = Throw (ApiErr 401 "Invalid admin token or account inactive")
  /\ (c_status <$> clients (db Fixture.w0) !! Fixture.erin_id) = Some "banned"
  /\ succeeded (verifyJwt Fixture.env0 Fixture.erin_request Fixture.w0).1 = true.
Proof.
  split; [eexists; reflexivity|].
  vm_compute. repeat split; reflexivity.
Qed.

(** ** Permission evaluation *)

(** C2, as amended.  For an admin that exists, [checkAdminPermissions]
    leaves the world as it was and yields [true] for a superadmin whatever
    the permission name.  For any other role, and a name that is a flag of
    the schema or that the permission object does not inherit from its
    prototype chain, it yields exactly what the stored permission set holds
    under that name, and nothing ([undefined]) when the flag is absent,
    which the handlers' [!hasPermission] treats as [false]. *)
Theorem checkAdminPermissions_spec
    (env : Env) (w : World) (adminId permission : string) (admin : Admin) :
  admins (db w) !! adminId = Some admin ->
  exists v,
    checkAdminPermissions env adminId permission w = (Ret v, w) /\
    (a_role admin = "superadmin" -> v = PFlag true) /\
    (a_role admin <> "superadmin" ->
     includes AdminModel.flag_names permission = true
       \/ prototype_property env permission = None ->
     v = match a_permissions admin !! permission with
         | Some b => PFlag b
         | None => PUndefined
         end /\
     negb (not_permitted v) = default false (a_permissions admin !! permission)).
Proof.
  intros Ha.
  assert (Hget : a_role admin <> "superadmin" ->
     includes AdminModel.flag_names permission = true
       \/ prototype_property env permission = None ->
     permissions_get env admin permission
       = match a_permissions admin !! permission with
         | Some b => PFlag b
         | None => PUndefined
         end).
  { intros _ Hname. unfold permissions_get.
    destruct (a_permissions admin !! permission) as [b|]; [done|].
    destruct Hname as [-> | ->]; [done|].
    by destruct (includes _ _). }
  revert Hget.
  generalize (includes AdminModel.flag_names permission). intros known Hget.
  unfold checkAdminPermissions, bind. simpl. rewrite Ha.
  destruct (String.eqb (a_role admin) "superadmin") eqn:Hrole.
  - exists (PFlag true). split; [done|]. split; [done|].
    apply String.eqb_eq in Hrole. congruence.
  - exists (permissions_get env admin permission).
    split; [done|]. split.
    + apply String.eqb_neq in Hrole. congruence.
    + intros Hne Hname. rewrite (Hget Hne Hname).
      split; [done|]. by destruct (a_permissions admin !! permission) as [[]|].
Qed.

Lemma checkAdminPermissions_spec_witness :
  exists v,
    checkAdminPermissions Fixture.env0 Fixture.alice_id "manageServices" Fixture.w0
      = (Ret v, Fixture.w0) /\
    (a_role Fixture.alice = "superadmin" -> v = PFlag true) /\
    (a_role Fixture.alice <> "superadmin" ->
     includes AdminModel.flag_names "manageServices" = true
       \/ prototype_property Fixture.env0 "manageServices" = None ->
     v = match a_permissions Fixture.alice !! "manageServices" with
         | Some b => PFlag b
         | None => PUndefined
         end /\
     negb (not_permitted v)
       = default false (a_permissions Fixture.alice !! "manageServices")).
Proof.
  apply (checkAdminPermissions_spec Fixture.env0 Fixture.w0 Fixture.alice_id
           "manageServices" Fixture.alice).
  vm_compute; reflexivity.
Defined.

(** The claim as it was stated, for every permission name, fails on the
    names that the permission object inherits: Alice is not a superadmin
    and her permission set holds no flag named [constructor], yet the
    property read yields the inherited constructor, which is truthy, and
    [!hasPermission] lets her through. *)
Lemma inherited_name_is_granted :
  a_role Fixture.alice <> "superadmin"
  /\ a_permissions Fixture.alice !! "constructor" = None
  /\ checkAdminPermissions Fixture.env0 Fixture.alice_id "constructor" Fixture.w0
       = (Ret (PInherited true), Fixture.w0)
  /\ not_permitted (PInherited true) = false.
Proof. vm_compute. repeat split; try reflexivity. discriminate. Qed.

(** An admin of role "admin" whose [manageServices] flag is off is refused
    by [createService] with 403, and nothing is stored. *)
Example createService_refused :
  let r := createService Fixture.env0
             (Fixture.with_body
                (attach_admin Fixture.req0
                   (Some (admin_principal Fixture.alice_id Fixture.alice)))
                [("title", "T"); ("description", "D"); ("price", "100")])
             Fixture.w0 in
  r.1 = Throw (ApiErr 403 "Unauthorized: You don't have permission to manage services")
  /\ db r.2 = db Fixture.w0.
Proof. vm_compute. split; reflexivity. Qed.

(** A flag that the permission set does not hold counts as refused. *)
Example absent_flag_is_refused :
  (checkAdminPermissions Fixture.env0 Fixture.alice_id "launchRockets" Fixture.w0).1
    = Ret PUndefined
  /\ not_permitted PUndefined = true.
Proof. vm_compute. split; reflexivity. Qed.

(** ** Refresh-token rotation *)

(** What [verifyAdminRefreshToken] accepts: a token equal to the one stored
    for the admin it names. *)
Lemma verifyAdminRefreshToken_accepts env req w r w' :
  verifyAdminRefreshToken env req w = (Ret r, w') ->
  exists tk t a,
    js_or (cookies req !! "adminRefreshToken") (body_refreshToken req) = Some tk /\
    jwt.verify tk (REFRESH_TOKEN_SECRET env) (clock env) = inr t /\
    admins (db w) !! tok_id t = Some a /\
    a_refreshToken a = JVal tk.
Proof.
  unfold verifyAdminRefreshToken, try_catch, bind.
  destruct (js_or _ _) as [tk|] eqn:Htk; simpl; [|discriminate].
  destruct (truthy tk) eqn:Htr; simpl; [|discriminate].
  destruct (jwt.verify tk _ _) as [e|t] eqn:Hv; simpl; [discriminate|].
  destruct (admins (db w) !! tok_id t) as [a|] eqn:Ha; simpl; [|discriminate].
  unfold strict_neq. case_bool_decide as Heq; simpl; [|discriminate].
  intros _. by exists tk, t, a.
Qed.

(** A token other than the stored one is turned away with 401. *)
Lemma verifyAdminRefreshToken_rejects env req w tk t a :
  js_or (cookies req !! "adminRefreshToken") (body_refreshToken req) = Some tk ->
  tk = Jwt t ->
  admins (db w) !! tok_id t = Some a ->
  a_refreshToken a <> JVal tk ->
  exists message, verifyAdminRefreshToken env req w = (Throw (ApiErr 401 message), w).
Proof.
  intros Htk -> Ha Hne.
  unfold verifyAdminRefreshToken, try_catch, bind. rewrite Htk. cbn [truthy negb].
  destruct (jwt.verify (Jwt t) _ _) as [e|t'] eqn:Hv.
  - simpl; eauto.
  - apply verify_inr_Jwt in Hv as [= <-]. simpl. rewrite Ha. simpl.
    unfold strict_neq. case_bool_decide; [done|]. simpl. eauto.
Qed.

Lemma refreshAdminToken_rejects env req w tk t a :
  js_or (cookies req !! "adminRefreshToken") (body_refreshToken req) = Some tk ->
  tk = Jwt t ->
  admins (db w) !! tok_id t = Some a ->
  a_refreshToken a <> JVal tk ->
  exists message, refreshAdminToken env req w = (Throw (ApiErr 401 message), w).
Proof.
  intros Htk -> Ha Hne.
  unfold refreshAdminToken, try_catch, bind. rewrite Htk. cbn [truthy negb].
  destruct (jwt.verify (Jwt t) _ _) as [e|t'] eqn:Hv.
  - simpl; eauto.
  - apply verify_inr_Jwt in Hv as [= <-]. simpl. rewrite Ha. simpl.
    unfold strict_neq. case_bool_decide; [done|]. simpl. eauto.
Qed.

Lemma refreshClientAccessToken_rejects env req w tk t c :
  js_or (cookies req !! "refreshToken") (body_refreshToken req) = Some tk ->
  tk = Jwt t ->
  clients (db w) !! tok_id t = Some c ->
  c_refreshToken c <> JVal tk ->
  exists message w',
    refreshClientAccessToken env req w = (Throw (ApiErr 500 message), w') /\
    db w' = db w.
Proof.
  intros Htk -> Hc Hne.
  unfold refreshClientAccessToken, try_catch, bind. rewrite Htk. cbn [truthy negb].
  destruct (jwt.verify (Jwt t) _ _) as [e|t'] eqn:Hv.
  - simpl; eauto.
  - apply verify_inr_Jwt in Hv as [= <-]. simpl. rewrite Hc. simpl.
    unfold strict_neq. case_bool_decide; [done|]. simpl. eauto.
Qed.

Lemma refreshClientAccessToken_accepts env req w r w' :
  refreshClientAccessToken env req w = (Ret r, w') ->
  exists tk t c,
    js_or (cookies req !! "refreshToken") (body_refreshToken req) = Some tk /\
    jwt.verify tk (REFRESH_TOKEN_SECRET env) (clock env) = inr t /\
    clients (db w) !! tok_id t = Some c /\
    c_refreshToken c = JVal tk.
Proof.
  unfold refreshClientAccessToken, try_catch, bind.
  destruct (js_or _ _) as [tk|] eqn:Htk; simpl; [|discriminate].
  destruct (truthy tk) eqn:Htr; simpl; [|discriminate].
  destruct (jwt.verify tk _ _) as [e|t] eqn:Hv; simpl; [discriminate|].
  destruct (clients (db w) !! tok_id t) as [c|] eqn:Hc; simpl; [|discriminate].
  unfold strict_neq. case_bool_decide as Heq; simpl; [|discriminate].
  intros _. by exists tk, t, c.
Qed.

Lemma sign_fresh id claims secret ttl now t :
  (tok_iat t < now)%N -> jwt.sign id claims secret ttl now <> Jwt t.
Proof. intros Hlt [= <-]. simpl in Hlt. lia. Qed.

(** Saving without validation cannot fail; it stores the document, with
    its password hashed if it was assigned. *)
Lemma AdminModel_save_unvalidated id a w :
  exists a' tr,
    AdminModel.save id a false None w =
      (Ret a', {| db := set_admins (insert id a') (db w);
                  sessions := sessions w; trace := tr |}) /\
    a_refreshToken a' = a_refreshToken a.
Proof.
  unfold AdminModel.save, AdminModel.pre_save, bind.
  destruct (a_password a); simpl; eauto.
Qed.

Lemma ClientModel_save_unvalidated id c w :
  exists c' tr,
    ClientModel.save id c false None w =
      (Ret c', {| db := set_clients (insert id c') (db w);
                  sessions := sessions w; trace := tr |}) /\
    c_refreshToken c' = c_refreshToken c /\
    c_password c' = match c_password c with
                    | Plain s => bcrypt.hash s 10
                    | p => p
                    end.
Proof.
  unfold ClientModel.save, ClientModel.pre_save, bind.
  destruct (c_password c) eqn:Hp; simpl; eexists _, _; (split; [reflexivity|]); done.
Qed.

Lemma refreshAdminToken_run env req w tk t a :
  js_or (cookies req !! "adminRefreshToken") (body_refreshToken req) = Some tk ->
  jwt.verify tk (REFRESH_TOKEN_SECRET env) (clock env) = inr t ->
  admins (db w) !! tok_id t = Some a ->
  a_refreshToken a = JVal tk ->
  exists resp w' a',
    refreshAdminToken env req w = (Ret resp, w') /\
    res_status resp = 200 /\
    res_data resp = DTokens (AdminModel.generateAccessToken env (tok_id t) a)
                            (AdminModel.generateRefreshToken env (tok_id t) a) /\
    admins (db w') !! tok_id t = Some a' /\
    a_refreshToken a' = JVal (AdminModel.generateRefreshToken env (tok_id t) a).
Proof.
  intros Htk Hv Ha Hr. pose proof (verify_inr_Jwt _ _ _ _ Hv) as ->.
  unfold refreshAdminToken, try_catch, bind. rewrite Htk. cbn [truthy negb].
  rewrite Hv. simpl. rewrite Ha. simpl.
  unfold strict_neq. rewrite Hr. rewrite bool_decide_eq_true_2 by done. simpl.
  match goal with |- context [AdminModel.save ?i ?x false None ?v] =>
    destruct (AdminModel_save_unvalidated i x v) as (a' & tr & -> & Hr')
  end.
  simpl. eexists _, _, a'. split; [reflexivity|]. split; [reflexivity|].
  split; [reflexivity|]. simpl. by rewrite lookup_insert_eq.
Qed.

Lemma refreshClientAccessToken_run env req w tk t c :
  js_or (cookies req !! "refreshToken") (body_refreshToken req) = Some tk ->
  jwt.verify tk (REFRESH_TOKEN_SECRET env) (clock env) = inr t ->
  clients (db w) !! tok_id t = Some c ->
  c_refreshToken c = JVal tk ->
  exists resp w' c',
    refreshClientAccessToken env req w = (Ret resp, w') /\
    res_status resp = 200 /\
    res_data resp = DTokens (ClientModel.generateAccessToken env (tok_id t) c)
                            (ClientModel.generateRefreshToken env (tok_id t) c) /\
    clients (db w') !! tok_id t = Some c' /\
    c_refreshToken c' = JVal (ClientModel.generateRefreshToken env (tok_id t) c).
Proof.
  intros Htk Hv Hc Hr. pose proof (verify_inr_Jwt _ _ _ _ Hv) as ->.
  unfold refreshClientAccessToken, try_catch, bind. rewrite Htk. cbn [truthy negb].
  rewrite Hv. simpl. rewrite Hc. simpl.
  unfold strict_neq. rewrite Hr. rewrite bool_decide_eq_true_2 by done. simpl.
  unfold generateAccessAndRefreshToken, try_catch, bind. simpl. rewrite Hc.
  match goal with |- context [ClientModel.save ?i ?x false None ?v] =>
    destruct (ClientModel_save_unvalidated i x v) as (c' & tr & -> & Hr' & _)
  end.
  simpl. eexists _, _, c'. split; [reflexivity|]. split; [reflexivity|].
  split; [reflexivity|]. simpl. by rewrite lookup_insert_eq.
Qed.

(** C1, as the code has it.  A refresh that takes place in a later clock
    second than the one in which the presented token was signed issues a
    new access and a new refresh token, stores the new refresh token in
    place of the old one, and from then on the old token is turned away,
    for admins and for clients alike.  At any moment the tokens that pass
    verification for one principal are all equal to the single stored
    value.  (A token signed for the same principal within the same second
    is the same string, see the counterexample below.) *)
Theorem refresh_rotation
    (env : Env) (w : World) (req : Request) (tk : RawToken) (t : Token) :
  jwt.verify tk (REFRESH_TOKEN_SECRET env) (clock env) = inr t ->
  (tok_iat t < clock env)%N ->
  (forall a,
     js_or (cookies req !! "adminRefreshToken") (body_refreshToken req) = Some tk ->
     admins (db w) !! tok_id t = Some a ->
     a_refreshToken a = JVal tk ->
     exists resp w' access new,
       refreshAdminToken env req w = (Ret resp, w') /\
       res_status resp = 200 /\
       res_data resp = DTokens access new /\
       new <> tk /\
       (a_refreshToken <$> admins (db w') !! tok_id t) = Some (JVal new) /\
       forall env' req',
         js_or (cookies req' !! "adminRefreshToken") (body_refreshToken req') = Some tk ->
         succeeded (verifyAdminRefreshToken env' req' w').1 = false /\
         succeeded (refreshAdminToken env' req' w').1 = false)
  /\
  (forall c,
     js_or (cookies req !! "refreshToken") (body_refreshToken req) = Some tk ->
     clients (db w) !! tok_id t = Some c ->
     c_refreshToken c = JVal tk ->
     exists resp w' access new,
       refreshClientAccessToken env req w = (Ret resp, w') /\
       res_status resp = 200 /\
       res_data resp = DTokens access new /\
       new <> tk /\
       (c_refreshToken <$> clients (db w') !! tok_id t) = Some (JVal new) /\
       forall env' req',
         js_or (cookies req' !! "refreshToken") (body_refreshToken req') = Some tk ->
         succeeded (refreshClientAccessToken env' req' w').1 = false)
  /\
  (forall env1 env2 req1 req2 tk1 tk2 t1 t2,
     js_or (cookies req1 !! "adminRefreshToken") (body_refreshToken req1) = Some tk1 ->
     js_or (cookies req2 !! "adminRefreshToken") (body_refreshToken req2) = Some tk2 ->
     tk1 = Jwt t1 -> tk2 = Jwt t2 -> tok_id t1 = tok_id t2 ->
     succeeded (verifyAdminRefreshToken env1 req1 w).1 = true ->
     succeeded (verifyAdminRefreshToken env2 req2 w).1 = true ->
     tk1 = tk2)
  /\
  (forall env1 env2 req1 req2 tk1 tk2 t1 t2,
     js_or (cookies req1 !! "refreshToken") (body_refreshToken req1) = Some tk1 ->
     js_or (cookies req2 !! "refreshToken") (body_refreshToken req2) = Some tk2 ->
     tk1 = Jwt t1 -> tk2 = Jwt t2 -> tok_id t1 = tok_id t2 ->
     succeeded (refreshClientAccessToken env1 req1 w).1 = true ->
     succeeded (refreshClientAccessToken env2 req2 w).1 = true ->
     tk1 = tk2).
Proof.
  intros Hv Hlt. pose proof (verify_inr_Jwt _ _ _ _ Hv) as Htk.
  split; [|split; [|split]].
  - intros a Hreq Ha Hr.
    destruct (refreshAdminToken_run env req w tk t a Hreq Hv Ha Hr)
      as (resp & w' & a' & Hrun & Hst & Hdata & Ha' & Hr').
    eexists resp, w', _, _. split; [exact Hrun|]. split; [exact Hst|].
    split; [exact Hdata|].
    assert (Hne : AdminModel.generateRefreshToken env (tok_id t) a <> tk).
    { rewrite Htk. by apply sign_fresh. }
    split; [exact Hne|]. split; [by rewrite Ha', <- Hr'|].
    intros env' req' Hreq'.
    assert (Hne' : a_refreshToken a' <> JVal tk) by (rewrite Hr'; congruence).
    destruct (verifyAdminRefreshToken_rejects env' req' w' tk t a' Hreq' Htk Ha' Hne')
      as [m1 ->].
    destruct (refreshAdminToken_rejects env' req' w' tk t a' Hreq' Htk Ha' Hne')
      as [m2 ->].
    done.
  - intros c Hreq Hc Hr.
    destruct (refreshClientAccessToken_run env req w tk t c Hreq Hv Hc Hr)
      as (resp & w' & c' & Hrun & Hst & Hdata & Hc' & Hr').
    eexists resp, w', _, _. split; [exact Hrun|]. split; [exact Hst|].
    split; [exact Hdata|].
    assert (Hne : ClientModel.generateRefreshToken env (tok_id t) c <> tk).
    { rewrite Htk. by apply sign_fresh. }
    split; [exact Hne|]. split; [by rewrite Hc', <- Hr'|].
    intros env' req' Hreq'.
    assert (Hne' : c_refreshToken c' <> JVal tk) by (rewrite Hr'; congruence).
    destruct (refreshClientAccessToken_rejects env' req' w' tk t c' Hreq' Htk Hc' Hne')
      as (m & w'' & -> & _).
    done.
  - intros env1 env2 req1 req2 tk1 tk2 t1 t2 H1 H2 -> -> Hid Hok1 Hok2.
    destruct (verifyAdminRefreshToken env1 req1 w) as [[r1|] w1] eqn:E1; [|done].
    destruct (verifyAdminRefreshToken env2 req2 w) as [[r2|] w2] eqn:E2; [|done].
    apply verifyAdminRefreshToken_accepts in E1 as (k1 & u1 & a1 & K1 & V1 & A1 & R1).
    apply verifyAdminRefreshToken_accepts in E2 as (k2 & u2 & a2 & K2 & V2 & A2 & R2).
    rewrite H1 in K1. rewrite H2 in K2. injection K1 as <-. injection K2 as <-.
    apply verify_inr_Jwt in V1 as [= <-]. apply verify_inr_Jwt in V2 as [= <-].
    rewrite Hid in A1. congruence.
  - intros env1 env2 req1 req2 tk1 tk2 t1 t2 H1 H2 -> -> Hid Hok1 Hok2.
    destruct (refreshClientAccessToken env1 req1 w) as [[r1|] w1] eqn:E1; [|done].
    destruct (refreshClientAccessToken env2 req2 w) as [[r2|] w2] eqn:E2; [|done].
    apply refreshClientAccessToken_accepts in E1 as (k1 & u1 & a1 & K1 & V1 & A1 & R1).
    apply refreshClientAccessToken_accepts in E2 as (k2 & u2 & a2 & K2 & V2 & A2 & R2).
    rewrite H1 in K1. rewrite H2 in K2. injection K1 as <-. injection K2 as <-.
    apply verify_inr_Jwt in V1 as [= <-]. apply verify_inr_Jwt in V2 as [= <-].
    rewrite Hid in A1. congruence.
Qed.

Lemma refresh_rotation_witness :
  (exists resp w' access new,
     refreshAdminToken Fixture.env1 Fixture.root_refresh_request
       Fixture.w_root_logged_in = (Ret resp, w') /\
     res_status resp = 200 /\
     res_data resp = DTokens access new /\
     new <> Fixture.root_refresh /\
     (a_refreshToken <$> admins (db w') !! Fixture.root_id) = Some (JVal new) /\
     forall env' req',
       js_or (cookies req' !! "adminRefreshToken") (body_refreshToken req')
         = Some Fixture.root_refresh ->
       succeeded (verifyAdminRefreshToken env' req' w').1 = false /\
       succeeded (refreshAdminToken env' req' w').1 = false)
  /\
  (exists resp w' access new,
     refreshClientAccessToken Fixture.env1 Fixture.carol_refresh_request
       Fixture.w_carol_logged_in = (Ret resp, w') /\
     res_status resp = 200 /\
     res_data resp = DTokens access new /\
     new <> Fixture.carol_refresh /\
     (c_refreshToken <$> clients (db w') !! Fixture.carol_id) = Some (JVal new) /\
     forall env' req',
       js_or (cookies req' !! "refreshToken") (body_refreshToken req')
         = Some Fixture.carol_refresh ->
       succeeded (refreshClientAccessToken env' req' w').1 = false).
Proof.
  split.
  - refine (proj1 (refresh_rotation Fixture.env1 Fixture.w_root_logged_in
                     Fixture.root_refresh_request Fixture.root_refresh
                     Fixture.root_refresh_token _ _)
              (with_refreshToken
                 (with_login Fixture.root 1000%N "203.0.113.7")
                 (JVal Fixture.root_refresh)) _ _ _).
    + reflexivity.
    + reflexivity.
    + reflexivity.
    + vm_compute; reflexivity.
    + reflexivity.
  - refine (proj1 (proj2 (refresh_rotation Fixture.env1 Fixture.w_carol_logged_in
                     Fixture.carol_refresh_request Fixture.carol_refresh
                     Fixture.carol_refresh_token _ _))
              (c_with_refreshToken Fixture.carol (JVal Fixture.carol_refresh)) _ _ _).
    + reflexivity.
    + reflexivity.
    + reflexivity.
    + vm_compute; reflexivity.
    + reflexivity.
Defined.

(** C1 as stated fails when the refresh is served within the second in
    which the presented token was signed: the token issued by the refresh
    is the very same string, so the token that has just been used still
    passes verification, and can be used once more. *)
Lemma refresh_within_one_second_keeps_the_used_token :
  (res_data <$> (match (loginAdmin Fixture.env0 Fixture.root_login_request Fixture.w0).1
                 with Ret r => Some r | Throw _ => None end))
    = Some (DLogin Fixture.root_id Fixture.root_access Fixture.root_refresh)
  /\ succeeded (refreshAdminToken Fixture.env0 Fixture.root_refresh_request
                  Fixture.w_root_logged_in).1 = true
  /\ succeeded (verifyAdminRefreshToken Fixture.env0 Fixture.root_refresh_request
                  (refreshAdminToken Fixture.env0 Fixture.root_refresh_request
                     Fixture.w_root_logged_in).2).1 = true
  /\ succeeded (refreshAdminToken Fixture.env0 Fixture.root_refresh_request
                  (refreshAdminToken Fixture.env0 Fixture.root_refresh_request
                     Fixture.w_root_logged_in).2).1 = true
  /\ succeeded (refreshClientAccessToken Fixture.env0 Fixture.carol_refresh_request
                  (refreshClientAccessToken Fixture.env0 Fixture.carol_refresh_request
                     Fixture.w_carol_logged_in).2).1 = true.
Proof. vm_compute. repeat split; reflexivity. Qed.

(* ===================================================================== *)
(** ** Transactions *)
(* ===================================================================== *)

Ltac wp_atomic h :=
  unfold h; wp_go;
  first [ exact I
        | split; [reflexivity | eexists; split; [wp_lookup | reflexivity]]
        | wp_absurd ].

(** Whatever a session-wrapped handler throws, the committed collections
    are the ones it started from and the transaction of the session it
    opened has been aborted. *)
Lemma registerClient_atomic env req w :
  wp (registerClient env req) w (fun _ _ => True)
     (fun _ w' => db w' = db w /\ aborted (length (sessions w)) w').
Proof. wp_atomic registerClient. Qed.

Lemma createAdmin_atomic env req w :
  wp (createAdmin env req) w (fun _ _ => True)
     (fun _ w' => db w' = db w /\ aborted (length (sessions w)) w').
Proof. wp_atomic createAdmin. Qed.

Lemma changePassword_atomic env req w :
  wp (changePassword env req) w (fun _ _ => True)
     (fun _ w' => db w' = db w /\ aborted (length (sessions w)) w').
Proof. wp_atomic changePassword. Qed.

Lemma createService_atomic env req w :
  wp (createService env req) w (fun _ _ => True)
     (fun _ w' => db w' = db w /\ aborted (length (sessions w)) w').
Proof. wp_atomic createService. Qed.

Lemma deleteService_atomic env req w :
  wp (deleteService env req) w (fun _ _ => True)
     (fun _ w' => db w' = db w /\ aborted (length (sessions w)) w').
Proof. wp_atomic deleteService. Qed.

Lemma uploadThumbnail_atomic env req w :
  wp (uploadThumbnail env req) w (fun _ _ => True)
     (fun _ w' => db w' = db w /\ aborted (length (sessions w)) w').
Proof. wp_atomic uploadThumbnail. Qed.

Lemma deleteBlog_atomic env req w :
  wp (deleteBlog env req) w (fun _ _ => True)
     (fun _ w' => db w' = db w /\ aborted (length (sessions w)) w').
Proof. wp_atomic deleteBlog. Qed.

Lemma deleteServiceRequestAttachment_atomic env req w :
  wp (deleteServiceRequestAttachment env req) w (fun _ _ => True)
     (fun _ w' => db w' = db w /\ aborted (length (sessions w)) w').
Proof. wp_atomic deleteServiceRequestAttachment. Qed.

Lemma deleteAdmin_atomic env req w :
  wp (deleteAdmin env req) w (fun _ _ => True)
     (fun _ w' => db w' = db w /\ aborted (length (sessions w)) w').
Proof. wp_atomic deleteAdmin. Qed.

Lemma toggleServiceStatus_atomic env req w :
  wp (toggleServiceStatus env req) w (fun _ _ => True)
     (fun _ w' => db w' = db w /\ aborted (length (sessions w)) w').
Proof. wp_atomic toggleServiceStatus. Qed.

(** C4.  A session-wrapped operation that fails is rolled back before
    its error propagates: when the handler throws, the transaction of the
    session it opened has been aborted, not left in progress nor committed,
    and the committed collections are the ones the handler started from,
    so every write it issued through its session is discarded.  In
    particular a document created by an earlier step is not observable
    after a later step has failed. *)
Theorem failed_transaction_is_rolled_back
    (handler : Env -> Request -> M Response)
    (env : Env) (req : Request) (w : World) (e : Error) (w' : World) :
  In handler session_wrapped ->
  handler env req w = (Throw e, w') ->
  db w' = db w /\ aborted (length (sessions w)) w'.
Proof.
  intros Hin Hrun. simpl in Hin.
  destruct Hin as [<-|[<-|[<-|[<-|[<-|[<-|[<-|[<-|[<-|[<-|[]]]]]]]]]]].
  - exact (wp_Throw _ _ _ _ _ _ (registerClient_atomic env req w) Hrun).
  - exact (wp_Throw _ _ _ _ _ _ (createAdmin_atomic env req w) Hrun).
  - exact (wp_Throw _ _ _ _ _ _ (changePassword_atomic env req w) Hrun).
  - exact (wp_Throw _ _ _ _ _ _ (deleteAdmin_atomic env req w) Hrun).
  - exact (wp_Throw _ _ _ _ _ _ (createService_atomic env req w) Hrun).
  - exact (wp_Throw _ _ _ _ _ _ (deleteService_atomic env req w) Hrun).
  - exact (wp_Throw _ _ _ _ _ _ (toggleServiceStatus_atomic env req w) Hrun).
  - exact (wp_Throw _ _ _ _ _ _ (uploadThumbnail_atomic env req w) Hrun).
  - exact (wp_Throw _ _ _ _ _ _ (deleteBlog_atomic env req w) Hrun).
  - exact (wp_Throw _ _ _ _ _ _ (deleteServiceRequestAttachment_atomic env req w) Hrun).
Qed.

Lemma failed_transaction_is_rolled_back_witness :
  db (registerClient (Fixture.mail_down Fixture.env0) Fixture.bob_registration
        Fixture.w0).2 = db Fixture.w0
  /\ aborted (length (sessions Fixture.w0))
        (registerClient (Fixture.mail_down Fixture.env0) Fixture.bob_registration
           Fixture.w0).2.
Proof.
  apply (failed_transaction_is_rolled_back registerClient
           (Fixture.mail_down Fixture.env0) Fixture.bob_registration Fixture.w0
           (ApiErr 500 "Failed to register client")).
  - simpl. left. reflexivity.
  - vm_compute. reflexivity.
Defined.

(** Create, then fail: the registration inserts the client (its password
    is hashed, the mail is attempted), the mail transport fails, and the
    committed collections are untouched and the transaction is aborted;
    when the mail goes out the client is there. *)
Example registration_leaves_no_orphan :
  (registerClient (Fixture.mail_down Fixture.env0) Fixture.bob_registration
     Fixture.w0).1 = Throw (ApiErr 500 "Failed to register client")
  /\ In (EvHash 10)
        (trace (registerClient (Fixture.mail_down Fixture.env0)
                  Fixture.bob_registration Fixture.w0).2)
  /\ clients (db (registerClient (Fixture.mail_down Fixture.env0)
                    Fixture.bob_registration Fixture.w0).2)
       !! new_ObjectId Fixture.env0 = None
  /\ sessions (registerClient (Fixture.mail_down Fixture.env0)
                 Fixture.bob_registration Fixture.w0).2
     = [ {| tx := TxAborted; ended := true |} ]
  /\ succeeded (registerClient Fixture.env0 Fixture.bob_registration Fixture.w0).1
     = true
  /\ (c_email <$> clients (db (registerClient Fixture.env0 Fixture.bob_registration
                                 Fixture.w0).2) !! new_ObjectId Fixture.env0)
     = Some "bob@example.com".
Proof. vm_compute. repeat split; try reflexivity. auto 10. Qed.

(** The session is released by the [finally] block of the handlers that
    have one. *)
Ltac wp_released h :=
  apply wp_final; unfold h; wp_go;
  first [ eexists; split; [wp_lookup | reflexivity] | wp_absurd ].

Lemma createAdmin_releases env req w :
  released (length (sessions w)) (createAdmin env req w).2.
Proof. wp_released createAdmin. Qed.

Lemma registerClient_releases env req w :
  released (length (sessions w)) (registerClient env req w).2.
Proof. wp_released registerClient. Qed.

Lemma deleteServiceRequestAttachment_releases env req w :
  released (length (sessions w)) (deleteServiceRequestAttachment env req w).2.
Proof. wp_released deleteServiceRequestAttachment. Qed.

Lemma deleteService_releases env req w :
  released (length (sessions w)) (deleteService env req w).2.
Proof. wp_released deleteService. Qed.

(** C5 fails on [uploadThumbnail]: its [try] has a [catch] but no
    [finally], and no path calls [endSession].  Whatever the request and
    the answers of the collaborators, the session it opened is still held
    when the handler is done. *)
Theorem uploadThumbnail_never_releases_its_session
    (env : Env) (req : Request) (w : World) :
  held (length (sessions w)) (uploadThumbnail env req w).2.
Proof.
  apply wp_final. unfold uploadThumbnail. wp_go.
  all: first [ eexists; split; [wp_lookup | reflexivity] | wp_absurd ].
Qed.

Example uploadThumbnail_success_holds_session :
  (res_status <$> (match (uploadThumbnail Fixture.env0 Fixture.thumbnail_upload
                            Fixture.w0).1
                   with Ret r => Some r | Throw _ => None end)) = Some 200
  /\ sessions (uploadThumbnail Fixture.env0 Fixture.thumbnail_upload Fixture.w0).2
     = [ {| tx := TxCommitted; ended := false |} ]
  /\ sessions (deleteService Fixture.env0 Fixture.service_deletion Fixture.w0).2
     = [ {| tx := TxCommitted; ended := true |} ].
Proof. vm_compute. repeat split; reflexivity. Qed.

(* ===================================================================== *)
(** ** Ownership of blogs *)
(* ===================================================================== *)




(** The owner deletes her blog. *)
Example owner_deletes_blog :
  (deleteBlog Fixture.env0 Fixture.carol_deletes_her_blog Fixture.w0).1
    = Ret (json 200 DEmpty "Blog deleted successfully")
  /\ blogs (db (deleteBlog Fixture.env0 Fixture.carol_deletes_her_blog Fixture.w0).2)
       !! Fixture.blog_id = None.
Proof. vm_compute. split; reflexivity. Qed.

(* ===================================================================== *)
(** ** External objects *)
(* ===================================================================== *)

Ltac bool_facts :=
  repeat match goal with
  | H : negb _ = false |- _ => apply negb_false_iff in H
  | H : negb _ = true |- _ => apply negb_true_iff in H
  | H : String.eqb _ _ = true |- _ => apply String.eqb_eq in H
  end.

(** [manageServices] is a flag of the schema: reading it yields the stored
    flag, and the handlers let through exactly a superadmin or an admin
    whose flag is on. *)
Lemma permissions_get_manageServices env a :
  permissions_get env a "manageServices"
  = match a_permissions a !! "manageServices" with
    | Some b => PFlag b
    | None => PUndefined
    end.
Proof.
  unfold permissions_get.
  by destruct (a_permissions a !! "manageServices").
Qed.

Lemma manageServices_permitted env a :
  not_permitted (permissions_get env a "manageServices") = false ->
  a_permissions a !! "manageServices" = Some true.
Proof.
  rewrite permissions_get_manageServices.
  by destruct (a_permissions a !! "manageServices") as [[]|].
Qed.

Lemma permitted_manageServices env a :
  a_role a = "superadmin" \/ a_permissions a !! "manageServices" = Some true ->
  not_permitted (if String.eqb (a_role a) "superadmin" then PFlag true
                 else permissions_get env a "manageServices") = false.
Proof.
  intros [->|H]; [reflexivity|].
  destruct (String.eqb _ _); [reflexivity|].
  by rewrite permissions_get_manageServices, H.
Qed.

(** Deleting a service succeeds whatever the object store answers. *)
Lemma deleteService_best_effort env req w me a s :
  req_admin req = Some me ->
  admins (db w) !! p_id me = Some a ->
  a_role a = "superadmin" \/ a_permissions a !! "manageServices" = Some true ->
  ObjectId_isValid env (str (params req !! "serviceId")) = true ->
  services (db w) !! str (params req !! "serviceId") = Some s ->
  s_createdBy s = p_id me \/ p_role me = "superadmin" ->
  wp (deleteService env req) w
     (fun r w' =>
        r = json 200 DEmpty "Service deleted successfully" /\
        db w' = set_services (delete (str (params req !! "serviceId"))) (db w) /\
        (falsy (s_thumbnail s) = false ->
         uploader_destroy env (publicId_of_url (str (s_thumbnail s))) "image"
           <> inr "ok" ->
         In (EvLog "error" "Failed to delete thumbnail from Cloudinary") (trace w')))
     (fun _ _ => False).
Proof.
  intros Hme Ha Hperm Hid Hs Hown.
  pose proof (permitted_manageServices env a Hperm) as Hperm'.
  assert (Hown' : negb (String.eqb (s_createdBy s) (p_id me))
                  && negb (String.eqb (p_role me) "superadmin") = false).
  { destruct Hown as [->| ->]; rewrite String.eqb_refl; simpl;
      [reflexivity | apply andb_false_r]. }
  clear Hperm Hown.
  unfold deleteService. wp_go.
  all: try wp_absurd.
  all: split; [reflexivity|]; split; [reflexivity|]; intros Hth Hne; simpl;
       first [ tauto | exfalso; bool_facts; subst; congruence ].
Qed.

(** So does deleting a blog. *)
Lemma deleteBlog_best_effort env req w me c b :
  req_client req = Some me ->
  clients (db w) !! p_id me = Some c ->
  c_status c = "active" ->
  ObjectId_isValid env (str (params req !! "blogId")) = true ->
  blogs (db w) !! str (params req !! "blogId") = Some b ->
  b_author b = p_id me ->
  wp (deleteBlog env req) w
     (fun r w' =>
        r = json 200 DEmpty "Blog deleted successfully" /\
        db w' = set_blogs (delete (str (params req !! "blogId"))) (db w) /\
        (falsy (b_coverImage_url b) = false ->
         uploader_destroy env (publicId_of_url (str (b_coverImage_url b))) "image"
           <> inr "ok" ->
         In (EvLog "error" "Failed to delete cover image from Cloudinary") (trace w')))
     (fun _ _ => False).
Proof.
  intros Hme Hc Hst Hid Hb Hauth.
  unfold deleteBlog. wp_go.
  all: try wp_absurd.
  all: split; [reflexivity|]; split; [reflexivity|]; intros Hth Hne; simpl;
       first [ tauto | exfalso; bool_facts; subst; congruence ].
Qed.

(** Removing one attachment of a service request does depend on the
    object store. *)
Lemma deleteServiceRequestAttachment_needs_store env req w me r publicId att :
  ObjectId_isValid env (str (params req !! "requestId")) = true ->
  params req !! "publicId" = Some publicId ->
  publicId <> "" ->
  req_client req = Some me ->
  requests (db w) !! str (params req !! "requestId") = Some r ->
  r_createdBy r = p_id me ->
  find (fun a => String.eqb (att_publicId a) publicId) (r_attachments r) = Some att ->
  (forall resourceType, uploader_destroy env publicId resourceType <> inr "ok") ->
  wp (deleteServiceRequestAttachment env req) w
     (fun _ _ => False)
     (fun e w' => e = ApiErr 500 "Attachment deletion failed" /\ db w' = db w).
Proof.
  intros Hid Hpid Hne Hme Hr Hown Hatt Hdown.
  apply String.eqb_neq in Hne.
  unfold deleteServiceRequestAttachment. wp_go.
  all: try (split; reflexivity).
  all: try wp_absurd.
  all: exfalso; bool_facts; subst; simpl in *; eapply Hdown; eassumption.
Qed.

(** C9, as the code has it.  When a service or a blog is deleted, the
    deletion of its image in the object store is best effort: whatever
    the store answers the resource is deleted and the answer is 200, a
    failure being logged.  Removing a single attachment of a service
    request is not: when the store does not confirm the deletion the
    handler answers 500 and the attachment stays in the request. *)
Theorem external_delete_policy (env : Env) (w : World) :
  (forall req me a s,
     req_admin req = Some me ->
     admins (db w) !! p_id me = Some a ->
     a_role a = "superadmin" \/ a_permissions a !! "manageServices" = Some true ->
     ObjectId_isValid env (str (params req !! "serviceId")) = true ->
     services (db w) !! str (params req !! "serviceId") = Some s ->
     s_createdBy s = p_id me \/ p_role me = "superadmin" ->
     (deleteService env req w).1 = Ret (json 200 DEmpty "Service deleted successfully")
     /\ db (deleteService env req w).2
        = set_services (delete (str (params req !! "serviceId"))) (db w)
     /\ (falsy (s_thumbnail s) = false ->
         uploader_destroy env (publicId_of_url (str (s_thumbnail s))) "image"
           <> inr "ok" ->
         In (EvLog "error" "Failed to delete thumbnail from Cloudinary")
            (trace (deleteService env req w).2)))
  /\
  (forall req me c b,
     req_client req = Some me ->
     clients (db w) !! p_id me = Some c ->
     c_status c = "active" ->
     ObjectId_isValid env (str (params req !! "blogId")) = true ->
     blogs (db w) !! str (params req !! "blogId") = Some b ->
     b_author b = p_id me ->
     (deleteBlog env req w).1 = Ret (json 200 DEmpty "Blog deleted successfully")
     /\ db (deleteBlog env req w).2
        = set_blogs (delete (str (params req !! "blogId"))) (db w)
     /\ (falsy (b_coverImage_url b) = false ->
         uploader_destroy env (publicId_of_url (str (b_coverImage_url b))) "image"
           <> inr "ok" ->
         In (EvLog "error" "Failed to delete cover image from Cloudinary")
            (trace (deleteBlog env req w).2)))
  /\
  (forall req me r publicId att,
     ObjectId_isValid env (str (params req !! "requestId")) = true ->
     params req !! "publicId" = Some publicId ->
     publicId <> "" ->
     req_client req = Some me ->
     requests (db w) !! str (params req !! "requestId") = Some r ->
     r_createdBy r = p_id me ->
     find (fun a => String.eqb (att_publicId a) publicId) (r_attachments r) = Some att ->
     (forall resourceType, uploader_destroy env publicId resourceType <> inr "ok") ->
     (deleteServiceRequestAttachment env req w).1
       = Throw (ApiErr 500 "Attachment deletion failed")
     /\ db (deleteServiceRequestAttachment env req w).2 = db w).
Proof.
  split; [|split].
  - intros req me a s H1 H2 H3 H4 H5 H6.
    destruct (wp_must_return _ _ _
                (deleteService_best_effort env req w me a s H1 H2 H3 H4 H5 H6))
      as (r & Hr & -> & Hdb & Hlog).
    by rewrite Hr.
  - intros req me c b H1 H2 H3 H4 H5 H6.
    destruct (wp_must_return _ _ _
                (deleteBlog_best_effort env req w me c b H1 H2 H3 H4 H5 H6))
      as (r & Hr & -> & Hdb & Hlog).
    by rewrite Hr.
  - intros req me r publicId att H1 H2 H3 H4 H5 H6 H7 H8.
    destruct (wp_must_throw _ _ _
                (deleteServiceRequestAttachment_needs_store env req w me r publicId att
                   H1 H2 H3 H4 H5 H6 H7 H8))
      as (e & He & -> & Hdb).
    by rewrite He.
Qed.

Lemma external_delete_policy_witness :
  ((deleteService (Fixture.store_down Fixture.env0) Fixture.service_deletion
      Fixture.w0).1 = Ret (json 200 DEmpty "Service deleted successfully")
   /\ db (deleteService (Fixture.store_down Fixture.env0) Fixture.service_deletion
            Fixture.w0).2
      = set_services (delete Fixture.service_id) (db Fixture.w0)
   /\ In (EvLog "error" "Failed to delete thumbnail from Cloudinary")
         (trace (deleteService (Fixture.store_down Fixture.env0)
                   Fixture.service_deletion Fixture.w0).2))
  /\
  ((deleteServiceRequestAttachment (Fixture.store_down Fixture.env0)
      Fixture.carol_removes_brief Fixture.w0).1
     = Throw (ApiErr 500 "Attachment deletion failed")
   /\ db (deleteServiceRequestAttachment (Fixture.store_down Fixture.env0)
            Fixture.carol_removes_brief Fixture.w0).2 = db Fixture.w0).
Proof.
  split.
  - destruct (proj1 (external_delete_policy (Fixture.store_down Fixture.env0) Fixture.w0)
                Fixture.service_deletion
                (admin_principal Fixture.root_id Fixture.root)
                Fixture.root Fixture.alices_service
                eq_refl ltac:(vm_compute; reflexivity) (or_introl eq_refl)
                eq_refl ltac:(vm_compute; reflexivity) (or_intror eq_refl))
      as (H1 & H2 & H3).
    split; [exact H1|]. split; [exact H2|].
    apply H3; [reflexivity | discriminate].
  - apply (proj2 (proj2 (external_delete_policy (Fixture.store_down Fixture.env0)
                           Fixture.w0))
             Fixture.carol_removes_brief
             (client_principal Fixture.carol_id Fixture.carol)
             Fixture.carols_request "brief"
             {| att_url := "https://cdn.example/v1/brief.pdf";
                att_publicId := "brief"; att_resourceType := Some "raw" |}).
    + reflexivity.
    + vm_compute; reflexivity.
    + discriminate.
    + reflexivity.
    + vm_compute; reflexivity.
    + reflexivity.
    + reflexivity.
    + intros rt; discriminate.
Defined.

(** C9 as stated fails for the removal of an attachment: with the object
    store out of reach the removal is answered 500 and the attachment is
    still part of the request. *)
Lemma attachment_removal_fails_with_the_store :
  (deleteServiceRequestAttachment (Fixture.store_down Fixture.env0)
     Fixture.carol_removes_brief Fixture.w0).1
    = Throw (ApiErr 500 "Attachment deletion failed")
  /\ requests (db (deleteServiceRequestAttachment (Fixture.store_down Fixture.env0)
                     Fixture.carol_removes_brief Fixture.w0).2)
       !! Fixture.request_id = Some Fixture.carols_request
  /\ (deleteServiceRequestAttachment Fixture.env0 Fixture.carol_removes_brief
        Fixture.w0).1
     = Ret (json 200 (DAttachments []) "Attachment deleted successfully").
Proof. vm_compute. repeat split; reflexivity. Qed.

(* ===================================================================== *)
(** ** Password strength *)
(* ===================================================================== *)

Lemma test_spec (cls : ascii -> bool) (s : string) :
  Validator.test cls s = true <->
  exists c, In c (list_ascii_of_string s) /\ cls c = true.
Proof.
  induction s as [|c s IH]; simpl.
  - split; [discriminate | intros (c & [] & _)].
  - rewrite orb_true_iff, IH. split.
    + intros [Hc | (c' & Hin & Hc')]; eauto.
    + intros (c' & [<- | Hin] & Hc'); eauto.
Qed.

(** What the predicate asks for: one character of each class, and six
    characters in all. *)
Lemma isPasswordStrong_spec (password : string) :
  Validator.isPasswordStrong password = true <->
  (exists c, In c (list_ascii_of_string password) /\ Validator.is_upper c = true) /\
  (exists c, In c (list_ascii_of_string password) /\ Validator.is_lower c = true) /\
  (exists c, In c (list_ascii_of_string password) /\ Validator.is_digit c = true) /\
  (exists c, In c (list_ascii_of_string password) /\ Validator.is_special c = true) /\
  6 <= String.length password.
Proof.
  unfold Validator.isPasswordStrong.
  rewrite !andb_true_iff, !test_spec, Nat.leb_le. tauto.
Qed.

Example strong_rejects_abc123 : Validator.isPasswordStrong "abc123" = false.
Proof. reflexivity. Qed.

Example strong_accepts_Abc123 : Validator.isPasswordStrong "Abc123!@" = true.
Proof. reflexivity. Qed.

(** A password that fails the predicate is refused with 400 before
    anything is hashed or stored. *)
Lemma registerClient_weak_password env req w :
  Validator.areRequiredFieldsProvided
    [body req !! "fullName"; body req !! "email"; body req !! "password";
     body req !! "phone"] = true ->
  isEmail env (str (body req !! "email")) = true ->
  isMobilePhone env (str (body req !! "phone")) = true ->
  Validator.isPasswordStrong (str (body req !! "password")) = false ->
  wp (registerClient env req) w
     (fun _ _ => False)
     (fun e w' => http_status e = 400 /\ db w' = db w /\
                  forall cost, In (EvHash cost) (trace w') -> In (EvHash cost) (trace w)).
Proof.
  intros Hf He Hp Hs. unfold registerClient. wp_go.
  all: first [ split; [reflexivity|]; split; [reflexivity|];
               intros cost; simpl; intuition discriminate
             | wp_absurd ].
Qed.

Lemma createAdmin_weak_password env req w me :
  req_admin req = Some me ->
  p_role me = "superadmin" ->
  Validator.areRequiredFieldsProvided
    [body req !! "fullName"; body req !! "email"; body req !! "password";
     body req !! "role"] = true ->
  isEmail env (str (body req !! "email")) = true ->
  Validator.isPasswordStrong (str (body req !! "password")) = false ->
  wp (createAdmin env req) w
     (fun _ _ => False)
     (fun e w' => http_status e = 400 /\ db w' = db w /\
                  forall cost, In (EvHash cost) (trace w') -> In (EvHash cost) (trace w)).
Proof.
  intros Hme Hrole Hf He Hs. unfold createAdmin. wp_go.
  all: first [ split; [reflexivity|]; split; [reflexivity|];
               intros cost; simpl; intuition discriminate
             | wp_absurd ].
Qed.

(** C6 fails for admins: the one predicate, with its bound of six, guards
    the admin handlers too, although their message announces eight
    characters.  A seven-character admin password passes the predicate;
    [createAdmin] then refuses it only through the schema validator (the
    answer is 400, but not the one of the strength check), and
    [changePassword] answers 500. *)
Theorem short_admin_password_passes_the_predicate :
  String.length "Abc12!x" = 7
  /\ Validator.isPasswordStrong "Abc12!x" = true
  /\ status_of (createAdmin Fixture.env0 (Fixture.root_creates_admin "Abc12!x")
                  Fixture.w0).1 = 400
  /\ (createAdmin Fixture.env0 (Fixture.root_creates_admin "Abc12!x") Fixture.w0).1
     <> Throw (ApiErr 400
                 "Password must be at least 8 characters with uppercase, lowercase, number, and special character")
  /\ status_of (changePassword Fixture.env0 Fixture.alice_changes_password
                  Fixture.w0).1 = 500
  /\ (createAdmin Fixture.env0 (Fixture.root_creates_admin "abc123") Fixture.w0).1
     = Throw (ApiErr 400
                "Password must be at least 8 characters with uppercase, lowercase, number, and special character").
Proof.
  split; [reflexivity|]. split; [reflexivity|].
  split; [vm_compute; reflexivity|].
  split; [vm_compute; discriminate|].
  split; vm_compute; reflexivity.
Qed.

(* ===================================================================== *)
(** ** Clearing the refresh token *)
(* ===================================================================== *)

(** Logging out removes the stored refresh token of a client. *)
Lemma logoutClient_clears env req w me c :
  req_client req = Some me ->
  clients (db w) !! p_id me = Some c ->
  exists resp w',
    logoutClient env req w = (Ret resp, w') /\
    res_status resp = 200 /\
    clients (db w') !! p_id me = Some (c_with_refreshToken c JUndefined).
Proof.
  intros Hme Hc. unfold logoutClient, bind, the_client. rewrite Hme. simpl.
  eexists _, _. split; [reflexivity|]. split; [reflexivity|].
  simpl. rewrite Hc. by rewrite lookup_insert_eq.
Qed.

(** C7 fails for clients: [changeClientPassword] stores the new password
    and leaves the refresh token where it is, so the token issued at login
    is still exchanged for new tokens after the password change.  The
    admin handler clears the path, and the old token is turned away. *)
Theorem client_password_change_keeps_the_refresh_token :
  (c_refreshToken <$> clients (db Fixture.w_carol_logged_in) !! Fixture.carol_id)
    = Some (JVal Fixture.carol_refresh)
  /\ (changeClientPassword Fixture.env0 Fixture.carol_changes_password
        Fixture.w_carol_logged_in).1 = Ret (json 200 DEmpty "Password changed")
  /\ (c_refreshToken <$>
        clients (db (changeClientPassword Fixture.env0 Fixture.carol_changes_password
                       Fixture.w_carol_logged_in).2) !! Fixture.carol_id)
     = Some (JVal Fixture.carol_refresh)
  /\ succeeded
       (refreshClientAccessToken Fixture.env1 Fixture.carol_refresh_request
          (changeClientPassword Fixture.env0 Fixture.carol_changes_password
             Fixture.w_carol_logged_in).2).1 = true
  /\ (changePassword Fixture.env0 Fixture.root_changes_password
        Fixture.w_root_logged_in).1
     = Ret (json 200 DEmpty "Password changed successfully. Please login again.")
  /\ (a_refreshToken <$>
        admins (db (changePassword Fixture.env0 Fixture.root_changes_password
                      Fixture.w_root_logged_in).2) !! Fixture.root_id)
     = Some JUndefined
  /\ succeeded
       (refreshAdminToken Fixture.env1 Fixture.root_refresh_request
          (changePassword Fixture.env0 Fixture.root_changes_password
             Fixture.w_root_logged_in).2).1 = false.
Proof. vm_compute. repeat split; reflexivity. Qed.

(* ===================================================================== *)
(** * Further properties of the handlers *)
(* ===================================================================== *)

(** ** Queries by a field *)

Lemma find_first_Some {V} (P : string * V -> bool) (m : gmap string V) k v :
  head (filter (fun kv => P kv) (map_to_list m)) = Some (k, v) ->
  m !! k = Some v /\ P (k, v) = true.
Proof.
  intros H. apply head_Some_elem_of in H.
  apply list_elem_of_filter in H as [HP Hin].
  apply elem_of_map_to_list in Hin. split; [done|]. by apply Is_true_eq_true.
Qed.

Lemma find_first_None {V} (P : string * V -> bool) (m : gmap string V) :
  head (filter (fun kv => P kv) (map_to_list m)) = None <->
  forall k v, m !! k = Some v -> P (k, v) = false.
Proof.
  rewrite head_None. split.
  - intros Hnil k v Hkv. destruct (P (k, v)) eqn:HP; [|done].
    assert (Hin : (k, v) ∈ filter (fun kv => P kv) (map_to_list m)).
    { apply list_elem_of_filter. split; [by rewrite HP|]. by apply elem_of_map_to_list. }
    rewrite Hnil in Hin. by apply not_elem_of_nil in Hin.
  - intros Hall. apply elem_of_nil_inv. intros [k v] Hin.
    apply list_elem_of_filter in Hin as [HP Hin].
    apply elem_of_map_to_list in Hin. rewrite (Hall k v Hin) in HP. done.
Qed.

(** ** Logging in *)

Lemma sign_verifies id claims secret ttl now :
  ttl <> 0%N ->
  jwt.verify (jwt.sign id claims secret ttl now) secret now
    = inr {| tok_secret := secret; tok_id := id; tok_claims := claims;
             tok_iat := now; tok_exp := (now + ttl)%N |}.
Proof.
  intros Httl. simpl. rewrite String.eqb_refl. simpl.
  destruct (N.leb_spec (now + ttl) now); [lia|done].
Qed.

Lemma loginAdmin_success env req w resp w' :
  loginAdmin env req w = (Ret resp, w') ->
  exists id a0 a,
    admins (db w) !! id = Some a0 /\
    a_email a0 = str (body req !! "email") /\
    a_isActive a0 = true /\
    AdminModel.comparePassword a0 (str (body req !! "password")) = true /\
    resp = {| res_status := 200;
              res_data := DLogin id (AdminModel.generateAccessToken env id a0)
                                    (AdminModel.generateRefreshToken env id a0);
              res_message := "Admin logged in successfully";
              res_cookies := [("adminAccessToken", AdminModel.generateAccessToken env id a0);
                              ("adminRefreshToken", AdminModel.generateRefreshToken env id a0)];
              res_cleared := [] |} /\
    db w' = set_admins (insert id a) (db w) /\
    a_refreshToken a = JVal (AdminModel.generateRefreshToken env id a0) /\
    a_isActive a = true /\ a_role a = a_role a0 /\ a_email a = a_email a0 /\
    a_lastLogin a = Some (clock env) /\ a_loginIP a = Some (ip req).
Proof.
  intros Hrun.
  assert (H : wp (loginAdmin env req) w
    (fun resp w' => exists id a0 a,
    admins (db w) !! id = Some a0 /\
    a_email a0 = str (body req !! "email") /\
    a_isActive a0 = true /\
    AdminModel.comparePassword a0 (str (body req !! "password")) = true /\
    resp = {| res_status := 200;
              res_data := DLogin id (AdminModel.generateAccessToken env id a0)
                                    (AdminModel.generateRefreshToken env id a0);
              res_message := "Admin logged in successfully";
              res_cookies := [("adminAccessToken", AdminModel.generateAccessToken env id a0);
                              ("adminRefreshToken", AdminModel.generateRefreshToken env id a0)];
              res_cleared := [] |} /\
    db w' = set_admins (insert id a) (db w) /\
    a_refreshToken a = JVal (AdminModel.generateRefreshToken env id a0) /\
    a_isActive a = true /\ a_role a = a_role a0 /\ a_email a = a_email a0 /\
    a_lastLogin a = Some (clock env) /\ a_loginIP a = Some (ip req))
    (fun _ _ => True)).
  { unfold loginAdmin. wp_go. all: try exact I.
    all: match goal with
         | H : head _ = Some (?i, ?x) |- _ =>
             apply (find_first_Some (fun kv => bool_decide (a_email kv.2 = _))) in H
               as [Hin Hem]; apply bool_decide_eq_true in Hem; simpl in Hem
         end.
    all: bool_facts.
    all: eexists _, _, _; repeat (split; [first [eassumption | reflexivity]|]);
         first [eassumption | reflexivity]. }
  exact (wp_Ret _ _ _ _ _ _ H Hrun).
Qed.


(** X1: the tokens handed out by a successful admin login are the ones the
    middlewares accept: the access token authenticates as the admin that
    logged in, and the refresh token is the stored one. *)
Theorem admin_login_tokens_are_accepted
    (env : Env) (req : Request) (w : World) (resp : Response) (w' : World) :
  loginAdmin env req w = (Ret resp, w') ->
  ACCESS_TOKEN_EXPIRES_IN env <> Some 0%N ->
  REFRESH_TOKEN_EXPIRES_IN env <> Some 0%N ->
  exists id access refresh,
    res_status resp = 200 /\
    res_data resp = DLogin id access refresh /\
    (a_refreshToken <$> admins (db w') !! id) = Some (JVal refresh) /\
    (forall req',
       js_or (cookies req' !! "adminAccessToken") (bearer req') = Some access ->
       exists p, verifyAdminJwt env req' w' = (Ret (attach_admin req' (Some p)), w')
                 /\ p_id p = id) /\
    (forall req',
       js_or (cookies req' !! "adminRefreshToken") (body_refreshToken req')
         = Some refresh ->
       succeeded (verifyAdminRefreshToken env req' w').1 = true).
Proof.
  intros Hrun Ha Hr.
  destruct (loginAdmin_success _ _ _ _ _ Hrun)
    as (id & a0 & a & Hin & Hem & Hact0 & Hpw & -> & Hdb & Hrt & Hact & Hrole & Hmail & _).
  exists id, (AdminModel.generateAccessToken env id a0),
         (AdminModel.generateRefreshToken env id a0).
  assert (Hlook : admins (db w') !! id = Some a).
  { rewrite Hdb. simpl. apply lookup_insert_eq. }
  split; [reflexivity|]. split; [reflexivity|].
  split; [by rewrite Hlook, <- Hrt|]. split.
  - intros req' Hreq. eexists.
    pose proof (sign_verifies id [("role", a_role a0); ("email", a_email a0)]
                  (ACCESS_TOKEN_SECRET env)
                  (default 900%N (ACCESS_TOKEN_EXPIRES_IN env)) (clock env)) as Hv.
    rewrite (verifyAdminJwt_valid env req' w' _ _ a Hreq (Hv ltac:(
      destruct (ACCESS_TOKEN_EXPIRES_IN env) as [n|]; simpl;
        [congruence | discriminate])) Hlook Hact).
    rewrite Hrt. simpl. split; reflexivity.
  - intros req' Hreq.
    unfold verifyAdminRefreshToken, try_catch, bind. rewrite Hreq. cbn [truthy negb].
    assert (Hv : jwt.verify (AdminModel.generateRefreshToken env id a0)
                   (REFRESH_TOKEN_SECRET env) (clock env)
                 = inr {| tok_secret := REFRESH_TOKEN_SECRET env; tok_id := id;
                          tok_claims := []; tok_iat := clock env;
                          tok_exp := (clock env
                                      + default 604800 (REFRESH_TOKEN_EXPIRES_IN env))%N |}).
    { apply sign_verifies.
      destruct (REFRESH_TOKEN_EXPIRES_IN env) as [n|]; simpl; [congruence | discriminate]. }
    rewrite Hv. simpl. rewrite Hlook. simpl. unfold strict_neq.
    rewrite bool_decide_eq_true_2; [reflexivity|]. exact Hrt.
Qed.


Ltac use_find_first :=
  repeat match goal with
  | H : head (filter ?P (map_to_list ?m)) = Some (?i, ?x) |- _ =>
      let Hin := fresh "Hin" in let Hp := fresh "Hp" in
      apply (find_first_Some _ m i x) in H as [Hin Hp];
      apply bool_decide_eq_true in Hp; simpl in Hp
  end.

Lemma loginClient_success env req w resp w' :
  loginClient env req w = (Ret resp, w') ->
  exists id c0 c,
    clients (db w) !! id = Some c0 /\
    c_email c0 = str (body req !! "email") /\
    c_isEmailVerified c0 = true /\
    ClientModel.comparePassword c0 (str (body req !! "password")) = true /\
    res_status resp = 200 /\
    res_data resp = DLogin id (ClientModel.generateAccessToken env id c0)
                              (ClientModel.generateRefreshToken env id c0) /\
    db w' = set_clients (insert id c) (db w) /\
    c_refreshToken c = JVal (ClientModel.generateRefreshToken env id c0) /\
    c_status c = c_status c0 /\ c_role c = c_role c0 /\ c_email c = c_email c0.
Proof.
  intros Hrun. pattern resp, w'.
  eapply (wp_Ret _ _ _ (fun _ _ => True)); [|exact Hrun].
  unfold loginClient. wp_go. all: try exact I.
  all: use_find_first; bool_facts.
  all: try wp_absurd.
  all: repeat match goal with
       | H1 : ?x = Some _, H2 : ?x = Some _ |- _ => rewrite H1 in H2; injection H2 as <-
       end.
  all: eexists _, _, _; repeat (split; [first [eassumption | reflexivity]|]);
       first [eassumption | reflexivity].
Qed.

(** X2: the tokens handed out by a successful client login are accepted:
    the access token authenticates as the client that logged in, and the
    refresh token can be exchanged. *)
Theorem client_login_tokens_are_accepted
    (env : Env) (req : Request) (w : World) (resp : Response) (w' : World) :
  loginClient env req w = (Ret resp, w') ->
  ACCESS_TOKEN_EXPIRES_IN env <> Some 0%N ->
  REFRESH_TOKEN_EXPIRES_IN env <> Some 0%N ->
  exists id access refresh,
    res_status resp = 200 /\
    res_data resp = DLogin id access refresh /\
    (c_refreshToken <$> clients (db w') !! id) = Some (JVal refresh) /\
    (forall req',
       js_or (cookies req' !! "accessToken") (bearer req') = Some access ->
       exists p, verifyJwt env req' w' = (Ret (attach_client req' (Some p)), w')
                 /\ p_id p = id) /\
    (forall req',
       js_or (cookies req' !! "refreshToken") (body_refreshToken req') = Some refresh ->
       succeeded (refreshClientAccessToken env req' w').1 = true).
Proof.
  intros Hrun Ha Hr.
  destruct (loginClient_success _ _ _ _ _ Hrun)
    as (id & c0 & c & Hin & Hem & Hver & Hpw & Hst & Hdata & Hdb & Hrt & _).
  exists id, (ClientModel.generateAccessToken env id c0),
         (ClientModel.generateRefreshToken env id c0).
  assert (Hlook : clients (db w') !! id = Some c).
  { rewrite Hdb. simpl. apply lookup_insert_eq. }
  split; [exact Hst|]. split; [exact Hdata|].
  split; [by rewrite Hlook, <- Hrt|]. split.
  - intros req' Hreq. eexists.
    pose proof (sign_verifies id
                  [("email", c_email c0); ("fullName", c_fullName c0); ("role", c_role c0)]
                  (ACCESS_TOKEN_SECRET env)
                  (default 86400%N (ACCESS_TOKEN_EXPIRES_IN env)) (clock env)
                  ltac:(destruct (ACCESS_TOKEN_EXPIRES_IN env) as [n|]; simpl;
                        [congruence | discriminate])) as Hv.
    unfold verifyJwt, try_catch, bind. rewrite Hreq. cbn [truthy negb].
    change (jwt.sign id _ (ACCESS_TOKEN_SECRET env) _ (clock env))
      with (ClientModel.generateAccessToken env id c0) in Hv.
    rewrite Hv. simpl. rewrite Hlook. split; reflexivity.
  - intros req' Hreq.
    assert (Hv : jwt.verify (ClientModel.generateRefreshToken env id c0)
                   (REFRESH_TOKEN_SECRET env) (clock env)
                 = inr {| tok_secret := REFRESH_TOKEN_SECRET env; tok_id := id;
                          tok_claims := []; tok_iat := clock env;
                          tok_exp := (clock env
                                      + default 604800 (REFRESH_TOKEN_EXPIRES_IN env))%N |}).
    { apply sign_verifies.
      destruct (REFRESH_TOKEN_EXPIRES_IN env) as [n|]; simpl; [congruence | discriminate]. }
    destruct (refreshClientAccessToken_run env req' w' _ _ c Hreq Hv Hlook Hrt)
      as (r & w2 & c2 & -> & _). reflexivity.
Qed.

(** X3: a login that fails changes nothing in the store, for admins and
    for clients; there is no counter of failed attempts. *)
Theorem failed_login_changes_nothing (env : Env) (req : Request) (w : World) :
  (succeeded (loginAdmin env req w).1 = false -> db (loginAdmin env req w).2 = db w)
  /\ (succeeded (loginClient env req w).1 = false -> db (loginClient env req w).2 = db w).
Proof.
  split; intros Hfail.
  - assert (H : wp (loginAdmin env req) w (fun _ _ => True) (fun _ w' => db w' = db w)).
    { unfold loginAdmin. wp_go; first [exact I | reflexivity]. }
    apply wp_run in H. by destruct (loginAdmin env req w).1.
  - assert (H : wp (loginClient env req) w (fun _ _ => True) (fun _ w' => db w' = db w)).
    { unfold loginClient. wp_go; first [exact I | reflexivity | wp_absurd]. }
    apply wp_run in H. by destruct (loginClient env req w).1.
Qed.


(** Bob has registered and not verified his email: with his password and
    with a wrong one he is answered 403, where an email that nobody has is
    answered 401. *)
Example unverified_email_is_told_apart :
  (loginClient Fixture.env0 Scenario.bob_login Scenario.w_bob_registered).1
    = Throw (ApiErr 403 "Please verify your email first")
  /\ (loginClient Fixture.env0 Scenario.bob_wrong_password Scenario.w_bob_registered).1
    = Throw (ApiErr 403 "Please verify your email first")
  /\ (loginClient Fixture.env0 Scenario.nobody_login Scenario.w_bob_registered).1
    = Throw (ApiErr 401 "Invalid credentials").
Proof. vm_compute. repeat split; reflexivity. Qed.


(** ** Refresh and logout *)

(** X5: [refreshClientAccessToken] answers 401 only when no token is
    presented; every failure after that (bad signature, expired, unknown
    client, token not the stored one) is turned into a 500 by the [catch]
    of the handler, the 401 raised for an unknown client or a token that is
    not the stored one included; and no failure changes the store. *)
Theorem client_refresh_failures (env : Env) (req : Request) (w : World) :
  match (refreshClientAccessToken env req w).1 with
  | Ret resp => res_status resp = 200
  | Throw e =>
      db (refreshClientAccessToken env req w).2 = db w /\
      if js_not (js_or (cookies req !! "refreshToken") (body_refreshToken req))
      then e = ApiErr 401 "Unauthorized request"
      else exists message, e = ApiErr 500 message
  end.
Proof.
  apply (wp_run (refreshClientAccessToken env req) w
           (fun resp _ => res_status resp = 200)
           (fun e w' => db w' = db w /\
              if js_not (js_or (cookies req !! "refreshToken") (body_refreshToken req))
              then e = ApiErr 401 "Unauthorized request"
              else exists message, e = ApiErr 500 message)).
  unfold refreshClientAccessToken. unfold js_not.
  destruct (js_or _ _) as [tk|]; [destruct (truthy tk) eqn:Htr|]; cbn [negb].
  - wp_go. all: try reflexivity.
    all: try (split; [reflexivity|]; eauto; fail).
    all: wp_absurd.
  - wp_go. split; reflexivity.
  - wp_go. split; reflexivity.
Qed.

(** X6: after a client has logged out, no refresh token naming that client
    is exchanged any more, whatever its signature and expiry. *)
Theorem client_logout_invalidates_refresh_tokens
    (env : Env) (req : Request) (w : World) (me : Principal) :
  req_client req = Some me ->
  exists resp w',
    logoutClient env req w = (Ret resp, w') /\
    res_status resp = 200 /\
    res_cleared resp = ["accessToken"; "refreshToken"] /\
    forall env' req' tk t,
      js_or (cookies req' !! "refreshToken") (body_refreshToken req') = Some tk ->
      tk = Jwt t -> tok_id t = p_id me ->
      succeeded (refreshClientAccessToken env' req' w').1 = false.
Proof.
  intros Hme. unfold logoutClient, bind, the_client. rewrite Hme. simpl.
  eexists _, _. split; [reflexivity|]. split; [reflexivity|]. split; [reflexivity|].
  intros env' req' tk t Hreq -> Hid.
  unfold refreshClientAccessToken, try_catch, bind. rewrite Hreq. cbn [truthy negb].
  destruct (jwt.verify (Jwt t) _ _) as [err|t'] eqn:Hv; [reflexivity|].
  apply verify_inr_Jwt in Hv as [= <-]. simpl. rewrite Hid.
  destruct (clients (db w) !! p_id me) as [c|] eqn:Hc.
  - rewrite lookup_insert_eq. reflexivity.
  - rewrite Hc. reflexivity.
Qed.

(** X7: after an admin has logged out, no refresh token naming that admin
    passes the refresh middleware or the refresh handler. *)
Theorem admin_logout_invalidates_refresh_tokens
    (env : Env) (req : Request) (w : World) (me : Principal) :
  req_admin req = Some me ->
  exists resp w',
    logoutAdmin env req w = (Ret resp, w') /\
    res_status resp = 200 /\
    res_cleared resp = ["adminAccessToken"; "adminRefreshToken"] /\
    forall env' req' tk t,
      js_or (cookies req' !! "adminRefreshToken") (body_refreshToken req') = Some tk ->
      tk = Jwt t -> tok_id t = p_id me ->
      succeeded (verifyAdminRefreshToken env' req' w').1 = false /\
      succeeded (refreshAdminToken env' req' w').1 = false.
Proof.
  intros Hme. destruct (logoutAdmin_run env req w me Hme) as [tr Hrun].
  eexists _, _. split; [exact Hrun|]. split; [reflexivity|]. split; [reflexivity|].
  intros env' req' tk t Hreq -> Hid.
  unfold verifyAdminRefreshToken, refreshAdminToken, try_catch, bind.
  rewrite Hreq. cbn [truthy negb].
  destruct (jwt.verify (Jwt t) _ _) as [err|t'] eqn:Hv; [split; reflexivity|].
  apply verify_inr_Jwt in Hv as [= <-]. simpl. rewrite Hid.
  destruct (admins (db w) !! p_id me) as [a|] eqn:Ha.
  - rewrite lookup_insert_eq. split; reflexivity.
  - rewrite Ha. split; reflexivity.
Qed.

(** ** What the middlewares attach *)

Lemma verifyAdminJwt_accepted env req w req' :
  (verifyAdminJwt env req w).1 = Ret req' ->
  exists tk t a,
    js_or (cookies req !! "adminAccessToken") (bearer req) = Some tk /\
    tk = Jwt t /\
    admins (db w) !! tok_id t = Some a /\
    a_isActive a = true /\
    req' = attach_admin req
             (Some {| p_id := tok_id t; p_role := a_role a; p_email := a_email a |}).
Proof.
  unfold verifyAdminJwt, try_catch, bind.
  destruct (js_or _ _) as [tk|] eqn:Htk; simpl; [|discriminate].
  destruct (truthy tk) eqn:Htr; simpl; [|discriminate].
  destruct (jwt.verify tk _ _) as [e|t] eqn:Hv; simpl; [discriminate|].
  destruct (admins (db w) !! tok_id t) as [a|] eqn:Ha; simpl; [|discriminate].
  destruct (a_isActive a) eqn:Hact; simpl; [|discriminate].
  destruct (is_null _); simpl; [discriminate|].
  rewrite Ha. intros [= <-]. exists tk, t, a.
  split; [done|]. split; [by apply verify_inr_Jwt in Hv|]. done.
Qed.

Lemma verifyJwt_accepted env req w req' :
  (verifyJwt env req w).1 = Ret req' ->
  exists tk t c,
    js_or (cookies req !! "accessToken") (bearer req) = Some tk /\
    tk = Jwt t /\
    clients (db w) !! tok_id t = Some c /\
    req' = attach_client req
             (Some {| p_id := tok_id t; p_role := c_role c; p_email := c_email c |}).
Proof.
  unfold verifyJwt, try_catch, bind.
  destruct (js_or _ _) as [tk|] eqn:Htk; simpl; [|discriminate].
  destruct (truthy tk) eqn:Htr; simpl; [|discriminate].
  destruct (jwt.verify tk _ _) as [e|t] eqn:Hv; simpl; [discriminate|].
  destruct (clients (db w) !! tok_id t) as [c|] eqn:Hc; simpl; [|discriminate].
  intros [= <-]. exists tk, t, c.
  split; [done|]. split; [by apply verify_inr_Jwt in Hv|]. done.
Qed.

(** X8: the authentication middlewares read and never write, and the
    principal they attach is the stored document named by the token's
    [_id]: its role and email come from the store, not from the claims
    carried by the token. *)
Theorem middlewares_attach_the_stored_principal
    (env : Env) (req : Request) (w : World) :
  (verifyAdminJwt env req w).2 = w
  /\ (verifyJwt env req w).2 = w
  /\ (forall req', (verifyAdminJwt env req w).1 = Ret req' ->
        exists tk t a,
          js_or (cookies req !! "adminAccessToken") (bearer req) = Some tk /\
          tk = Jwt t /\
          admins (db w) !! tok_id t = Some a /\
          req' = attach_admin req
                   (Some {| p_id := tok_id t; p_role := a_role a; p_email := a_email a |}))
  /\ (forall req', (verifyJwt env req w).1 = Ret req' ->
        exists tk t c,
          js_or (cookies req !! "accessToken") (bearer req) = Some tk /\
          tk = Jwt t /\
          clients (db w) !! tok_id t = Some c /\
          req' = attach_client req
                   (Some {| p_id := tok_id t; p_role := c_role c; p_email := c_email c |})).
Proof.
  split; [apply verifyAdminJwt_world|]. split; [apply verifyJwt_world|]. split.
  - intros req' H.
    destruct (verifyAdminJwt_accepted env req w req' H)
      as (tk & t & a & ? & ? & ? & _ & ?).
    eauto 10.
  - intros req' H. by apply (verifyJwt_accepted env req w req').
Qed.

(** ** Routes *)

(** X9: the admin refresh route runs the middleware, then the rate
    limiter of the auth routes, then the handler.  What the middleware
    refuses is answered 401.  What it lets through is answered 429 by the
    limiter when the limiter has seen too many requests from the address;
    neither refusal changes the store.  What passes both is never refused
    by the handler: the answer is 200 with a new pair of tokens.  The
    route answers 200, 401 or 429 and nothing else. *)
Theorem admin_refresh_route_answers_200_401_or_429
    (env : Env) (req : Request) (w : World) :
  (succeeded (verifyAdminRefreshToken env req w).1 = false ->
     status_of (admin_refresh_token_route env req w).1 = 401
     /\ db (admin_refresh_token_route env req w).2 = db w)
  /\ (succeeded (verifyAdminRefreshToken env req w).1 = true ->
      authRateLimiter_allows env (ip req) = false ->
      (admin_refresh_token_route env req w).1 = Ret too_many_requests
      /\ status_of (admin_refresh_token_route env req w).1 = 429
      /\ db (admin_refresh_token_route env req w).2 = db w)
  /\ (succeeded (verifyAdminRefreshToken env req w).1 = true ->
      authRateLimiter_allows env (ip req) = true ->
      exists access refresh,
        (res_data <$> (match (admin_refresh_token_route env req w).1 with
                       | Ret r => Some r | Throw _ => None end))
          = Some (DTokens access refresh)
        /\ status_of (admin_refresh_token_route env req w).1 = 200).
Proof.
  assert (Hacc : forall r w1, verifyAdminRefreshToken env req w = (Ret r, w1) ->
    exists tk t a,
      js_or (cookies req !! "adminRefreshToken") (body_refreshToken req) = Some tk /\
      jwt.verify tk (REFRESH_TOKEN_SECRET env) (clock env) = inr t /\
      admins (db w) !! tok_id t = Some a /\
      a_refreshToken a = JVal tk /\
      w1 = w /\ r = attach_admin req (Some (admin_principal (tok_id t) a))).
  { intros r w1 Hmw. pose proof Hmw as Hacc.
    apply verifyAdminRefreshToken_accepts in Hacc as (tk & t & a & Htk & Hv & Ha & Hr).
    exists tk, t, a. repeat (split; [assumption|]).
    revert Hmw. unfold verifyAdminRefreshToken, try_catch, bind.
    rewrite Htk. pose proof (verify_inr_Jwt _ _ _ _ Hv) as ->. cbn [truthy negb].
    rewrite Hv. simpl. rewrite Ha. simpl. unfold strict_neq.
    rewrite Hr, bool_decide_eq_true_2 by done. simpl. by intros [= <- <-]. }
  unfold admin_refresh_token_route, authRateLimiter, bind. split; [|split].
  - destruct (verifyAdminRefreshToken env req w) as [[r|e] w1] eqn:Hmw; [discriminate|].
    intros _. revert Hmw. unfold verifyAdminRefreshToken, try_catch.
    match goal with |- context [?body w] => destruct (body w) as [[r0|e0] w0] eqn:Hb end.
    + discriminate.
    + intros [= <- <-]. simpl. split; [reflexivity|].
      revert Hb. unfold bind.
      destruct (js_or _ _) as [tk|]; simpl; [|by intros [= _ <-]].
      destruct (truthy tk); simpl; [|by intros [= _ <-]].
      destruct (jwt.verify tk _ _) as [e1|t]; simpl; [by intros [= _ <-]|].
      destruct (admins (db w) !! tok_id t) as [a|]; simpl; [|by intros [= _ <-]].
      destruct (strict_neq _ _); simpl; [by intros [= _ <-]|discriminate].
  - destruct (verifyAdminRefreshToken env req w) as [[r|e] w1] eqn:Hmw; [|discriminate].
    intros _ Hlim.
    destruct (Hacc r w1 eq_refl) as (tk & t & a & _ & _ & _ & _ & -> & ->).
    cbn [ip attach_admin]. rewrite Hlim. by cbn.
  - destruct (verifyAdminRefreshToken env req w) as [[r|e] w1] eqn:Hmw; [|discriminate].
    intros _ Hlim.
    destruct (Hacc r w1 eq_refl) as (tk & t & a & Htk & Hv & Ha & Hr & -> & ->).
    cbn [ip attach_admin]. rewrite Hlim. cbn [ret].
    destruct (refreshAdminToken_run env
                (attach_admin req (Some (admin_principal (tok_id t) a))) w tk t a
                Htk Hv Ha Hr) as (resp & w2 & a2 & -> & Hst & Hdata & _).
    simpl. rewrite Hdata, Hst. eauto.
Qed.

(** The superadmin presents its refresh token while the limiter is
    refusing its address: 429, and the stored token is not rotated. *)
Example admin_refresh_rate_limited :
  (admin_refresh_token_route (Scenario.rate_limited Fixture.env1)
     Fixture.root_refresh_request Fixture.w_root_logged_in).1
    = Ret too_many_requests
  /\ db (admin_refresh_token_route (Scenario.rate_limited Fixture.env1)
           Fixture.root_refresh_request Fixture.w_root_logged_in).2
     = db Fixture.w_root_logged_in
  /\ status_of (admin_refresh_token_route Fixture.env1
                  Fixture.root_refresh_request Fixture.w_root_logged_in).1 = 200.
Proof. vm_compute. repeat split; reflexivity. Qed.

(** ** Invariants of the accounts *)

Lemma set_admins_insert_insert i a b d :
  set_admins (insert i a) (set_admins (insert i b) d) = set_admins (insert i a) d.
Proof. unfold set_admins. simpl. by rewrite insert_insert_eq. Qed.

Lemma set_clients_insert_insert i a b d :
  set_clients (insert i a) (set_clients (insert i b) d) = set_clients (insert i a) d.
Proof. unfold set_clients. simpl. by rewrite insert_insert_eq. Qed.

Lemma not_is_Some_None {A} (o : option A) :
  bool_decide (is_Some o) = false -> o = None.
Proof.
  intros H. apply bool_decide_eq_false in H.
  destruct o; [exfalso; apply H; eauto|done].
Qed.

Lemma admin_unset_step d id :
  account_step d
    (set_admins (fun m => match m !! id with
                          | Some a => <[id := with_refreshToken a JUndefined]> m
                          | None => m
                          end) d).
Proof.
  unfold set_admins. destruct (admins d !! id) as [a|] eqn:E.
  - by eapply (admin_updated _ _ id a (with_refreshToken a JUndefined)).
  - apply accounts_unchanged. by destruct d.
Qed.

Lemma client_unset_step d id :
  account_step d
    (set_clients (fun m => match m !! id with
                           | Some c => <[id := c_with_refreshToken c JUndefined]> m
                           | None => m
                           end) d).
Proof.
  unfold set_clients. destruct (clients d !! id) as [c|] eqn:E.
  - by eapply (client_updated _ _ id c (c_with_refreshToken c JUndefined)).
  - apply accounts_unchanged. by destruct d.
Qed.

Ltac fresh_key :=
  repeat match goal with
  | H : _ || _ = false |- _ => apply orb_false_iff in H as [? ?]
  | H : bool_decide (is_Some _) = false |- _ => apply not_is_Some_None in H
  end.

Ltac account_step :=
  simpl;
  rewrite ?set_admins_insert_insert, ?set_clients_insert_insert;
  first
    [ by apply accounts_unchanged
    | apply admin_unset_step
    | apply client_unset_step
    | by (eapply admin_deleted)
    | wp_absurd
    | use_find_first; bool_facts; fresh_key;
      first
        [ eapply admin_updated; cycle 3;
          [reflexivity | eassumption | reflexivity
          | simpl; intros; first [assumption | reflexivity]]
        | eapply client_updated; cycle 2;
          [reflexivity | eassumption
          | simpl; intros; first [assumption | reflexivity]]
        | eapply admin_created; cycle 3;
          [reflexivity | eassumption | reflexivity | ]
        | eapply client_created; cycle 2;
          [reflexivity | eassumption | reflexivity] ] ].

Lemma loginAdmin_step env req w :
  wp (loginAdmin env req) w (fun _ w' => account_step (db w) (db w'))
     (fun _ w' => account_step (db w) (db w')).
Proof. unfold loginAdmin. wp_go. all: account_step. Qed.

Lemma refreshAdminToken_step env req w :
  wp (refreshAdminToken env req) w (fun _ w' => account_step (db w) (db w'))
     (fun _ w' => account_step (db w) (db w')).
Proof. unfold refreshAdminToken. wp_go. all: account_step. Qed.

Lemma logoutAdmin_step env req w :
  wp (logoutAdmin env req) w (fun _ w' => account_step (db w) (db w'))
     (fun _ w' => account_step (db w) (db w')).
Proof. unfold logoutAdmin. wp_go. all: account_step. Qed.

Lemma changePassword_step env req w :
  wp (changePassword env req) w (fun _ w' => account_step (db w) (db w'))
     (fun _ w' => account_step (db w) (db w')).
Proof. unfold changePassword. wp_go. all: account_step. Qed.

Lemma deleteAdmin_step env req w :
  wp (deleteAdmin env req) w (fun _ w' => account_step (db w) (db w'))
     (fun _ w' => account_step (db w) (db w')).
Proof. unfold deleteAdmin. wp_go. all: account_step. Qed.

Lemma createAdmin_step env req w :
  wp (createAdmin env req) w (fun _ w' => account_step (db w) (db w'))
     (fun _ w' => account_step (db w) (db w')).
Proof.
  unfold createAdmin. wp_go. all: account_step.
  simpl. intros Hrole. rewrite Hrole in *. discriminate.
Qed.

Lemma createSuperadmin_step env req w :
  wp (createSuperadmin env req) w (fun _ w' => account_step (db w) (db w'))
     (fun _ w' => account_step (db w) (db w')).
Proof.
  unfold createSuperadmin. wp_go. all: account_step.
  intros _ j b Hj Hrole.
  match goal with
  | H : head _ = None |- _ =>
      apply (find_first_None (fun kv => bool_decide (a_role kv.2 = "superadmin")))
        with (k := j) (v := b) in H; [|done];
      apply bool_decide_eq_false in H; by apply H
  end.
Qed.

Lemma registerClient_step env req w :
  wp (registerClient env req) w (fun _ w' => account_step (db w) (db w'))
     (fun _ w' => account_step (db w) (db w')).
Proof. unfold registerClient. wp_go. all: account_step. Qed.

Lemma loginClient_step env req w :
  wp (loginClient env req) w (fun _ w' => account_step (db w) (db w'))
     (fun _ w' => account_step (db w) (db w')).
Proof. unfold loginClient. wp_go. all: account_step. Qed.

Lemma refreshClientAccessToken_step env req w :
  wp (refreshClientAccessToken env req) w (fun _ w' => account_step (db w) (db w'))
     (fun _ w' => account_step (db w) (db w')).
Proof. unfold refreshClientAccessToken. wp_go. all: account_step. Qed.

Lemma logoutClient_step env req w :
  wp (logoutClient env req) w (fun _ w' => account_step (db w) (db w'))
     (fun _ w' => account_step (db w) (db w')).
Proof. unfold logoutClient. wp_go. all: account_step. Qed.

Lemma changeClientPassword_step env req w :
  wp (changeClientPassword env req) w (fun _ w' => account_step (db w) (db w'))
     (fun _ w' => account_step (db w) (db w')).
Proof. unfold changeClientPassword. wp_go. all: account_step. Qed.

Lemma account_writers_step h env req w :
  In h account_writers -> account_step (db w) (db (h env req w).2).
Proof.
  intros Hin. apply (wp_final (h env req) w (fun w' => account_step (db w) (db w'))).
  simpl in Hin.
  destruct Hin as [<-|[<-|[<-|[<-|[<-|[<-|[<-|[<-|[<-|[<-|[<-|[<-|[]]]]]]]]]]]]].
  - apply createSuperadmin_step.
  - apply createAdmin_step.
  - apply deleteAdmin_step.
  - apply loginAdmin_step.
  - apply refreshAdminToken_step.
  - apply logoutAdmin_step.
  - apply changePassword_step.
  - apply registerClient_step.
  - apply loginClient_step.
  - apply refreshClientAccessToken_step.
  - apply logoutClient_step.
  - apply changeClientPassword_step.
Qed.

(** X10: no handler that writes an account ever stores a password in plain
    text: if every stored password is a hash before a request, every stored
    password is a hash after it, whether the request succeeds or fails. *)
Theorem stored_passwords_stay_hashed
    (h : Env -> Request -> M Response) (env : Env) (req : Request) (w : World) :
  In h account_writers ->
  passwords_hashed (db w) ->
  passwords_hashed (db (h env req w).2).
Proof.
  intros Hin [Ha Hc].
  destruct (account_writers_step h env req w Hin)
    as [-> | i a Hi Hh _ -> | i a0 a Hi _ Hh -> | i -> | i c Hi Hh -> | i c0 c Hi Hh ->];
    unfold passwords_hashed, set_admins, set_clients; simpl.
  - done.
  - split; [|done]. intros j b. destruct (decide (j = i)) as [->|Hj].
    + rewrite lookup_insert_eq. by intros [= <-].
    + rewrite lookup_insert_ne by done. apply Ha.
  - split; [|done]. intros j b. destruct (decide (j = i)) as [->|Hj].
    + rewrite lookup_insert_eq. intros [= <-]. eauto.
    + rewrite lookup_insert_ne by done. apply Ha.
  - split; [|done]. intros j b Hj%lookup_delete_Some. apply (Ha j). tauto.
  - split; [done|]. intros j b. destruct (decide (j = i)) as [->|Hj].
    + rewrite lookup_insert_eq. by intros [= <-].
    + rewrite lookup_insert_ne by done. apply Hc.
  - split; [done|]. intros j b. destruct (decide (j = i)) as [->|Hj].
    + rewrite lookup_insert_eq. intros [= <-]. eauto.
    + rewrite lookup_insert_ne by done. apply Hc.
Qed.

(** X11: there is never a second superadmin: no handler that writes the admin
    collection takes a store with at most one superadmin to a store with
    two. *)
Theorem superadmin_stays_unique
    (h : Env -> Request -> M Response) (env : Env) (req : Request) (w : World) :
  In h account_writers ->
  at_most_one_superadmin (db w) ->
  at_most_one_superadmin (db (h env req w).2).
Proof.
  intros Hin Hd.
  destruct (account_writers_step h env req w Hin)
    as [-> | i a Hi _ Hs -> | i a0 a Hi Hr _ -> | i -> | i c Hi Hh -> | i c0 c Hi Hh ->].
  - done.
  - intros j k b c. unfold set_admins. simpl.
    destruct (decide (j = i)) as [->|Hj], (decide (k = i)) as [->|Hk]; [done|..].
    + rewrite lookup_insert_eq, lookup_insert_ne by done.
      intros [= <-] Hk' Hb Hc. exfalso. by eapply Hs.
    + rewrite lookup_insert_eq, lookup_insert_ne by done.
      intros Hj' [= <-] Hb Hc. exfalso. by eapply Hs.
    + rewrite !lookup_insert_ne by done. apply Hd.
  - intros j k b c. unfold set_admins. simpl.
    destruct (decide (j = i)) as [->|Hj], (decide (k = i)) as [->|Hk]; [done|..].
    + rewrite lookup_insert_eq, lookup_insert_ne by done.
      intros [= <-] Hk' Hb Hc. symmetry. apply (Hd k i c a0); congruence.
    + rewrite lookup_insert_eq, lookup_insert_ne by done.
      intros Hj' [= <-] Hb Hc. apply (Hd j i b a0); congruence.
    + rewrite !lookup_insert_ne by done. apply Hd.
  - intros j k b c. unfold set_admins. simpl.
    intros Hj%lookup_delete_Some Hk%lookup_delete_Some. apply Hd; tauto.
  - exact Hd.
  - exact Hd.
Qed.

(** ** Admin accounts *)

Lemma set_admins_insert_twice i a d :
  set_admins (insert i a) (set_admins (insert i a) d) = set_admins (insert i a) d.
Proof. apply set_admins_insert_insert. Qed.

Lemma createAdmin_effect env req w :
  wp (createAdmin env req) w
    (fun resp w' => exists id a,
       admins (db w) !! id = None /\
       db w' = set_admins (insert id a) (db w) /\
       a_role a = str (body req !! "role") /\
       includes ["admin"; "moderator"; "client"] (a_role a) = true /\
       is_hashed (a_password a) = true /\
       a_permissions a
         = AdminModel.cast_permissions (admin_default_permissions (a_role a)) /\
       (exists me, req_admin req = Some me /\ p_role me = "superadmin"))
    (fun _ w' => db w' = db w).
Proof.
  unfold createAdmin. wp_go.
  all: try reflexivity.
  all: try (wp_absurd; fail).
  rewrite set_admins_insert_twice. bool_facts. fresh_key.
  eexists _, _. split; [eassumption|]. split; [reflexivity|].
  simpl. repeat (split; [first [reflexivity | assumption]|]). eauto.
Qed.

Lemma default_permissions_hold_no_control_flag role flag :
  In flag control_flags ->
  AdminModel.cast_permissions (admin_default_permissions role) !! flag = Some false.
Proof.
  intros Hin. unfold admin_default_permissions.
  destruct (String.eqb role "admin"); [|destruct (String.eqb role "moderator");
    [|destruct (String.eqb role "client")]].
  all: simpl in Hin; repeat (destruct Hin as [<-|Hin]; [vm_compute; reflexivity|]);
       destruct Hin.
Qed.

Lemma client_role_holds_no_flag flag v :
  AdminModel.cast_permissions (admin_default_permissions "client") !! flag = Some v ->
  v = false.
Proof.
  unfold AdminModel.cast_permissions. intros H.
  apply elem_of_list_to_map_2 in H. apply list_elem_of_In in H.
  vm_compute in H.
  repeat (destruct H as [H|H]; [by injection H as _ <-|]). destruct H.
Qed.

(** X12: an account made by [createAdmin] is bounded: only a superadmin makes
    one, under a new id and beside the accounts that were there; its role
    is admin, moderator or client, never superadmin; its password is stored
    as a hash; whatever the body asks for, it holds none of the flags for
    deployments, logs, backups, roles, permissions and settings; and an
    account of role client holds no flag at all. *)
Theorem createAdmin_creates_a_bounded_account
    (env : Env) (req : Request) (w : World) :
  succeeded (createAdmin env req w).1 = true ->
  exists id a,
    (exists me, req_admin req = Some me /\ p_role me = "superadmin") /\
    admins (db w) !! id = None /\
    db (createAdmin env req w).2 = set_admins (insert id a) (db w) /\
    In (a_role a) ["admin"; "moderator"; "client"] /\
    is_hashed (a_password a) = true /\
    (forall flag, In flag control_flags -> a_permissions a !! flag = Some false) /\
    (a_role a = "client" -> forall flag v, a_permissions a !! flag = Some v -> v = false).
Proof.
  intros Hok. pose proof (wp_run _ _ _ _ (createAdmin_effect env req w)) as H.
  destruct (createAdmin env req w).1 as [resp|e]; [|discriminate].
  destruct H as (id & a & Hfresh & Hdb & Hrole & Hinc & Hhash & Hperm & Hme).
  exists id, a. split; [exact Hme|]. split; [exact Hfresh|]. split; [exact Hdb|].
  split; [|split; [exact Hhash|split]].
  - unfold includes in Hinc. apply existsb_exists in Hinc as (r & Hin & Heq).
    apply String.eqb_eq in Heq. by subst r.
  - intros flag Hin. rewrite Hperm. by apply default_permissions_hold_no_control_flag.
  - intros Hc flag v. rewrite Hperm, Hc. apply client_role_holds_no_flag.
Qed.

Lemma deleteAdmin_effect env req w :
  wp (deleteAdmin env req) w
    (fun resp w' => exists me target,
       req_admin req = Some me /\ p_role me = "superadmin" /\
       str (params req !! "adminId") <> p_id me /\
       admins (db w) !! ObjectId_cast env (str (params req !! "adminId"))
         = Some target /\
       db w' = set_admins (delete (ObjectId_cast env (str (params req !! "adminId"))))
                 (db w))
    (fun _ w' => db w' = db w).
Proof.
  unfold deleteAdmin. wp_go.
  all: try reflexivity.
  all: try (wp_absurd; fail).
  bool_facts.
  match goal with H : String.eqb _ _ = false |- _ => apply String.eqb_neq in H end.
  eauto 10.
Qed.

(** X13: the delete route and its guard against self-deletion.  A deletion
    goes through only for a requester whose stored role is superadmin and
    only when the id in the path, as it is spelled, differs from the
    requester's id; it removes the admin that the id denotes once it is
    cast to an ObjectId, and no other; a request that is refused removes
    nothing.  The guard compares spellings where the deletion casts: the
    requester is still stored afterwards when the cast id is not its own,
    and when the path spells the requester's id in another way the
    account that is removed is the requester's. *)
Theorem admin_delete_route_guards_the_spelling
    (env : Env) (req : Request) (w : World) :
  (succeeded (admin_delete_route env req w).1 = true ->
     exists id me target,
       admins (db w) !! id = Some me /\ a_role me = "superadmin" /\
       str (params req !! "adminId") <> id /\
       admins (db w) !! ObjectId_cast env (str (params req !! "adminId"))
         = Some target /\
       db (admin_delete_route env req w).2
         = set_admins (delete (ObjectId_cast env (str (params req !! "adminId"))))
             (db w) /\
       (ObjectId_cast env (str (params req !! "adminId")) <> id ->
        admins (db (admin_delete_route env req w).2) !! id = Some me) /\
       (ObjectId_cast env (str (params req !! "adminId")) = id ->
        target = me /\ admins (db (admin_delete_route env req w).2) !! id = None))
  /\ (succeeded (admin_delete_route env req w).1 = false ->
     db (admin_delete_route env req w).2 = db w).
Proof.
  unfold admin_delete_route, route, bind.
  pose proof (verifyAdminJwt_world env req w) as Hw.
  pose proof (verifyAdminJwt_accepted env req w) as Hadm.
  destruct (verifyAdminJwt env req w) as [[req'|e] w1] eqn:Hmw; simpl in Hw; subst w1.
  - destruct (Hadm req' eq_refl) as (tk & t & a & _ & _ & Ha & _ & ->).
    pose proof (wp_run _ _ _ _
      (deleteAdmin_effect env
         (attach_admin req
            (Some {| p_id := tok_id t; p_role := a_role a; p_email := a_email a |})) w))
      as H.
    destruct (deleteAdmin env _ w) as [[resp|e] w2]; simpl in *.
    + split; [|discriminate]. intros _.
      destruct H as (me & target & [= <-] & Hrole & Hne & Htarget & Hdb).
      simpl in *. exists (tok_id t), a, target.
      repeat (split; [assumption|]). rewrite Hdb. simpl. split.
      * intros Hcast. rewrite lookup_delete_ne by done. exact Ha.
      * intros Hcast. rewrite Hcast in Htarget |- *. split; [congruence|].
        apply lookup_delete_eq.
    + split; [discriminate|]. intros _. exact H.
  - simpl. split; [discriminate|done].
Qed.

(** The superadmin asks for the deletion of its own account.  Under the
    spelling of its id that the token carries the guard refuses; under a
    spelling with an upper-case digit the guard lets the request through
    and the account of the superadmin is removed. *)
Example superadmin_deletes_itself :
  (admin_delete_route Fixture.env0
     (Fixture.with_bearer
        (Fixture.with_params Fixture.req0 [("adminId", Fixture.root_id)])
        Fixture.root_access) Fixture.w0).1
    = Throw (ApiErr 400 "Superadmin cannot delete themselves")
  /\ (admin_delete_route Fixture.env0 Scenario.root_deletes_itself Fixture.w0).1
    = Ret (json 200 DEmpty "Admin account deleted successfully")
  /\ admins (db Fixture.w0) !! Fixture.root_id = Some Fixture.root
  /\ admins (db (admin_delete_route Fixture.env0 Scenario.root_deletes_itself
                   Fixture.w0).2) !! Fixture.root_id = None.
Proof. vm_compute. repeat split; reflexivity. Qed.

(** ** Passwords *)

Lemma substring_all (s : string) (n : nat) :
  String.length s <= n -> String.substring 0 n s = s.
Proof.
  revert n. induction s as [|c s IH]; intros [|n] Hlen; simpl in *;
    try reflexivity; try lia.
  f_equal. apply IH. lia.
Qed.

(** A password of at most 72 bytes is read whole. *)
Lemma truncate_short (s : string) :
  String.length s <= 72 -> bcrypt.truncate s = s.
Proof. apply substring_all. Qed.

Lemma changePassword_effect env req w :
  wp (changePassword env req) w
    (fun resp w' => exists me a0 a,
       req_admin req = Some me /\
       admins (db w) !! p_id me = Some a0 /\
       AdminModel.comparePassword a0 (str (body req !! "currentPassword")) = true /\
       str (body req !! "currentPassword") <> str (body req !! "newPassword") /\
       db w' = set_admins (insert (p_id me) a) (db w) /\
       a_password a = bcrypt.hash (str (body req !! "newPassword")) 12 /\
       a_refreshToken a = JUndefined /\
       a_role a = a_role a0 /\ a_email a = a_email a0 /\
       a_permissions a = a_permissions a0 /\ a_isActive a = a_isActive a0)
    (fun _ w' => db w' = db w).
Proof.
  unfold changePassword. wp_go.
  all: try reflexivity.
  all: try (wp_absurd; fail).
  all: rewrite ?set_admins_insert_insert; bool_facts.
  all: match goal with H : String.eqb _ _ = false |- _ => apply String.eqb_neq in H end.
  all: repeat match goal with
       | H : a_password _ = Plain _ |- _ => simpl in H; injection H as <-
       end.
  all: eexists _, _, _; repeat (split; [first [eassumption | reflexivity]|]);
       first [eassumption | reflexivity].
Qed.

(** X14: a successful admin password change stores the new password as a
    bcrypt hash of cost 12, which the new password matches, leaves role,
    email, permissions and activity as they were, and clears the stored
    refresh token, so that no refresh token naming the admin passes the
    refresh middleware afterwards.  The old password no longer matches,
    unless it agrees with the new one on the first 72 bytes, which are all
    that bcrypt reads: the handler then accepted the change, the two
    strings being different, and the old password matches the new hash. *)
Theorem admin_password_change_takes_effect
    (env : Env) (req : Request) (w : World) :
  succeeded (changePassword env req w).1 = true ->
  exists me a0 a,
    req_admin req = Some me /\
    admins (db w) !! p_id me = Some a0 /\
    db (changePassword env req w).2 = set_admins (insert (p_id me) a) (db w) /\
    a_password a = bcrypt.hash (str (body req !! "newPassword")) 12 /\
    AdminModel.comparePassword a (str (body req !! "newPassword")) = true /\
    AdminModel.comparePassword a (str (body req !! "currentPassword"))
      = String.eqb (bcrypt.truncate (str (body req !! "currentPassword")))
                   (bcrypt.truncate (str (body req !! "newPassword"))) /\
    (String.length (str (body req !! "currentPassword")) <= 72 ->
     String.length (str (body req !! "newPassword")) <= 72 ->
     AdminModel.comparePassword a (str (body req !! "currentPassword")) = false) /\
    a_role a = a_role a0 /\ a_email a = a_email a0 /\
    a_permissions a = a_permissions a0 /\ a_isActive a = a_isActive a0 /\
    forall env' req' tk t,
      js_or (cookies req' !! "adminRefreshToken") (body_refreshToken req') = Some tk ->
      tk = Jwt t -> tok_id t = p_id me ->
      succeeded (verifyAdminRefreshToken env' req' (changePassword env req w).2).1 = false.
Proof.
  intros Hok. pose proof (wp_run _ _ _ _ (changePassword_effect env req w)) as H.
  destruct (changePassword env req w) as [[resp|e] w']; [|discriminate]. simpl in *.
  destruct H as (me & a0 & a & Hme & Ha0 & Hcmp & Hne & Hdb & Hpw & Hrt & Hrole & Hem
                 & Hperm & Hact).
  exists me, a0, a. repeat (split; [first [assumption | reflexivity]|]).
  split; [unfold AdminModel.comparePassword; rewrite Hpw; simpl; apply String.eqb_refl|].
  split; [unfold AdminModel.comparePassword; rewrite Hpw; reflexivity|].
  split.
  { intros Hc Hn. unfold AdminModel.comparePassword. rewrite Hpw. simpl.
    rewrite !truncate_short by assumption. by apply String.eqb_neq. }
  repeat (split; [assumption|]).
  intros env' req' tk t Hreq -> Hid.
  unfold verifyAdminRefreshToken, try_catch, bind. rewrite Hreq. cbn [truthy negb].
  destruct (jwt.verify (Jwt t) _ _) as [err|t'] eqn:Hv; [reflexivity|].
  apply verify_inr_Jwt in Hv as [= <-]. simpl. rewrite Hid, Hdb. simpl.
  rewrite lookup_insert_eq. simpl. unfold strict_neq. rewrite Hrt.
  rewrite bool_decide_eq_false_2 by discriminate. reflexivity.
Qed.

(** The superadmin has a password of eighty characters and changes its
    tail: the change is accepted and the old password still matches. *)
Example long_password_still_matches :
  Scenario.long_old <> Scenario.long_new
  /\ (changePassword Fixture.env0 Scenario.root_changes_long_password
        Scenario.w_root_long).1
     = Ret (json 200 DEmpty "Password changed successfully. Please login again.")
  /\ ((fun a => AdminModel.comparePassword a Scenario.long_old)
        <$> admins (db (changePassword Fixture.env0 Scenario.root_changes_long_password
                          Scenario.w_root_long).2) !! Fixture.root_id)
     = Some true.
Proof. split; [discriminate|]. vm_compute. split; reflexivity. Qed.







(** Eight lower-case letters fail the predicate, are refused by the
    registration and by [createAdmin], and make the password of the first
    superadmin. *)
Example weak_superadmin_password_is_stored :
  Validator.isPasswordStrong "password" = false
  /\ status_of (createSuperadmin Fixture.env0 Scenario.weak_superadmin
                  Scenario.w_empty).1 = 201
  /\ (a_password
        <$> admins (db (createSuperadmin Fixture.env0 Scenario.weak_superadmin
                          Scenario.w_empty).2) !! new_ObjectId Fixture.env0)
     = Some (Hashed 12 "password")
  /\ status_of (createAdmin Fixture.env0 (Fixture.root_creates_admin "password")
                  Fixture.w0).1 = 400.
Proof. vm_compute. repeat split; reflexivity. Qed.

(** ** The first superadmin *)

Lemma createSuperadmin_effect env req w :
  wp (createSuperadmin env req) w
    (fun resp w' => exists a,
       admins (db w) !! new_ObjectId env = None /\
       (forall j b, admins (db w) !! j = Some b -> a_role b <> "superadmin") /\
       res_status resp = 201 /\
       db w' = set_admins (insert (new_ObjectId env) a) (db w) /\
       a_role a = "superadmin" /\ a_isActive a = true /\
       a_email a = str (body req !! "email") /\
       a_password a = bcrypt.hash (str (body req !! "password")) 12 /\
       a_permissions a = AdminModel.cast_permissions superadmin_permissions)
    (fun _ w' => db w' = db w).
Proof.
  unfold createSuperadmin. wp_go.
  all: try reflexivity.
  all: try (wp_absurd; fail).
  all: fresh_key.
  all: repeat match goal with
       | H : a_password _ = Plain _ |- _ => simpl in H; injection H as <-
       end.
  all: eexists; split; [eassumption|]; split;
       [ intros j b Hj Hrole;
         match goal with
         | H : head (filter _ (map_to_list ?m)) = None |- _ =>
             apply (find_first_None _ m) with (k := j) (v := b) in H; [|exact Hj];
             simpl in H; apply bool_decide_eq_false in H; by apply H
         end
       | repeat (split; [reflexivity|]); reflexivity ].
Qed.

Lemma superadmin_holds_every_flag flag :
  In flag AdminModel.flag_names ->
  AdminModel.cast_permissions superadmin_permissions !! flag = Some true.
Proof.
  intros Hin. simpl in Hin.
  repeat (destruct Hin as [<-|Hin]; [vm_compute; reflexivity|]). destruct Hin.
Qed.

(** X16: [createSuperadmin] works once.  It answers only on a store that
    holds no superadmin; the account it stores is active, has the role
    superadmin, a hashed password and every permission flag of the schema;
    from then on every call is refused with 403, whatever its body, and
    leaves the store as it is. *)
Theorem createSuperadmin_works_once (env : Env) (req : Request) (w : World) :
  succeeded (createSuperadmin env req w).1 = true ->
  (forall j b, admins (db w) !! j = Some b -> a_role b <> "superadmin")
  /\ (exists a,
        admins (db (createSuperadmin env req w).2) !! new_ObjectId env = Some a /\
        a_role a = "superadmin" /\ a_isActive a = true /\
        is_hashed (a_password a) = true /\
        forall flag, In flag AdminModel.flag_names ->
                     a_permissions a !! flag = Some true)
  /\ (forall env' req',
        (createSuperadmin env' req' (createSuperadmin env req w).2).1
          = Throw (ApiErr 403 "Superadmin already exists")
        /\ db (createSuperadmin env' req' (createSuperadmin env req w).2).2
           = db (createSuperadmin env req w).2).
Proof.
  intros Hok.
  pose proof (wp_run _ _ _ _ (createSuperadmin_effect env req w)) as H.
  destruct (createSuperadmin env req w) as [[resp|e] w1]; [|discriminate].
  cbn [fst snd] in *.
  destruct H as (a & Hfresh & Hnone & _ & Hdb & Hrole & Hact & _ & Hpw & Hperm).
  assert (Hlook : admins (db w1) !! new_ObjectId env = Some a).
  { rewrite Hdb. simpl. apply lookup_insert_eq. }
  split; [exact Hnone|]. split.
  - exists a. repeat (split; [first [assumption | by rewrite Hpw]|]).
    intros flag Hin. rewrite Hperm. by apply superadmin_holds_every_flag.
  - intros env' req'.
    unfold createSuperadmin, Admin_findOne_role, bind. simpl.
    destruct (head _) as [[k v]|] eqn:Hhead.
    + rewrite bool_decide_eq_true_2 by eauto. split; reflexivity.
    + exfalso.
      apply (find_first_None (fun kv => bool_decide (a_role kv.2 = "superadmin")))
        with (k := new_ObjectId env) (v := a) in Hhead; [|exact Hlook].
      apply bool_decide_eq_false in Hhead. by apply Hhead.
Qed.


(** ** Sessions of the handlers that have a [finally] block *)

Ltac wp_settled h :=
  unfold h; wp_go;
  first [ eexists; split; [wp_lookup | split; reflexivity] | wp_absurd ].

Lemma registerClient_settles env req w :
  wp (registerClient env req) w
     (fun _ => settled (length (sessions w)) TxCommitted)
     (fun _ => settled (length (sessions w)) TxAborted).
Proof. wp_settled registerClient. Qed.

Lemma createAdmin_settles env req w :
  wp (createAdmin env req) w
     (fun _ => settled (length (sessions w)) TxCommitted)
     (fun _ => settled (length (sessions w)) TxAborted).
Proof. wp_settled createAdmin. Qed.

Lemma changePassword_settles env req w :
  wp (changePassword env req) w
     (fun _ => settled (length (sessions w)) TxCommitted)
     (fun _ => settled (length (sessions w)) TxAborted).
Proof. wp_settled changePassword. Qed.

Lemma createService_settles env req w :
  wp (createService env req) w
     (fun _ => settled (length (sessions w)) TxCommitted)
     (fun _ => settled (length (sessions w)) TxAborted).
Proof. wp_settled createService. Qed.

Lemma deleteService_settles env req w :
  wp (deleteService env req) w
     (fun _ => settled (length (sessions w)) TxCommitted)
     (fun _ => settled (length (sessions w)) TxAborted).
Proof. wp_settled deleteService. Qed.

Lemma deleteAdmin_settles env req w :
  wp (deleteAdmin env req) w
     (fun _ => settled (length (sessions w)) TxCommitted)
     (fun _ => settled (length (sessions w)) TxAborted).
Proof. wp_settled deleteAdmin. Qed.

Lemma toggleServiceStatus_settles env req w :
  wp (toggleServiceStatus env req) w
     (fun _ => settled (length (sessions w)) TxCommitted)
     (fun _ => settled (length (sessions w)) TxAborted).
Proof. wp_settled toggleServiceStatus. Qed.

Lemma deleteServiceRequestAttachment_settles env req w :
  wp (deleteServiceRequestAttachment env req) w
     (fun _ => settled (length (sessions w)) TxCommitted)
     (fun _ => settled (length (sessions w)) TxAborted).
Proof. wp_settled deleteServiceRequestAttachment. Qed.

Lemma deleteBlog_settles env req w :
  wp (deleteBlog env req) w
     (fun _ => settled (length (sessions w)) TxCommitted)
     (fun _ => settled (length (sessions w)) TxAborted).
Proof. wp_settled deleteBlog. Qed.

(** X17: the handlers with a [finally] block leave no session and no
    transaction open: when the handler is done its session is ended, and
    its transaction is committed if the handler answered and aborted if it
    threw. *)
Theorem transactions_are_settled
    (h : Env -> Request -> M Response) (env : Env) (req : Request) (w : World) :
  In h releasing_handlers ->
  settled (length (sessions w))
    (if succeeded (h env req w).1 then TxCommitted else TxAborted)
    (h env req w).2.
Proof.
  intros Hin.
  cut (wp (h env req) w (fun _ => settled (length (sessions w)) TxCommitted)
          (fun _ => settled (length (sessions w)) TxAborted)).
  { intros H. apply wp_run in H. by destruct (h env req w).1. }
  simpl in Hin.
  destruct Hin as [<-|[<-|[<-|[<-|[<-|[<-|[<-|[<-|[<-|[]]]]]]]]]].
  - apply registerClient_settles.
  - apply createAdmin_settles.
  - apply changePassword_settles.
  - apply createService_settles.
  - apply deleteService_settles.
  - apply deleteBlog_settles.
  - apply deleteServiceRequestAttachment_settles.
  - apply deleteAdmin_settles.
  - apply toggleServiceStatus_settles.
Qed.

(** ** Services *)

(** X18: [uploadThumbnail] answers 200 or 500 and nothing else: its [catch]
    turns every error into a 500, the refusals raised as 403, 400 and 404
    included. *)
Theorem uploadThumbnail_answers_200_or_500
    (env : Env) (req : Request) (w : World) :
  match (uploadThumbnail env req w).1 with
  | Ret resp => res_status resp = 200
  | Throw e => exists message, e = ApiErr 500 message
  end.
Proof.
  apply (wp_run (uploadThumbnail env req) w
           (fun resp _ => res_status resp = 200)
           (fun e _ => exists message, e = ApiErr 500 message)).
  unfold uploadThumbnail. wp_go.
  all: first [ reflexivity | by eexists | wp_absurd ].
Qed.





(** ** Creating a service *)

Lemma createService_effect env req w :
  wp (createService env req) w
    (fun resp w' => exists me a s,
       req_admin req = Some me /\
       admins (db w) !! p_id me = Some a /\
       not_permitted (if String.eqb (a_role a) "superadmin" then PFlag true
                      else permissions_get env a "manageServices") = false /\
       services (db w) !! new_ObjectId env = None /\
       resp = json 201 (DDoc (new_ObjectId env)) "Service created successfully" /\
       db w' = set_services (insert (new_ObjectId env) s) (db w) /\
       s_createdBy s = p_id me /\ s_status s = "active" /\ s_thumbnail s = None /\
       s_title s = str (body req !! "title") /\
       s_description s = str (body req !! "description") /\
       Number env (str (body req !! "price")) = Some (s_price s) /\
       ServicesModel.validate s = None)
    (fun _ w' => db w' = db w).
Proof.
  unfold createService. wp_go.
  all: try reflexivity.
  all: try (wp_absurd; fail).
  all: fresh_key.
  all: eexists _, _, _; split; [reflexivity|]; split; [eassumption|];
       split; [match goal with H : String.eqb (a_role _) _ = _ |- _ =>
                 by rewrite H end|];
       split; [assumption|]; split; [reflexivity|]; split; [reflexivity|];
       simpl; repeat (split; [first [reflexivity | assumption]|]); assumption.
Qed.

Lemma validate_service s :
  ServicesModel.validate s = None ->
  s_title s <> "" /\ s_description s <> "" /\ (0 <= s_price s)%Z.
Proof.
  unfold ServicesModel.validate.
  destruct (String.eqb_spec (s_title s) ""); [discriminate|].
  destruct (String.eqb_spec (s_description s) ""); [discriminate|].
  destruct (Z.ltb_spec (s_price s) 0); [discriminate|]. done.
Qed.

(** X24: a service made by [createService] is attributed to the requester:
    the handler answers only to a stored admin who is superadmin or holds
    [manageServices]; the service is stored under a new id beside the
    services that were there, with the requester as its creator, status
    active, no thumbnail, a title and a description that are not empty and
    a price that is not negative. *)
Theorem createService_records_its_creator
    (env : Env) (req : Request) (w : World) :
  succeeded (createService env req w).1 = true ->
  exists me a s,
    req_admin req = Some me /\
    admins (db w) !! p_id me = Some a /\
    (a_role a = "superadmin" \/ a_permissions a !! "manageServices" = Some true) /\
    services (db w) !! new_ObjectId env = None /\
    db (createService env req w).2
      = set_services (insert (new_ObjectId env) s) (db w) /\
    s_createdBy s = p_id me /\ s_status s = "active" /\ s_thumbnail s = None /\
    s_title s <> "" /\ s_description s <> "" /\ (0 <= s_price s)%Z.
Proof.
  intros Hok.
  pose proof (wp_run _ _ _ _ (createService_effect env req w)) as H.
  destruct (createService env req w) as [[resp|e] w1]; [|discriminate].
  cbn [fst snd] in *.
  destruct H as (me & a & s & Hme & Ha & Hperm & Hfresh & _ & Hdb & Hby & Hst & Hth
                 & _ & _ & _ & Hval).
  exists me, a, s. repeat (split; [assumption|]). split.
  - destruct (String.eqb_spec (a_role a) "superadmin"); [by left|right].
    by apply (manageServices_permitted env).
  - repeat (split; [assumption|]). by apply validate_service.
Qed.

(** ** Attachments of a service request *)



Lemma toggleServiceStatus_effect env req w :
  wp (toggleServiceStatus env req) w
    (fun resp w' => exists me a s,
       req_admin req = Some me /\
       admins (db w) !! p_id me = Some a /\
       not_permitted (if String.eqb (a_role a) "superadmin" then PFlag true
                      else permissions_get env a "manageServices") = false /\
       ObjectId_isValid env (str (params req !! "serviceId")) = true /\
       services (db w) !! str (params req !! "serviceId") = Some s /\
       negb (String.eqb (s_createdBy s) (p_id me))
         && negb (String.eqb (p_role me) "superadmin") = false /\
       ServicesModel.validate (toggled s) = None /\
       resp = json 200 (DDoc (str (params req !! "serviceId")))
                "Service status updated successfully" /\
       db w' = set_services (insert (str (params req !! "serviceId")) (toggled s)) (db w))
    (fun _ w' => db w' = db w).
Proof.
  unfold toggleServiceStatus. wp_go.
  all: try reflexivity.
  all: try (wp_absurd; fail).
  all: match goal with H : negb (ObjectId_isValid _ _) = false |- _ =>
         apply negb_false_iff in H end.
  all: eexists _, _, _; split; [reflexivity|]; split; [eassumption|];
       split; [match goal with H : String.eqb (a_role _) _ = _ |- _ =>
                 by rewrite H end|];
       split; [assumption|]; split; [reflexivity|]; split; [assumption|];
       split; [assumption|]; split; reflexivity.
Qed.

Lemma toggleServiceStatus_run env req w me a s :
  req_admin req = Some me ->
  admins (db w) !! p_id me = Some a ->
  not_permitted (if String.eqb (a_role a) "superadmin" then PFlag true
                 else permissions_get env a "manageServices") = false ->
  ObjectId_isValid env (str (params req !! "serviceId")) = true ->
  services (db w) !! str (params req !! "serviceId") = Some s ->
  negb (String.eqb (s_createdBy s) (p_id me))
    && negb (String.eqb (p_role me) "superadmin") = false ->
  ServicesModel.validate (toggled s) = None ->
  wp (toggleServiceStatus env req) w
    (fun resp w' =>
       db w' = set_services (insert (str (params req !! "serviceId")) (toggled s)) (db w))
    (fun _ _ => False).
Proof.
  intros Hme Ha Hperm Hid Hs Hown Hval. unfold toggled in Hval.
  unfold toggleServiceStatus. wp_go.
  all: try reflexivity.
  all: wp_absurd.
Qed.

Lemma toggled_twice s :
  s_status s = "active" \/ s_status s = "inactive" -> toggled (toggled s) = s.
Proof. destruct s as [t d p c th st]. unfold toggled. simpl. by intros [-> | ->]. Qed.

(** X20: [toggleServiceStatus] is its own inverse on the two statuses of the
    schema: the first call stores the other status and leaves title,
    description, price, creator and thumbnail of the service alone, and a
    second call by the same requester goes through as well and puts these
    paths of the stored services back as they were (the timestamps that
    Mongoose keeps are not part of the model). *)
Theorem toggling_twice_restores_the_service
    (env : Env) (req : Request) (w : World) (s : Service) :
  succeeded (toggleServiceStatus env req w).1 = true ->
  services (db w) !! str (params req !! "serviceId") = Some s ->
  s_status s = "active" \/ s_status s = "inactive" ->
  services (db (toggleServiceStatus env req w).2) !! str (params req !! "serviceId")
    = Some (s_with_status s (if String.eqb (s_status s) "active"
                             then "inactive" else "active"))
  /\ succeeded (toggleServiceStatus env req (toggleServiceStatus env req w).2).1 = true
  /\ services (db (toggleServiceStatus env req (toggleServiceStatus env req w).2).2)
       = services (db w).
Proof.
  intros Hok Hs Hst.
  pose proof (wp_run _ _ _ _ (toggleServiceStatus_effect env req w)) as H.
  destruct (toggleServiceStatus env req w) as [[resp|e] w1]; [|discriminate].
  simpl in *.
  destruct H as (me & a & s' & Hme & Ha & Hperm & Hid & Hs' & Hown & Hval & _ & Hdb).
  rewrite Hs in Hs'. injection Hs' as <-.
  split; [rewrite Hdb; simpl; by rewrite lookup_insert_eq|].
  assert (Hrun : wp (toggleServiceStatus env req) w1
            (fun _ w' => db w' = set_services
                           (insert (str (params req !! "serviceId"))
                                   (toggled (toggled s))) (db w1))
            (fun _ _ => False)).
  { apply (toggleServiceStatus_run env req w1 me a (toggled s)); try assumption.
    - by rewrite Hdb.
    - rewrite Hdb. simpl. by rewrite lookup_insert_eq. }
  apply wp_must_return in Hrun as (r & Hr & Hdb2). rewrite Hr. split; [reflexivity|].
  rewrite Hdb2, Hdb, toggled_twice by done. simpl.
  rewrite insert_insert_eq. by apply insert_id.
Qed.


(** ** The object store *)

(** X22: [deleteFromCloudinary] returns only when the store answers "ok",
    and its value then is "ok"; every failure, a missing public id, an
    invalid resource type, an error of the store or another answer of the
    store, is logged and thrown as a plain error whose message starts with
    "Deletion failed: "; the store is asked at most once, and not at all
    for a missing id or an invalid type; the database is never touched. *)
Theorem deleteFromCloudinary_spec
    (env : Env) (publicId resourceType : string) (w : World) :
  db (deleteFromCloudinary env publicId resourceType w).2 = db w
  /\ match (deleteFromCloudinary env publicId resourceType w).1 with
     | Ret result =>
         result = "ok" /\
         uploader_destroy env publicId resourceType = inr "ok" /\
         trace (deleteFromCloudinary env publicId resourceType w).2
           = EvDestroy publicId resourceType :: trace w
     | Throw e =>
         exists cause,
           e = JsErr "Error" ("Deletion failed: " +:+ cause) None /\
           trace (deleteFromCloudinary env publicId resourceType w).2
             = EvLog "console.error" ("Cloudinary Deletion Error: " +:+ cause)
                 :: (if String.eqb publicId ""
                        || negb (includes ["image"; "video"; "raw"] resourceType)
                     then trace w
                     else EvDestroy publicId resourceType :: trace w)
     end.
Proof.
  unfold deleteFromCloudinary, try_catch, bind.
  destruct (includes ["image"; "video"; "raw"] resourceType);
    destruct (String.eqb publicId ""); simpl; try by eauto.
  destruct (uploader_destroy env publicId _) as [e|result] eqn:Hd; simpl; [by eauto|].
  destruct (String.eqb_spec result "ok") as [->|Hr]; simpl; by eauto.
Qed.


(** ** Public ids *)

Ltac chars := cbn [existsb list_ascii_of_string last_segment before_dot String.append].

Lemma has_char_app c s t : has_char c (s +:+ t) = has_char c s || has_char c t.
Proof.
  unfold has_char. induction s as [|a s IH]; [done|].
  change (String a s +:+ t) with (String a (s +:+ t)). chars.
  by rewrite IH, orb_assoc.
Qed.

Lemma last_segment_plain s : has_char "/" s = false -> last_segment s = s.
Proof.
  destruct s as [|c rest]; [done|]. unfold has_char. chars.
  intros [Hc Hrest]%orb_false_iff. rewrite Ascii.eqb_sym in Hc. by rewrite Hc, Hrest.
Qed.

Lemma last_segment_after_slash p s :
  has_char "/" s = false -> last_segment (p +:+ "/" +:+ s) = s.
Proof.
  intros Hs. induction p as [|c p IH].
  - change ("" +:+ "/" +:+ s) with (String "/" s).
    chars. rewrite Ascii.eqb_refl. by apply last_segment_plain.
  - change (String c p +:+ "/" +:+ s) with (String c (p +:+ "/" +:+ s)).
    chars. rewrite IH.
    destruct (Ascii.eqb c "/"); [done|].
    change (existsb _ _) with (has_char "/" (p +:+ "/" +:+ s)).
    rewrite has_char_app.
    change ("/" +:+ s) with (String "/" s). unfold has_char at 2. chars.
    by rewrite Ascii.eqb_refl, orb_true_r.
Qed.

Lemma last_segment_no_slash s : has_char "/" (last_segment s) = false.
Proof.
  induction s as [|c rest IH]; [done|]. chars.
  destruct (Ascii.eqb c "/") eqn:Hc; [done|].
  destruct (existsb _ _) eqn:Hrest; [done|].
  unfold has_char. chars. rewrite Ascii.eqb_sym in Hc. by rewrite Hc, Hrest.
Qed.

Lemma before_dot_name name rest :
  has_char "." name = false -> before_dot (name +:+ "." +:+ rest) = name.
Proof.
  unfold has_char. induction name as [|c name IH].
  - intros _. change ("" +:+ "." +:+ rest) with (String "." rest).
    chars. by rewrite Ascii.eqb_refl.
  - change (String c name +:+ "." +:+ rest) with (String c (name +:+ "." +:+ rest)).
    chars. intros [Hc Hn]%orb_false_iff. rewrite Ascii.eqb_sym in Hc. rewrite Hc.
    f_equal. by apply IH.
Qed.

Lemma before_dot_plain name : has_char "." name = false -> before_dot name = name.
Proof.
  unfold has_char. induction name as [|c name IH]; chars; [done|].
  intros [Hc Hn]%orb_false_iff. rewrite Ascii.eqb_sym in Hc. rewrite Hc.
  f_equal. by apply IH.
Qed.

Lemma before_dot_no_dot s : has_char "." (before_dot s) = false.
Proof.
  unfold has_char. induction s as [|c s IH]; chars; [done|].
  destruct (Ascii.eqb c ".") eqn:Hc; [done|]. chars.
  rewrite Ascii.eqb_sym in Hc. by rewrite Hc, IH.
Qed.

Lemma before_dot_keeps c s : has_char c s = false -> has_char c (before_dot s) = false.
Proof.
  unfold has_char. induction s as [|a s IH]; chars; [done|].
  intros [Ha Hs]%orb_false_iff. destruct (Ascii.eqb a "."); [done|]. chars.
  by rewrite Ha, IH.
Qed.

(** X23: the public id that the handlers derive from a stored URL is the
    file name between the last slash and the first dot after it: for a
    name without slash and dot it is the name, with or without an
    extension; it never holds a slash or a dot, so an asset stored under a
    folder is not addressed by its full public id. *)
Theorem publicId_of_url_is_the_file_name (prefix name extension : string) :
  has_char "/" name = false ->
  has_char "." name = false ->
  has_char "/" extension = false ->
  publicId_of_url (prefix +:+ "/" +:+ name +:+ "." +:+ extension) = name
  /\ publicId_of_url (prefix +:+ "/" +:+ name) = name
  /\ forall url,
       has_char "/" (publicId_of_url url) = false /\
       has_char "." (publicId_of_url url) = false.
Proof.
  intros Hn1 Hn2 He. unfold publicId_of_url. split; [|split].
  - rewrite last_segment_after_slash.
    + by apply before_dot_name.
    + rewrite has_char_app, Hn1. change ("." +:+ extension) with (String "." extension).
      unfold has_char in *. chars. rewrite He. reflexivity.
  - rewrite last_segment_after_slash by done. by apply before_dot_plain.
  - intros url. split; [|apply before_dot_no_dot].
    apply before_dot_keeps, last_segment_no_slash.
Qed.

Lemma publicId_of_url_is_the_file_name_witness :
  publicId_of_url ("https://res.cloudinary.com/codix/image/upload/v1/services"
                   +:+ "/" +:+ "thumb" +:+ "." +:+ "png") = "thumb".
Proof.
  apply (publicId_of_url_is_the_file_name
           "https://res.cloudinary.com/codix/image/upload/v1/services" "thumb" "png");
    reflexivity.
Defined.

(** ** Email verification *)

(** X26: [verifyClientEmail] answers 400 "Invalid or expired token" to a
    malformed token and to one signed with another key, but not to an
    expired one: the [TokenExpiredError] of a token that carries the right
    signature is thrown on as it is and reaches the client as a 500.
    Nothing is written in any of these cases. *)
Theorem verifyClientEmail_token_errors
    (env : Env) (tk : RawToken) (w : World) (e : Error) :
  truthy tk = true ->
  jwt.verify tk (ACCESS_TOKEN_SECRET env) (clock env) = inl e ->
  db (verifyClientEmail env (Some tk) w).2 = db w
  /\ match tk with
     | Opaque _ =>
         (verifyClientEmail env (Some tk) w).1
           = Throw (ApiErr 400 "Invalid or expired token")
     | Jwt t =>
         if String.eqb (tok_secret t) (ACCESS_TOKEN_SECRET env)
         then (verifyClientEmail env (Some tk) w).1
                = Throw (JsErr "TokenExpiredError" "jwt expired" None)
              /\ status_of (verifyClientEmail env (Some tk) w).1 = 500
         else (verifyClientEmail env (Some tk) w).1
                = Throw (ApiErr 400 "Invalid or expired token")
     end.
Proof.
  intros Htr Hv. unfold verifyClientEmail, try_catch, bind. rewrite Htr. cbn [negb].
  rewrite Hv. destruct tk as [t|s]; simpl in Hv.
  - destruct (String.eqb (tok_secret t) (ACCESS_TOKEN_SECRET env)); simpl in Hv.
    + destruct (tok_exp t <=? clock env)%N; [|discriminate].
      injection Hv as <-. simpl. auto.
    + injection Hv as <-. simpl. auto.
  - injection Hv as <-. simpl. auto.
Qed.

Lemma required_field_not_empty a b c d :
  Validator.areRequiredFieldsProvided [a; b; c; d] = true -> str b <> "".
Proof.
  unfold Validator.areRequiredFieldsProvided. cbn [forallb].
  intros [_ [Hb _]%andb_true_iff]%andb_true_iff. revert Hb.
  destruct b as [[|x b]|]; simpl; [discriminate| |discriminate]. done.
Qed.

Lemma registerClient_effect env req w :
  wp (registerClient env req) w
    (fun resp w' => exists c,
       clients (db w) !! new_ObjectId env = None /\
       (forall k v, clients (db w) !! k = Some v ->
                    c_email v <> str (body req !! "email")) /\
       resp = json 201 (DDoc (new_ObjectId env))
                "Client registered successfully. Please verify your email." /\
       db w' = set_clients (insert (new_ObjectId env) c) (db w) /\
       c_email c = str (body req !! "email") /\
       c_email c <> "" /\
       c_fullName c = str (body req !! "fullName") /\
       c_role c = "client" /\ c_status c = "active" /\
       c_isEmailVerified c = false /\
       c_refreshToken c = JUndefined /\
       is_hashed (c_password c) = true /\
       c_verificationToken c
         = JVal (ClientModel.generateAccessToken env (new_ObjectId env) c) /\
       In (EvMail (str (body req !! "email"))) (trace w'))
    (fun _ w' => db w' = db w).
Proof.
  unfold registerClient. wp_go.
  all: try reflexivity.
  all: try (wp_absurd; fail).
  all: rewrite ?set_clients_insert_insert; fresh_key; bool_facts.
  all: eexists; split; [eassumption|]; split;
       [ intros k v Hk;
         match goal with
         | H : head (filter _ (map_to_list ?m)) = None |- _ =>
             apply (find_first_None _ m) with (k := k) (v := v) in H; [|exact Hk];
             simpl in H; by apply bool_decide_eq_false in H
         end
       | split; [reflexivity|]; split; [reflexivity|]; split; [reflexivity|];
         split; [simpl; eapply required_field_not_empty; eassumption|];
         simpl; repeat (split; [reflexivity|]); tauto ].
Qed.

Lemma verifyClientEmail_run env tk t c w :
  jwt.verify tk (ACCESS_TOKEN_SECRET env) (clock env) = inr t ->
  clients (db w) !! tok_id t = Some c ->
  c_isEmailVerified c = false ->
  is_hashed (c_password c) = true ->
  verifyClientEmail env (Some tk) w
    = (Ret (json 200 DEmpty "Email verified successfully"),
       {| db := set_clients (insert (tok_id t) (c_verified c)) (db w);
          sessions := sessions w; trace := trace w |}).
Proof.
  intros Hv Hc Hver Hpw. pose proof (verify_inr_Jwt _ _ _ _ Hv) as ->.
  unfold verifyClientEmail, try_catch, bind. cbn [truthy negb]. rewrite Hv. simpl.
  rewrite Hc, Hver. unfold ClientModel.save, ClientModel.pre_save, bind. simpl.
  destruct (c_password c); [discriminate|]. reflexivity.
Qed.

Lemma verifyClientEmail_again env tk t c w :
  jwt.verify tk (ACCESS_TOKEN_SECRET env) (clock env) = inr t ->
  clients (db w) !! tok_id t = Some c ->
  c_isEmailVerified c = true ->
  (verifyClientEmail env (Some tk) w).1 = Throw (ApiErr 400 "Email already verified").
Proof.
  intros Hv Hc Hver. pose proof (verify_inr_Jwt _ _ _ _ Hv) as ->.
  unfold verifyClientEmail, try_catch, bind. cbn [truthy negb]. rewrite Hv. simpl.
  by rewrite Hc, Hver.
Qed.

(** X27: the token mailed at registration verifies the email: after a
    successful registration the new client is stored unverified with the
    token, [verifyClientEmail] with that token answers 200 and stores the
    client as verified with the token cleared, and a second use of the
    token is answered 400. *)
Theorem registration_token_verifies_the_email
    (env : Env) (req : Request) (w : World) :
  succeeded (registerClient env req w).1 = true ->
  ACCESS_TOKEN_EXPIRES_IN env <> Some 0%N ->
  exists c token,
    clients (db (registerClient env req w).2) !! new_ObjectId env = Some c /\
    c_isEmailVerified c = false /\
    c_verificationToken c = JVal token /\
    (verifyClientEmail env (Some token) (registerClient env req w).2).1
      = Ret (json 200 DEmpty "Email verified successfully") /\
    clients (db (verifyClientEmail env (Some token) (registerClient env req w).2).2)
      !! new_ObjectId env = Some (c_verified c) /\
    (verifyClientEmail env (Some token)
       (verifyClientEmail env (Some token) (registerClient env req w).2).2).1
      = Throw (ApiErr 400 "Email already verified").
Proof.
  intros Hok Httl.
  pose proof (wp_run _ _ _ _ (registerClient_effect env req w)) as H.
  destruct (registerClient env req w) as [[resp|e] w1]; [|discriminate].
  cbn [fst snd] in *.
  destruct H as (c & Hfresh & _ & _ & Hdb & Hem & _ & Hfn & Hrole & Hst & Hver & Hrt & Hpw
                 & Htok & _).
  exists c, (ClientModel.generateAccessToken env (new_ObjectId env) c).
  assert (Hlook : clients (db w1) !! new_ObjectId env = Some c).
  { rewrite Hdb. simpl. apply lookup_insert_eq. }
  assert (Hv : jwt.verify (ClientModel.generateAccessToken env (new_ObjectId env) c)
                 (ACCESS_TOKEN_SECRET env) (clock env)
               = inr {| tok_secret := ACCESS_TOKEN_SECRET env;
                        tok_id := new_ObjectId env;
                        tok_claims := [("email", c_email c); ("fullName", c_fullName c);
                                       ("role", c_role c)];
                        tok_iat := clock env;
                        tok_exp := (clock env
                                    + default 86400 (ACCESS_TOKEN_EXPIRES_IN env))%N |}).
  { apply sign_verifies.
    destruct (ACCESS_TOKEN_EXPIRES_IN env) as [n|]; simpl; [congruence | discriminate]. }
  split; [exact Hlook|]. split; [exact Hver|]. split; [exact Htok|].
  rewrite (verifyClientEmail_run env _ _ c w1 Hv Hlook Hver Hpw). cbn [fst snd db].
  unfold set_clients at 1. cbn [clients tok_id].
  rewrite lookup_insert_eq. split; [reflexivity|]. split; [reflexivity|].
  apply (verifyClientEmail_again env _ _ (c_verified c) _ Hv); [|reflexivity].
  cbn [db set_clients clients tok_id]. apply lookup_insert_eq.
Qed.

(** X28: the token mailed at registration is an access token.  A client that
    has registered and not verified the email is refused by [loginClient]
    with 403, whatever the password, while [verifyJwt] accepts the mailed
    token as a bearer token and attaches the client. *)
Theorem unverified_client_authenticates_with_the_mailed_token
    (env : Env) (req : Request) (w : World) :
  succeeded (registerClient env req w).1 = true ->
  ACCESS_TOKEN_EXPIRES_IN env <> Some 0%N ->
  exists c token,
    clients (db (registerClient env req w).2) !! new_ObjectId env = Some c /\
    c_verificationToken c = JVal token /\
    (forall login,
       body login !! "email" = Some (c_email c) ->
       falsy (body login !! "password") = false ->
       (loginClient env login (registerClient env req w).2).1
         = Throw (ApiErr 403 "Please verify your email first")) /\
    (forall req',
       js_or (cookies req' !! "accessToken") (bearer req') = Some token ->
       (verifyJwt env req' (registerClient env req w).2).1
         = Ret (attach_client req'
                  (Some {| p_id := new_ObjectId env; p_role := c_role c;
                           p_email := c_email c |}))).
Proof.
  intros Hok Httl.
  pose proof (wp_run _ _ _ _ (registerClient_effect env req w)) as H.
  destruct (registerClient env req w) as [[resp|e] w1]; [|discriminate].
  cbn [fst snd] in *.
  destruct H as (c & Hfresh & Huniq & _ & Hdb & Hem & Hne & Hfn & Hrole & Hst & Hver & Hrt
                 & Hpw & Htok & _).
  exists c, (ClientModel.generateAccessToken env (new_ObjectId env) c).
  assert (Hlook : clients (db w1) !! new_ObjectId env = Some c).
  { rewrite Hdb. simpl. apply lookup_insert_eq. }
  split; [exact Hlook|]. split; [exact Htok|]. split.
  - intros login Hmail Hpass.
    cut (wp (loginClient env login) w1 (fun _ _ => False)
            (fun e _ => e = ApiErr 403 "Please verify your email first")).
    { intros H. by destruct (wp_must_throw _ _ _ H) as (e & -> & ->). }
    assert (Hfe : falsy (body login !! "email") = false).
    { rewrite Hmail. simpl. by apply String.eqb_neq. }
    unfold loginClient. rewrite Hfe, Hpass. cbn [orb]. wp_go.
    all: try reflexivity.
    all: use_find_first.
    all: try match goal with
         | H : head _ = None |- _ =>
             apply (find_first_None _ _) with (k := new_ObjectId env) (v := c) in H;
               [|cbn [set_clients clients]; apply lookup_insert_eq];
               simpl in H; apply bool_decide_eq_false in H; exfalso; apply H;
               first [assumption | congruence]
         end.
    all: match goal with
         | Hin : clients _ !! ?k = Some ?v, Hp : c_email ?v = _ |- _ =>
             cbn [set_clients clients] in Hin;
             destruct (decide (k = new_ObjectId env)) as [->|Hk];
             [ rewrite lookup_insert_eq in Hin; injection Hin as <-;
               bool_facts; congruence
             | rewrite lookup_insert_ne in Hin by done;
               exfalso; apply (Huniq _ _ Hin); first [assumption | congruence] ]
         end.
  - intros req' Hreq.
    pose proof (sign_verifies (new_ObjectId env)
                  [("email", c_email c); ("fullName", c_fullName c); ("role", c_role c)]
                  (ACCESS_TOKEN_SECRET env)
                  (default 86400%N (ACCESS_TOKEN_EXPIRES_IN env)) (clock env)
                  ltac:(destruct (ACCESS_TOKEN_EXPIRES_IN env) as [n|]; simpl;
                        [congruence | discriminate])) as Hv.
    unfold verifyJwt, try_catch, bind. rewrite Hreq. cbn [truthy negb].
    change (jwt.sign (new_ObjectId env) _ (ACCESS_TOKEN_SECRET env) _ (clock env))
      with (ClientModel.generateAccessToken env (new_ObjectId env) c) in Hv.
    rewrite Hv. simpl. rewrite Hlook. reflexivity.
Qed.

(* ===================================================================== *)
(** ** The properties on the concrete data *)
(* ===================================================================== *)

Lemma admin_login_tokens_are_accepted_witness :
  exists resp w',
    loginAdmin Fixture.env0 Fixture.root_login_request Fixture.w0 = (Ret resp, w') /\
    exists id access refresh,
      res_status resp = 200 /\
      res_data resp = DLogin id access refresh /\
      (a_refreshToken <$> admins (db w') !! id) = Some (JVal refresh) /\
      (forall req',
         js_or (cookies req' !! "adminAccessToken") (bearer req') = Some access ->
         exists p, verifyAdminJwt Fixture.env0 req' w' = (Ret (attach_admin req' (Some p)), w')
                   /\ p_id p = id) /\
      (forall req',
         js_or (cookies req' !! "adminRefreshToken") (body_refreshToken req')
           = Some refresh ->
         succeeded (verifyAdminRefreshToken Fixture.env0 req' w').1 = true).
Proof.
  eexists _, _. split; [vm_compute; reflexivity|].
  apply (admin_login_tokens_are_accepted Fixture.env0 Fixture.root_login_request
           Fixture.w0);
    [vm_compute; reflexivity | discriminate | discriminate].
Defined.

Lemma client_login_tokens_are_accepted_witness :
  exists resp w',
    loginClient Fixture.env0 Fixture.carol_login_request Fixture.w0 = (Ret resp, w') /\
    exists id access refresh,
      res_status resp = 200 /\
      res_data resp = DLogin id access refresh /\
      (c_refreshToken <$> clients (db w') !! id) = Some (JVal refresh) /\
      (forall req',
         js_or (cookies req' !! "accessToken") (bearer req') = Some access ->
         exists p, verifyJwt Fixture.env0 req' w' = (Ret (attach_client req' (Some p)), w')
                   /\ p_id p = id) /\
      (forall req',
         js_or (cookies req' !! "refreshToken") (body_refreshToken req') = Some refresh ->
         succeeded (refreshClientAccessToken Fixture.env0 req' w').1 = true).
Proof.
  eexists _, _. split; [vm_compute; reflexivity|].
  apply (client_login_tokens_are_accepted Fixture.env0 Fixture.carol_login_request
           Fixture.w0);
    [vm_compute; reflexivity | discriminate | discriminate].
Defined.

Lemma client_logout_invalidates_refresh_tokens_witness :
  exists resp w',
    logoutClient Fixture.env0 Scenario.carol_logout Fixture.w_carol_logged_in = (Ret resp, w') /\
    res_status resp = 200 /\
    res_cleared resp = ["accessToken"; "refreshToken"] /\
    forall env' req' tk t,
      js_or (cookies req' !! "refreshToken") (body_refreshToken req') = Some tk ->
      tk = Jwt t -> tok_id t = p_id (client_principal Fixture.carol_id Fixture.carol) ->
      succeeded (refreshClientAccessToken env' req' w').1 = false.
Proof.
  apply (client_logout_invalidates_refresh_tokens Fixture.env0 Scenario.carol_logout
           Fixture.w_carol_logged_in).
  reflexivity.
Defined.

Lemma admin_logout_invalidates_refresh_tokens_witness :
  exists resp w',
    logoutAdmin Fixture.env0 Scenario.root_logout Fixture.w_root_logged_in = (Ret resp, w') /\
    res_status resp = 200 /\
    res_cleared resp = ["adminAccessToken"; "adminRefreshToken"] /\
    forall env' req' tk t,
      js_or (cookies req' !! "adminRefreshToken") (body_refreshToken req') = Some tk ->
      tk = Jwt t -> tok_id t = p_id (admin_principal Fixture.root_id Fixture.root) ->
      succeeded (verifyAdminRefreshToken env' req' w').1 = false /\
      succeeded (refreshAdminToken env' req' w').1 = false.
Proof.
  apply (admin_logout_invalidates_refresh_tokens Fixture.env0 Scenario.root_logout
           Fixture.w_root_logged_in).
  reflexivity.
Defined.

Lemma createAdmin_creates_a_bounded_account_witness :
  exists id a,
    (exists me, req_admin (Fixture.root_creates_admin "Str0ng!pass") = Some me /\ p_role me = "superadmin") /\
    admins (db Fixture.w0) !! id = None /\
    db (createAdmin Fixture.env0 (Fixture.root_creates_admin "Str0ng!pass") Fixture.w0).2 = set_admins (insert id a) (db Fixture.w0) /\
    In (a_role a) ["admin"; "moderator"; "client"] /\
    is_hashed (a_password a) = true /\
    (forall flag, In flag control_flags -> a_permissions a !! flag = Some false) /\
    (a_role a = "client" -> forall flag v, a_permissions a !! flag = Some v -> v = false).
Proof.
  apply (createAdmin_creates_a_bounded_account Fixture.env0
           (Fixture.root_creates_admin "Str0ng!pass") Fixture.w0).
  vm_compute. reflexivity.
Defined.

Lemma admin_password_change_takes_effect_witness :
  exists me a0 a,
    req_admin Fixture.root_changes_password = Some me /\
    admins (db Fixture.w0) !! p_id me = Some a0 /\
    db (changePassword Fixture.env0 Fixture.root_changes_password Fixture.w0).2 = set_admins (insert (p_id me) a) (db Fixture.w0) /\
    a_password a = bcrypt.hash (str (body Fixture.root_changes_password !! "newPassword")) 12 /\
    AdminModel.comparePassword a (str (body Fixture.root_changes_password !! "newPassword")) = true /\
    AdminModel.comparePassword a (str (body Fixture.root_changes_password !! "currentPassword"))
      = String.eqb (bcrypt.truncate (str (body Fixture.root_changes_password !! "currentPassword")))
                   (bcrypt.truncate (str (body Fixture.root_changes_password !! "newPassword"))) /\
    (String.length (str (body Fixture.root_changes_password !! "currentPassword")) <= 72 ->
     String.length (str (body Fixture.root_changes_password !! "newPassword")) <= 72 ->
     AdminModel.comparePassword a (str (body Fixture.root_changes_password !! "currentPassword")) = false) /\
    a_role a = a_role a0 /\ a_email a = a_email a0 /\
    a_permissions a = a_permissions a0 /\ a_isActive a = a_isActive a0 /\
    forall env' req' tk t,
      js_or (cookies req' !! "adminRefreshToken") (body_refreshToken req') = Some tk ->
      tk = Jwt t -> tok_id t = p_id me ->
      succeeded (verifyAdminRefreshToken env' req' (changePassword Fixture.env0 Fixture.root_changes_password Fixture.w0).2).1 = false.
Proof.
  apply (admin_password_change_takes_effect Fixture.env0 Fixture.root_changes_password
           Fixture.w0).
  vm_compute. reflexivity.
Defined.

Lemma createSuperadmin_works_once_witness :
  (forall j b, admins (db Scenario.w_empty) !! j = Some b -> a_role b <> "superadmin")
  /\ (exists a,
        admins (db (createSuperadmin Fixture.env0 Scenario.first_superadmin Scenario.w_empty).2) !! new_ObjectId Fixture.env0 = Some a /\
        a_role a = "superadmin" /\ a_isActive a = true /\
        is_hashed (a_password a) = true /\
        forall flag, In flag AdminModel.flag_names ->
                     a_permissions a !! flag = Some true)
  /\ (forall env' req',
        (createSuperadmin env' req' (createSuperadmin Fixture.env0 Scenario.first_superadmin Scenario.w_empty).2).1
          = Throw (ApiErr 403 "Superadmin already exists")
        /\ db (createSuperadmin env' req' (createSuperadmin Fixture.env0 Scenario.first_superadmin Scenario.w_empty).2).2
           = db (createSuperadmin Fixture.env0 Scenario.first_superadmin Scenario.w_empty).2).
Proof.
  apply (createSuperadmin_works_once Fixture.env0 Scenario.first_superadmin
           Scenario.w_empty).
  vm_compute. reflexivity.
Defined.


Lemma toggling_twice_restores_the_service_witness :
  services (db (toggleServiceStatus Fixture.env0 Scenario.root_toggles Fixture.w0).2) !! str (params Scenario.root_toggles !! "serviceId")
    = Some (s_with_status Fixture.alices_service (if String.eqb (s_status Fixture.alices_service) "active"
                             then "inactive" else "active"))
  /\ succeeded (toggleServiceStatus Fixture.env0 Scenario.root_toggles (toggleServiceStatus Fixture.env0 Scenario.root_toggles Fixture.w0).2).1 = true
  /\ services (db (toggleServiceStatus Fixture.env0 Scenario.root_toggles (toggleServiceStatus Fixture.env0 Scenario.root_toggles Fixture.w0).2).2)
       = services (db Fixture.w0).
Proof.
  apply (toggling_twice_restores_the_service Fixture.env0 Scenario.root_toggles
           Fixture.w0 Fixture.alices_service).
  - vm_compute. reflexivity.
  - vm_compute. reflexivity.
  - left. reflexivity.
Defined.

Lemma createService_records_its_creator_witness :
  exists me a s,
    req_admin Scenario.root_creates_service = Some me /\
    admins (db Fixture.w0) !! p_id me = Some a /\
    (a_role a = "superadmin" \/ a_permissions a !! "manageServices" = Some true) /\
    services (db Fixture.w0) !! new_ObjectId Fixture.env0 = None /\
    db (createService Fixture.env0 Scenario.root_creates_service Fixture.w0).2
      = set_services (insert (new_ObjectId Fixture.env0) s) (db Fixture.w0) /\
    s_createdBy s = p_id me /\ s_status s = "active" /\ s_thumbnail s = None /\
    s_title s <> "" /\ s_description s <> "" /\ (0 <= s_price s)%Z.
Proof.
  apply (createService_records_its_creator Fixture.env0 Scenario.root_creates_service
           Fixture.w0).
  vm_compute. reflexivity.
Defined.


Lemma registration_token_verifies_the_email_witness :
  exists c token,
    clients (db (registerClient Fixture.env0 Fixture.bob_registration Fixture.w0).2) !! new_ObjectId Fixture.env0 = Some c /\
    c_isEmailVerified c = false /\
    c_verificationToken c = JVal token /\
    (verifyClientEmail Fixture.env0 (Some token) (registerClient Fixture.env0 Fixture.bob_registration Fixture.w0).2).1
      = Ret (json 200 DEmpty "Email verified successfully") /\
    clients (db (verifyClientEmail Fixture.env0 (Some token) (registerClient Fixture.env0 Fixture.bob_registration Fixture.w0).2).2)
      !! new_ObjectId Fixture.env0 = Some (c_verified c) /\
    (verifyClientEmail Fixture.env0 (Some token)
       (verifyClientEmail Fixture.env0 (Some token) (registerClient Fixture.env0 Fixture.bob_registration Fixture.w0).2).2).1
      = Throw (ApiErr 400 "Email already verified").
Proof.
  apply (registration_token_verifies_the_email Fixture.env0 Fixture.bob_registration
           Fixture.w0).
  - vm_compute. reflexivity.
  - discriminate.
Defined.

Lemma unverified_client_authenticates_with_the_mailed_token_witness :
  exists c token,
    clients (db (registerClient Fixture.env0 Fixture.bob_registration Fixture.w0).2) !! new_ObjectId Fixture.env0 = Some c /\
    c_verificationToken c = JVal token /\
    (forall login,
       body login !! "email" = Some (c_email c) ->
       falsy (body login !! "password") = false ->
       (loginClient Fixture.env0 login (registerClient Fixture.env0 Fixture.bob_registration Fixture.w0).2).1
         = Throw (ApiErr 403 "Please verify your email first")) /\
    (forall req',
       js_or (cookies req' !! "accessToken") (bearer req') = Some token ->
       (verifyJwt Fixture.env0 req' (registerClient Fixture.env0 Fixture.bob_registration Fixture.w0).2).1
         = Ret (attach_client req'
                  (Some {| p_id := new_ObjectId Fixture.env0; p_role := c_role c;
                           p_email := c_email c |}))).
Proof.
  apply (unverified_client_authenticates_with_the_mailed_token Fixture.env0
           Fixture.bob_registration Fixture.w0).
  - vm_compute. reflexivity.
  - discriminate.
Defined.


Lemma stored_passwords_stay_hashed_witness :
  passwords_hashed
    (db (changeClientPassword Fixture.env0 Fixture.carol_changes_password Fixture.w0).2).
Proof.
  apply (stored_passwords_stay_hashed changeClientPassword Fixture.env0
           Fixture.carol_changes_password Fixture.w0).
  - simpl. tauto.
  - split; intros id x Hx; apply elem_of_map_to_list in Hx; vm_compute in Hx;
      apply list_elem_of_In in Hx; simpl in Hx;
      repeat (destruct Hx as [Hx|Hx]; [by injection Hx as <- <-|]); destruct Hx.
Defined.

Lemma superadmin_stays_unique_witness :
  at_most_one_superadmin
    (db (createSuperadmin Fixture.env0 Scenario.first_superadmin Scenario.w_empty).2)
  /\ at_most_one_superadmin
       (db (createSuperadmin Fixture.env0 Scenario.first_superadmin
              (createSuperadmin Fixture.env0 Scenario.first_superadmin
                 Scenario.w_empty).2).2).
Proof.
  assert (H : at_most_one_superadmin
    (db (createSuperadmin Fixture.env0 Scenario.first_superadmin Scenario.w_empty).2)).
  { apply (superadmin_stays_unique createSuperadmin Fixture.env0
             Scenario.first_superadmin Scenario.w_empty).
    - simpl. tauto.
    - intros i j a b Hi. simpl in Hi. rewrite lookup_empty in Hi. discriminate. }
  split; [exact H|].
  apply (superadmin_stays_unique createSuperadmin Fixture.env0
           Scenario.first_superadmin); [simpl; tauto | exact H].
Defined.

Lemma transactions_are_settled_witness :
  settled 0 TxCommitted
    (deleteService Fixture.env0 Fixture.service_deletion Fixture.w0).2
  /\ settled 0 TxAborted
       (registerClient (Fixture.mail_down Fixture.env0) Fixture.bob_registration
          Fixture.w0).2.
Proof.
  split.
  - apply (transactions_are_settled deleteService Fixture.env0
             Fixture.service_deletion Fixture.w0).
    simpl. tauto.
  - apply (transactions_are_settled registerClient (Fixture.mail_down Fixture.env0)
             Fixture.bob_registration Fixture.w0).
    simpl. tauto.
Defined.

Lemma verifyClientEmail_token_errors_witness :
  db (verifyClientEmail Fixture.env0 (Some (Jwt Scenario.stale_token)) Fixture.w0).2
    = db Fixture.w0
  /\ (verifyClientEmail Fixture.env0 (Some (Jwt Scenario.stale_token)) Fixture.w0).1
       = Throw (JsErr "TokenExpiredError" "jwt expired" None)
  /\ status_of
       (verifyClientEmail Fixture.env0 (Some (Jwt Scenario.stale_token)) Fixture.w0).1
     = 500.
Proof.
  apply (verifyClientEmail_token_errors Fixture.env0 (Jwt Scenario.stale_token)
           Fixture.w0 (JsErr "TokenExpiredError" "jwt expired" None));
    reflexivity.
Defined.
